(** * Blender MCP bridge: the socket protocol of the MCP server and of the
      Blender addon, embedded from [src/blender_mcp_server/server.py]
      (identical in [simple_server.py]) and [blender_addon/__init__.py]. *)

From Stdlib Require Import ZArith List String Ascii Bool Lia.
From Stdlib Require Import DecimalString.
From stdpp Require Import base option list gmap strings.

Set Warnings "-register-all".
Local Open Scope string_scope.
Local Open Scope list_scope.
Local Open Scope Z_scope.

(** ** Python values *)

(** A Python [bytes] object: one [ascii] per byte. *)
Abbreviation bytes := string (only parsing).

(** A Python [str], carried by its UTF-8 encoding (a lone surrogate, which a
    JSON escape can produce, by the three bytes of the generalised encoding).
    [s.encode('utf-8')] is then the identity on the strings of this
    development, and [b.decode('utf-8')] a validity check. *)
Abbreviation str := string (only parsing).

(** The values [json.loads] produces and [json.dumps] accepts.  A [float] is
    carried by its literal; a [dict] by its items in insertion order. *)
Inductive json : Type :=
| JNull
| JBool (b : bool)
| JInt (z : Z)
| JFloat (lit : str)
| JStr (s : str)
| JArr (xs : list json)
| JObj (items : list (str * json)).

(** The exception classes the code raises or catches, with the part of
    Python's class hierarchy that its [except] clauses look at. *)
Inductive exn_class :=
| Exception_
| OSError_
| socket_timeout
| ConnectionError_
| BrokenPipeError
| ConnectionResetError
| ConnectionRefusedError
| ValueError_
| JSONDecodeError
| UnicodeDecodeError
| UnicodeEncodeError
| RuntimeError_
| RecursionError
| AttributeError
| TypeError.

Record exn := Exn { exn_cls : exn_class; exn_msg : str }.

Definition exn_class_eqb (a b : exn_class) : bool :=
  match a, b with
  | Exception_, Exception_ | OSError_, OSError_
  | socket_timeout, socket_timeout | ConnectionError_, ConnectionError_
  | BrokenPipeError, BrokenPipeError
  | ConnectionResetError, ConnectionResetError
  | ConnectionRefusedError, ConnectionRefusedError
  | ValueError_, ValueError_ | JSONDecodeError, JSONDecodeError
  | UnicodeDecodeError, UnicodeDecodeError
  | UnicodeEncodeError, UnicodeEncodeError
  | RuntimeError_, RuntimeError_ | RecursionError, RecursionError
  | AttributeError, AttributeError | TypeError, TypeError => true
  | _, _ => false
  end.

(** The direct base class; [None] for [Exception], the root of what the code
    catches. *)
Definition base_class (c : exn_class) : option exn_class :=
  match c with
  | Exception_ => None
  | OSError_ | ValueError_ | RuntimeError_ | AttributeError | TypeError =>
      Some Exception_
  | RecursionError => Some RuntimeError_
  | socket_timeout | ConnectionError_ => Some OSError_
  | BrokenPipeError | ConnectionResetError | ConnectionRefusedError =>
      Some ConnectionError_
  | JSONDecodeError | UnicodeDecodeError | UnicodeEncodeError =>
      Some ValueError_
  end.

(** [issubclass c k]; the hierarchy is three levels deep. *)
Definition issubclass (c k : exn_class) : bool :=
  exn_class_eqb c k ||
  match base_class c with
  | None => false
  | Some b =>
      exn_class_eqb b k ||
      match base_class b with
      | None => false
      | Some b' =>
          exn_class_eqb b' k ||
          match base_class b' with
          | None => false
          | Some b'' => exn_class_eqb b'' k
          end
      end
  end.

(** [isinstance(e, k)], what an [except k] clause tests. *)
Definition isinstance (e : exn) (k : exn_class) : bool :=
  issubclass (exn_cls e) k.

(** The outcome of a call that may raise. *)
Inductive res (A : Type) : Type :=
| Ret (a : A)
| Raise (e : exn).
Arguments Ret {A} a.
Arguments Raise {A} e.

(** An exception that is no [Exception]: a [SystemExit], a
    [KeyboardInterrupt], a [GeneratorExit] or an instance of another class
    that derives from [BaseException] alone, by the name of its class and
    its text.  An [except Exception] clause lets it through. *)
Record base_exn := BaseExn { base_cls : str; base_msg : str }.

(** The outcome of a call that runs code of the caller's choice: it
    returns, raises an [Exception], or raises what is no [Exception]. *)
Inductive outcome (A : Type) : Type :=
| Returns (a : A)
| Throws (e : exn)
| Escapes (x : base_exn).
Arguments Returns {A} a.
Arguments Throws {A} e.
Arguments Escapes {A} x.

(** The outcome of a function whose body is a [try] with an
    [except Exception] clause that returns: it returns, or what is no
    [Exception] leaves it. *)
Inductive guarded (A : Type) : Type :=
| Returned (a : A)
| Uncaught (x : base_exn).
Arguments Returned {A} a.
Arguments Uncaught {A} x.

(** [type(v).__name__] *)
Definition type_name (v : json) : str :=
  match v with
  | JNull => "NoneType"
  | JBool _ => "bool"
  | JInt _ => "int"
  | JFloat _ => "float"
  | JStr _ => "str"
  | JArr _ => "list"
  | JObj _ => "dict"
  end.

(** [d.get(key, default)] on the items of a dict. *)
Fixpoint dict_get (key : str) (items : list (str * json)) (default : json)
  : json :=
  match items with
  | [] => default
  | (k, v) :: rest =>
      if String.eqb k key then v else dict_get key rest default
  end.

(** [d[key] = v]: the value is replaced in place, a new key goes last. *)
Fixpoint dict_set (key : str) (v : json) (items : list (str * json))
  : list (str * json) :=
  match items with
  | [] => [(key, v)]
  | (k, x) :: rest =>
      if String.eqb k key then (k, v) :: rest
      else (k, x) :: dict_set key v rest
  end.

(** [v.get(key, default)] on any value: only a dict has the method. *)
Definition py_get (v : json) (key : str) (default : json) : res json :=
  match v with
  | JObj items => Ret (dict_get key items default)
  | _ =>
      Raise (Exn AttributeError
               ("'" +:+ type_name v +:+ "' object has no attribute 'get'"))
  end.

(** [v == s] for a string literal [s]. *)
Definition eq_str (v : json) (s : str) : bool :=
  match v with
  | JStr t => String.eqb t s
  | _ => false
  end.

(** [str(z)] of an int. *)
Definition str_of_int (z : Z) : str := NilZero.string_of_int (Z.to_int z).

(** *** Truth value of a float literal

    A decimal literal [m * 10^k] denotes the float [0.0] exactly when it is
    at most [2^-1075], half the least subnormal (round to nearest, ties to
    even). *)
Definition digit_of (c : ascii) : option Z :=
  let n := Z.of_N (N_of_ascii c) in
  if (48 <=? n) && (n <=? 57) then Some (n - 48) else None.

Fixpoint take_digits (s : string) : list Z * string :=
  match s with
  | String c rest =>
      match digit_of c with
      | Some d => let '(ds, r) := take_digits rest in (d :: ds, r)
      | None => ([], s)
      end
  | EmptyString => ([], s)
  end.

Definition digits_value (ds : list Z) : Z :=
  fold_left (fun acc d => 10 * acc + d) ds 0.

Definition drop_minus (s : string) : bool * string :=
  match s with
  | String "-" rest => (true, rest)
  | _ => (false, s)
  end.

Definition float_lit_is_zero (lit : str) : bool :=
  let '(_, s0) := drop_minus lit in
  let '(ip, s1) := take_digits s0 in
  let '(fp, s2) :=
    match s1 with
    | String "." r => take_digits r
    | _ => ([], s1)
    end in
  let e :=
    match s2 with
    | String c r =>
        if Ascii.eqb c "e" || Ascii.eqb c "E" then
          match r with
          | String "-" r' => - digits_value (fst (take_digits r'))
          | String "+" r' => digits_value (fst (take_digits r'))
          | _ => digits_value (fst (take_digits r))
          end
        else 0
    | EmptyString => 0
    end in
  match ip ++ fp with
  | [] => false
  | ds =>
      let m := digits_value ds in
      let k := e - Z.of_nat (length fp) in
      if m =? 0 then true
      else if 0 <=? k then false
      else m * 2 ^ 1075 <=? 10 ^ (- k)
  end.

(** [bool(v)] *)
Definition py_truthy (v : json) : bool :=
  match v with
  | JNull => false
  | JBool b => b
  | JInt z => negb (z =? 0)
  | JFloat lit => negb (float_lit_is_zero lit)
  | JStr s => negb (String.eqb s "")
  | JArr xs => match xs with [] => false | _ => true end
  | JObj items => match items with [] => false | _ => true end
  end.

(** The ways [json.loads(b.decode('utf-8'))] fails. *)
Inductive loads_failure :=
(** [json.JSONDecodeError]: the text is not a JSON document *)
| NotJSON (msg : str)
(** [UnicodeDecodeError]: the bytes are not UTF-8 *)
| NotUTF8 (msg : str)
(** [RecursionError]: the document is nested too deep *)
| TooDeep (msg : str)
(** [ValueError]: an int has more digits than the interpreter converts *)
| TooLong (msg : str).

Definition loads_exn (f : loads_failure) : exn :=
  match f with
  | NotJSON msg => Exn JSONDecodeError msg
  | NotUTF8 msg => Exn UnicodeDecodeError msg
  | TooDeep msg => Exn RecursionError msg
  | TooLong msg => Exn ValueError_ msg
  end.

(** ** The Python runtime

    What the code calls and the repository does not define: the [json]
    codec, [repr] of the values that have no fixed spelling here, and the
    sources of [uuid.uuid4()] and [time.time()], indexed by the number of
    commands stamped so far. *)
Class PyRuntime := {
  (** [json.loads(b.decode('utf-8'))] *)
  loads : bytes -> json + loads_failure;
  (** [json.dumps(v).encode('utf-8')] *)
  json_dumps : json -> bytes;
  (** [repr(v)] of a float, a list or a dict *)
  py_repr : json -> str;
  (** [str(uuid.uuid4())] *)
  uuid4 : nat -> str;
  (** [time.time()], a float *)
  time_time : nat -> str;
  (** [int(s)] of a string *)
  py_int : str -> res Z;
  (** the text of the [TypeError] of calling [f] with the keyword arguments
      [**v] when [v] is not a mapping, [f] as the source spells the callee *)
  mapping_error : str -> json -> str;
  (** [print(text)]: [None] when the text is written, and the
      [UnicodeEncodeError] when the console cannot encode it *)
  py_print : str -> option exn;
}.

(** [json.loads(b.decode('utf-8'))], as a call that may raise. *)
Definition json_loads `{PyRuntime} (b : bytes) : res json :=
  match loads b with
  | inl v => Ret v
  | inr f => Raise (loads_exn f)
  end.

(** [str(v)], also what an f-string field writes. *)
Definition py_str `{PyRuntime} (v : json) : str :=
  match v with
  | JNull => "None"
  | JBool true => "True"
  | JBool false => "False"
  | JInt z => str_of_int z
  | JStr s => s
  | JFloat _ | JArr _ | JObj _ => py_repr v
  end.

(** ** The network, as the server process sees it *)

(** What one [sock.recv(n)] call does: bytes arrive (none: the peer closed
    the stream) or the call raises. *)
Inductive recv_outcome :=
| Recv (chunk : bytes)
| RecvRaise (e : exn).

(** What the process did on a socket. *)
Inductive event :=
| EvConnect (fd : nat) (host : str) (port : Z) (ok : bool)
| EvSend (fd : nat) (message : bytes) (ok : bool)
| EvClose (fd : nat).

(** The environment of the process.  The scripts give the outcome of the
    next calls of each kind, in program order and whichever socket they are
    made on ([None]: the call succeeds); when a script is used up a
    connection attempt is refused, a [sendall] succeeds and a [recv] times
    out.  [stamps] counts the commands built so far, [trace] is what the
    process has done on its sockets, oldest first. *)
Record world := World {
  connect_script : list (option exn);
  send_script : list (option exn);
  recv_script : list recv_outcome;
  next_fd : nat;
  stamps : nat;
  trace : list event;
}.

Definition set_trace (w : world) (t : list event) : world :=
  World (connect_script w) (send_script w) (recv_script w) (next_fd w)
        (stamps w) t.

Definition log (ev : event) (w : world) : world :=
  set_trace w (trace w ++ [ev]).

Definition timed_out : exn := Exn socket_timeout "timed out".
Definition refused : exn :=
  Exn ConnectionRefusedError "[Errno 111] Connection refused".

(** Take the outcome of the next connection attempt, which uses a new
    socket. *)
Definition pop_connect (w : world) : option exn * world :=
  match connect_script w with
  | [] =>
      (Some refused,
       World [] (send_script w) (recv_script w) (S (next_fd w))
             (stamps w) (trace w))
  | o :: rest =>
      (o,
       World rest (send_script w) (recv_script w) (S (next_fd w))
             (stamps w) (trace w))
  end.

Definition pop_send (w : world) : option exn * world :=
  match send_script w with
  | [] => (None, w)
  | o :: rest =>
      (o,
       World (connect_script w) rest (recv_script w) (next_fd w)
             (stamps w) (trace w))
  end.

Definition set_recv_script (w : world) (s : list recv_outcome) : world :=
  World (connect_script w) (send_script w) s (next_fd w)
        (stamps w) (trace w).

Definition stamp (w : world) : world :=
  World (connect_script w) (send_script w) (recv_script w) (next_fd w)
        (S (stamps w)) (trace w).

(** ** [class BlenderConnection] (server.py) *)

Definition DEFAULT_HOST : str := "localhost".
Definition DEFAULT_PORT : Z := 9876.

(** The dataclass; [sock] is the descriptor of the socket object or
    [None]. *)
Record BlenderConnection := Conn {
  host : str;
  port : Z;
  sock : option nat;
}.

Definition set_sock (self : BlenderConnection) (s : option nat)
  : BlenderConnection :=
  Conn (host self) (port self) s.

(** [BlenderConnection.connect]: creating the socket, setting its timeout
    and connecting it are one attempt, whose failure at any of the three
    leaves [sock] at [None]. *)
Definition connect (self : BlenderConnection) (w : world)
  : bool * BlenderConnection * world :=
  match sock self with
  | Some _ => (true, self, w)
  | None =>
      let fd := next_fd w in
      let '(o, w1) := pop_connect w in
      match o with
      | None =>
          (true, set_sock self (Some fd),
           log (EvConnect fd (host self) (port self) true) w1)
      | Some _ =>
          (false, set_sock self None,
           log (EvConnect fd (host self) (port self) false) w1)
      end
  end.

(** [BlenderConnection.disconnect]: an error of [close] is logged and
    dropped. *)
Definition disconnect (self : BlenderConnection) (w : world)
  : BlenderConnection * world :=
  match sock self with
  | Some fd => (set_sock self None, log (EvClose fd) w)
  | None => (self, w)
  end.

(** [b''.join(chunks)] *)
Definition join (chunks : list bytes) : bytes := String.concat "" chunks.

Definition is_empty (b : bytes) : bool := String.eqb b "".

Definition is_nil {A} (l : list A) : bool :=
  match l with [] => true | _ => false end.

(** How the [while True] loop of [_receive_response] is left. *)
Inductive loop_exit :=
| LoopReturn (data : bytes)
| LoopRaise (e : exn)
| LoopBreak (chunks : list bytes).

(** The [except socket.timeout] clause around the loop body. *)
Definition on_raise (e : exn) (chunks : list bytes) : loop_exit :=
  if isinstance e socket_timeout then
    if is_nil chunks then LoopRaise e else LoopBreak chunks
  else LoopRaise e.

(** The loop of [_receive_response], one iteration per [recv]; the result
    comes with the part of the script that was not read. *)
Fixpoint recv_loop `{PyRuntime} (script : list recv_outcome)
  (chunks : list bytes) : loop_exit * list recv_outcome :=
  match script with
  | [] => (on_raise timed_out chunks, [])
  | RecvRaise e :: rest => (on_raise e chunks, rest)
  | Recv chunk :: rest =>
      if is_empty chunk then
        if is_nil chunks then
          (on_raise
             (Exn Exception_ "Connection closed before receiving data")
             chunks, rest)
        else (LoopBreak chunks, rest)
      else
        let chunks := chunks ++ [chunk] in
        let data := join chunks in
        match json_loads data with
        | Ret _ => (LoopReturn data, rest)
        | Raise e =>
            if isinstance e JSONDecodeError then recv_loop rest chunks
            else (on_raise e chunks, rest)
        end
  end.

Definition none_has_no (attr : str) : exn :=
  Exn AttributeError
      ("'NoneType' object has no attribute '" +:+ attr +:+ "'").

(** [BlenderConnection._receive_response]; [settimeout] on the open socket
    is taken to succeed. *)
Definition _receive_response `{PyRuntime} (self : BlenderConnection)
  (w : world) : res bytes * world :=
  match sock self with
  | None => (Raise (none_has_no "settimeout"), w)
  | Some _ =>
      let '(ex, rest) := recv_loop (recv_script w) [] in
      let w := set_recv_script w rest in
      match ex with
      | LoopReturn data => (Ret data, w)
      | LoopRaise e => (Raise e, w)
      | LoopBreak chunks =>
          if negb (is_nil chunks) then (Ret (join chunks), w)
          else (Raise (Exn Exception_ "No data received"), w)
      end
  end.

(** [params or {}] *)
Definition params_or_empty (params : option json) : json :=
  match params with
  | None => JObj []
  | Some p => if py_truthy p then p else JObj []
  end.

(** The command dict that [send_command] builds. *)
Definition build_command `{PyRuntime} (command_type : str)
  (params : option json) (n : nat) : json :=
  JObj [("type", JStr command_type);
        ("params", params_or_empty params);
        ("id", JStr (uuid4 n));
        ("timestamp", JFloat (time_time n))].

(** The body of the [try] of [send_command]. *)
Definition exchange `{PyRuntime} (self : BlenderConnection) (command : json)
  (w : world) : res json * world :=
  let message := json_dumps command in
  match sock self with
  | None => (Raise (none_has_no "sendall"), w)
  | Some fd =>
      let '(o, w) := pop_send w in
      match o with
      | Some e => (Raise e, log (EvSend fd message false) w)
      | None =>
          let w := log (EvSend fd message true) w in
          let '(r, w) := _receive_response self w in
          match r with
          | Raise e => (Raise e, w)
          | Ret response_data =>
              match json_loads response_data with
              | Raise e => (Raise e, w)
              | Ret response =>
                  match py_get response "status" JNull with
                  | Raise e => (Raise e, w)
                  | Ret status =>
                      if eq_str status "error" then
                        match py_get response "message"
                                (JStr "Unknown error from Blender") with
                        | Raise e => (Raise e, w)
                        | Ret m => (Raise (Exn Exception_ (py_str m)), w)
                        end
                      else
                        (py_get response "result" (JObj []), w)
                  end
              end
          end
      end
  end.

(** The three [except] clauses of [send_command], in order: each drops the
    socket and raises a plain [Exception]. *)
Definition reraise (e : exn) : exn :=
  if isinstance e socket_timeout then
    Exn Exception_ "Timeout waiting for Blender response"
  else if isinstance e ConnectionError_ || isinstance e BrokenPipeError
          || isinstance e ConnectionResetError then
    Exn Exception_ ("Connection to Blender lost: " +:+ exn_msg e)
  else
    Exn Exception_ ("Communication error with Blender: " +:+ exn_msg e).

(** [BlenderConnection.send_command] *)
Definition send_command `{PyRuntime} (self : BlenderConnection)
  (command_type : str) (params : option json) (w : world)
  : res json * BlenderConnection * world :=
  let '(connected, self, w) :=
    match sock self with
    | Some _ => (true, self, w)
    | None => connect self w
    end in
  if negb connected then
    (Raise (Exn ConnectionError_ "Not connected to Blender"), self, w)
  else
    let command := build_command command_type params (stamps w) in
    let w := stamp w in
    let '(r, w) := exchange self command w in
    match r with
    | Ret result => (Ret result, self, w)
    | Raise e => (Raise (reraise e), set_sock self None, w)
    end.

(** ** The module state of server.py *)

(** Connection objects live in a store and are named by their index, so
    that two names of one object see each other's updates. *)
Record server := Server {
  heap : list BlenderConnection;
  _blender_connection : option nat;
  environ : list (str * str);
  existing_files : list str;
  net : world;
}.

Definition set_global (s : server) (g : option nat) : server :=
  Server (heap s) g (environ s) (existing_files s) (net s).

(** Store [c] at [l] and replace the world. *)
Definition update (s : server) (l : nat) (c : BlenderConnection) (w : world)
  : server :=
  Server (<[l := c]> (heap s)) (_blender_connection s) (environ s)
         (existing_files s) w.

(** [BlenderConnection(host=..., port=...)]: a new object. *)
Definition new_connection (s : server) (h : str) (p : Z) : nat * server :=
  (length (heap s),
   Server (heap s ++ [Conn h p None]) (_blender_connection s) (environ s)
          (existing_files s) (net s)).

(** The object named [l]. *)
Definition deref (s : server) (l : nat) : BlenderConnection :=
  default (Conn "" 0 None) (heap s !! l).

(** The methods, called on an object of the store. *)
Definition call_send_command `{PyRuntime} (l : nat) (command_type : str)
  (params : option json) (s : server) : res json * server :=
  let '(r, c, w) := send_command (deref s l) command_type params (net s) in
  (r, update s l c w).

Definition call_connect (l : nat) (s : server) : bool * server :=
  let '(b, c, w) := connect (deref s l) (net s) in
  (b, update s l c w).

Definition call_disconnect (l : nat) (s : server) : server :=
  let '(c, w) := disconnect (deref s l) (net s) in
  update s l c w.

(** [os.getenv(name, default)] *)
Fixpoint getenv (name : str) (env : list (str * str)) : option str :=
  match env with
  | [] => None
  | (k, v) :: rest => if String.eqb k name then Some v else getenv name rest
  end.

Definition could_not_connect : exn :=
  Exn Exception_
    "Could not connect to Blender. Make sure the Blender addon is running.".

(** The second half of [get_blender_connection], under
    [if _blender_connection is None]. *)
Definition create_connection `{PyRuntime} (s : server) : res nat * server :=
  match _blender_connection s with
  | Some l => (Ret l, s)
  | None =>
      let h := default DEFAULT_HOST (getenv "BLENDER_HOST" (environ s)) in
      let p :=
        match getenv "BLENDER_PORT" (environ s) with
        | Some v => py_int v
        | None => Ret DEFAULT_PORT
        end in
      match p with
      | Raise e => (Raise e, s)
      | Ret p =>
          let '(l, s) := new_connection s h p in
          let s := set_global s (Some l) in
          let '(ok, s) := call_connect l s in
          if negb ok then (Raise could_not_connect, s)
          else (Ret l, s)
      end
  end.

(** [get_blender_connection] *)
Definition get_blender_connection `{PyRuntime} (s : server)
  : res nat * server :=
  match _blender_connection s with
  | Some l =>
      let '(r, s) := call_send_command l "ping" None s in
      match r with
      | Ret _ => (Ret l, s)
      | Raise _ =>
          let s := call_disconnect l s in
          create_connection (set_global s None)
      end
  | None => create_connection s
  end.

(** ** The tools that ask for confirmation (server.py) *)

(** What the seven tools do once confirmed: get the connection, send the
    command, and turn the result or any exception into the returned text.
    [on_success] is the f-string of the success branch. *)
Definition run_tool `{PyRuntime} (command_type : str) (params : option json)
  (on_success : json -> res str) (failed : str) (s : server) : str * server :=
  let '(r, s) := get_blender_connection s in
  match r with
  | Raise e => (failed +:+ exn_msg e, s)
  | Ret blender =>
      let '(r, s) := call_send_command blender command_type params s in
      match r with
      | Raise e => (failed +:+ exn_msg e, s)
      | Ret result =>
          match py_get result "success" JNull with
          | Raise e => (failed +:+ exn_msg e, s)
          | Ret ok =>
              if py_truthy ok then
                match on_success result with
                | Raise e => (failed +:+ exn_msg e, s)
                | Ret text => (text, s)
                end
              else
                match py_get result "message" (JStr "Unknown error") with
                | Raise e => (failed +:+ exn_msg e, s)
                | Ret m => (failed +:+ py_str m, s)
                end
          end
      end
  end.

Definition delete_scene `{PyRuntime} (scene_name : str) (confirm : bool)
  (s : server) : str * server :=
  if negb confirm then
    ("Scene deletion requires confirmation=True parameter", s)
  else
    run_tool "delete_scene" (Some (JObj [("scene_name", JStr scene_name)]))
      (fun _ => Ret ("Scene '" +:+ scene_name +:+ "' deleted successfully"))
      "Failed to delete scene: " s.

Definition clear_scene `{PyRuntime} (confirm : bool) (s : server)
  : str * server :=
  if negb confirm then
    ("Scene clearing requires confirmation=True parameter", s)
  else
    run_tool "clear_scene" None
      (fun result =>
         match py_get result "deleted_count" (JInt 0) with
         | Raise e => Raise e
         | Ret n =>
             Ret ("Scene cleared successfully. " +:+ py_str n
                  +:+ " objects removed")
         end)
      "Failed to clear scene: " s.

Definition delete_object `{PyRuntime} (object_name : str) (confirm : bool)
  (s : server) : str * server :=
  if negb confirm then
    ("Object deletion requires confirmation=True parameter", s)
  else
    run_tool "delete_object" (Some (JObj [("object_name", JStr object_name)]))
      (fun _ => Ret ("Object '" +:+ object_name +:+ "' deleted successfully"))
      "Failed to delete object: " s.

Definition delete_material `{PyRuntime} (material_name : str)
  (confirm : bool) (s : server) : str * server :=
  if negb confirm then
    ("Material deletion requires confirmation=True parameter", s)
  else
    run_tool "delete_material"
      (Some (JObj [("material_name", JStr material_name)]))
      (fun _ =>
         Ret ("Material '" +:+ material_name +:+ "' deleted successfully"))
      "Failed to delete material: " s.

Definition remove_modifier `{PyRuntime} (object_name modifier_name : str)
  (confirm : bool) (s : server) : str * server :=
  if negb confirm then
    ("Modifier removal requires confirmation=True parameter", s)
  else
    run_tool "remove_modifier"
      (Some (JObj [("object_name", JStr object_name);
                   ("modifier_name", JStr modifier_name)]))
      (fun _ =>
         Ret ("Modifier '" +:+ modifier_name +:+ "' removed from '"
              +:+ object_name +:+ "'"))
      "Failed to remove modifier: " s.

Definition clear_animation `{PyRuntime} (object_name : str) (confirm : bool)
  (s : server) : str * server :=
  if negb confirm then
    ("Animation clearing requires confirmation=True parameter", s)
  else
    run_tool "clear_animation"
      (Some (JObj [("object_name", JStr object_name)]))
      (fun _ => Ret ("Animation cleared from '" +:+ object_name +:+ "'"))
      "Failed to clear animation: " s.

(** [os.path.exists(path)] *)
Definition path_exists (s : server) (path : str) : bool :=
  existsb (String.eqb path) (existing_files s).

Definition load_scene `{PyRuntime} (file_path : str) (confirm : bool)
  (s : server) : str * server :=
  if negb confirm then
    ("Scene loading requires confirmation=True parameter", s)
  else if negb (path_exists s file_path) then
    ("File not found: " +:+ file_path, s)
  else
    run_tool "load_scene" (Some (JObj [("file_path", JStr file_path)]))
      (fun _ => Ret ("Scene loaded successfully from " +:+ file_path))
      "Failed to load scene: " s.

(** ** The addon (blender_addon/__init__.py) *)

(** The calls into Blender that [execute_command] makes. *)
Inductive bpy_call :=
| primitive_cube_add (kwargs : list (str * json))
| primitive_uv_sphere_add (kwargs : list (str * json))
| primitive_cylinder_add (kwargs : list (str * json))
(** [bpy.data.objects.remove(bpy.data.objects[name])] *)
| objects_remove (name : json)
(** [bpy.data.objects[name].location = location] *)
| set_location (name : json) (location : json)
(** [bpy.ops.render.render(write_still=True)] *)
| render_render
(** [bpy.ops.wm.save_as_mainfile(filepath=filepath)] *)
| save_as_mainfile (filepath : json).

(** The host application: its state, and what each call does to it.  A call
    of an operator returns or raises an [Exception]; [eval] runs the code
    it is given, which can raise anything. *)
Class Blender := {
  bpy : Type;
  bpy_do : bpy_call -> bpy -> res unit * bpy;
  (** [name in bpy.data.objects] *)
  objects_contains : json -> bpy -> res bool;
  (** [str(eval(code))] *)
  eval_str : json -> bpy -> outcome str * bpy;
}.

Definition success_message (text : str) : json :=
  JObj [("success", JBool true); ("message", JStr text)].

Definition failure (text : str) : json :=
  JObj [("success", JBool false); ("error", JStr text)].

(** The call of a Blender operator [f] with the keyword arguments
    [**params]. *)
Definition call_with_kwargs `{PyRuntime} `{Blender} (callee : str)
  (f : list (str * json) -> bpy_call) (params : json) (b : bpy)
  : res unit * bpy :=
  match params with
  | JObj kwargs => bpy_do (f kwargs) b
  | _ => (Raise (Exn TypeError (mapping_error callee params)), b)
  end.

(** [obj_name and obj_name in bpy.data.objects] as a condition. *)
Definition named_object_exists `{Blender} (obj_name : json) (b : bpy)
  : res bool :=
  if py_truthy obj_name then objects_contains obj_name b else Ret false.

(** The body of the [try] of [execute_command]. *)
Definition dispatch `{PyRuntime} `{Blender} (command : json) (b : bpy)
  : outcome json * bpy :=
  match py_get command "action" JNull with
  | Raise e => (Throws e, b)
  | Ret action =>
  match py_get command "params" (JObj []) with
  | Raise e => (Throws e, b)
  | Ret params =>
      if eq_str action "add_cube" then
        match call_with_kwargs "bpy.ops.mesh.primitive_cube_add"
                primitive_cube_add params b with
        | (Raise e, b) => (Throws e, b)
        | (Ret _, b) => (Returns (success_message "Cube added"), b)
        end
      else if eq_str action "add_sphere" then
        match call_with_kwargs "bpy.ops.mesh.primitive_uv_sphere_add"
                primitive_uv_sphere_add params b with
        | (Raise e, b) => (Throws e, b)
        | (Ret _, b) => (Returns (success_message "Sphere added"), b)
        end
      else if eq_str action "add_cylinder" then
        match call_with_kwargs "bpy.ops.mesh.primitive_cylinder_add"
                primitive_cylinder_add params b with
        | (Raise e, b) => (Throws e, b)
        | (Ret _, b) => (Returns (success_message "Cylinder added"), b)
        end
      else if eq_str action "delete_object" then
        match py_get params "name" JNull with
        | Raise e => (Throws e, b)
        | Ret obj_name =>
            match named_object_exists obj_name b with
            | Raise e => (Throws e, b)
            | Ret true =>
                match bpy_do (objects_remove obj_name) b with
                | (Raise e, b) => (Throws e, b)
                | (Ret _, b) =>
                    (Returns (success_message
                            ("Object '" +:+ py_str obj_name +:+ "' deleted")),
                     b)
                end
            | Ret false => (Returns (failure "Object not found"), b)
            end
        end
      else if eq_str action "move_object" then
        match py_get params "name" JNull with
        | Raise e => (Throws e, b)
        | Ret obj_name =>
        match py_get params "location"
                (JArr [JInt 0; JInt 0; JInt 0]) with
        | Raise e => (Throws e, b)
        | Ret location =>
            match named_object_exists obj_name b with
            | Raise e => (Throws e, b)
            | Ret true =>
                match bpy_do (set_location obj_name location) b with
                | (Raise e, b) => (Throws e, b)
                | (Ret _, b) =>
                    (Returns (success_message
                            ("Object '" +:+ py_str obj_name +:+ "' moved")),
                     b)
                end
            | Ret false => (Returns (failure "Object not found"), b)
            end
        end
        end
      else if eq_str action "render" then
        match bpy_do render_render b with
        | (Raise e, b) => (Throws e, b)
        | (Ret _, b) => (Returns (success_message "Render complete"), b)
        end
      else if eq_str action "save_file" then
        match py_get params "filepath" JNull with
        | Raise e => (Throws e, b)
        | Ret filepath =>
            match bpy_do (save_as_mainfile filepath) b with
            | (Raise e, b) => (Throws e, b)
            | (Ret _, b) =>
                (Returns (success_message ("File saved to " +:+ py_str filepath)),
                 b)
            end
        end
      else if eq_str action "eval" then
        match py_get params "code" JNull with
        | Raise e => (Throws e, b)
        | Ret code =>
            match eval_str code b with
            | (Throws e, b) => (Throws e, b)
            | (Escapes x, b) => (Escapes x, b)
            | (Returns text, b) =>
                (Returns (JObj [("success", JBool true);
                                ("result", JStr text)]), b)
            end
        end
      else
        (Returns (failure ("Unknown action: " +:+ py_str action)), b)
  end
  end.

(** [execute_command]: an [Exception] that the body raises becomes a
    failure dict; what is no [Exception] passes through the [except]
    clause. *)
Definition execute_command `{PyRuntime} `{Blender} (command : json) (b : bpy)
  : guarded json * bpy :=
  match dispatch command b with
  | (Returns result, b) => (Returned result, b)
  | (Throws e, b) => (Returned (failure (exn_msg e)), b)
  | (Escapes x, b) => (Uncaught x, b)
  end.

(** What [handle_client] did with one message: it sent a response, or an
    [Exception] took it to the outer [except] clause, or what is no
    [Exception] left the function through the [finally]. *)
Inductive served :=
| Replied (response : bytes)
| Dropped (e : exn)
| Left (x : base_exn).

(** The line that [handle_client] prints for a command. *)
Definition received_line `{PyRuntime} (action : json) : str :=
  "[MCP Bridge] Received command: " +:+ py_str action.

(** One turn of the loop of [handle_client] on the received [data]; [tx] is
    the outcome of the [sendall] of this turn, should there be one. *)
Definition handle_message `{PyRuntime} `{Blender} (data : bytes)
  (tx : option exn) (b : bpy) : served * bpy :=
  match json_loads data with
  | Ret command =>
      match py_get command "action" JNull with
      | Raise e => (Dropped e, b)
      | Ret action =>
          match py_print (received_line action) with
          | Some e => (Dropped e, b)
          | None =>
              match execute_command command b with
              | (Uncaught x, b) => (Left x, b)
              | (Returned result, b) =>
                  let response := json_dumps result in
                  match tx with
                  | None => (Replied response, b)
                  | Some e => (Dropped e, b)
                  end
              end
          end
      end
  | Raise e =>
      if isinstance e JSONDecodeError then
        let error_response :=
          json_dumps (failure ("Invalid JSON: " +:+ exn_msg e)) in
        match tx with
        | None => (Replied error_response, b)
        | Some e' => (Dropped e', b)
        end
      else (Dropped e, b)
  end.

(** One turn of the client loop as the environment decides it: the value of
    [server_running] at the loop test, what [recv] does, what a [sendall]
    does. *)
Record turn := Turn {
  running : bool;
  rx : recv_outcome;
  tx : option exn;
}.

(** What the handler does on the client socket. *)
Inductive client_event :=
| Sent (response : bytes)
| Closed.

(** [handle_client]: the events on the client socket, oldest first.  When
    the script is used up the handler is blocked in [recv] (the accepted
    socket has no timeout) and the socket stays open.  The two lines that
    the handler prints on its way out are fixed text or the text of an
    exception, and are taken to be written. *)
Fixpoint handle_client `{PyRuntime} `{Blender} (script : list turn) (b : bpy)
  : list client_event * bpy :=
  match script with
  | [] => ([], b)
  | t :: rest =>
      if negb (running t) then ([Closed], b)
      else
        match rx t with
        | RecvRaise _ => ([Closed], b)
        | Recv data =>
            if is_empty data then ([Closed], b)
            else
              match handle_message data (tx t) b with
              | (Replied response, b) =>
                  let '(evs, b) := handle_client rest b in
                  (Sent response :: evs, b)
              | (Dropped _, b) | (Left _, b) => ([Closed], b)
              end
        end
  end.

(** ** A reference runtime

    CPython's [json] codec on UTF-8 bytes, to run the definitions on concrete
    messages.  Not reproduced: the text of a decoding error (a fixed text
    stands for it), the limits on the nesting depth and on the digits of an
    int, and the normalisation of a float literal. *)

Definition code (c : ascii) : Z := Z.of_N (N_of_ascii c).
Definition chr (n : Z) : ascii := ascii_of_N (Z.to_N n).
Definition dquote : ascii := chr 34.
Definition backslash : ascii := chr 92.

Definition between (lo n hi : Z) : bool := (lo <=? n) && (n <=? hi).

(** Well-formed UTF-8, as the strict [utf-8] codec accepts it. *)
Fixpoint utf8_valid (s : string) : bool :=
  match s with
  | EmptyString => true
  | String c0 r0 =>
      let b0 := code c0 in
      if b0 <? 128 then utf8_valid r0
      else
        match r0 with
        | EmptyString => false
        | String c1 r1 =>
            let b1 := code c1 in
            if between 194 b0 223 then between 128 b1 191 && utf8_valid r1
            else
              match r1 with
              | EmptyString => false
              | String c2 r2 =>
                  let b2 := code c2 in
                  if between 224 b0 239 then
                    (if b0 =? 224 then between 160 b1 191
                     else if b0 =? 237 then between 128 b1 159
                     else between 128 b1 191)
                    && between 128 b2 191 && utf8_valid r2
                  else
                    match r2 with
                    | EmptyString => false
                    | String c3 r3 =>
                        between 240 b0 244
                        && (if b0 =? 240 then between 144 b1 191
                            else if b0 =? 244 then between 128 b1 143
                            else between 128 b1 191)
                        && between 128 b2 191
                        && between 128 (code c3) 191 && utf8_valid r3
                    end
              end
        end
  end.

(** The bytes of a code point (of a lone surrogate too). *)
Definition utf8_encode (cp : Z) : string :=
  if cp <? 128 then String (chr cp) ""
  else if cp <? 2048 then
    String (chr (192 + cp / 64)) (String (chr (128 + cp mod 64)) "")
  else if cp <? 65536 then
    String (chr (224 + cp / 4096))
      (String (chr (128 + (cp / 64) mod 64))
         (String (chr (128 + cp mod 64)) ""))
  else
    String (chr (240 + cp / 262144))
      (String (chr (128 + (cp / 4096) mod 64))
         (String (chr (128 + (cp / 64) mod 64))
            (String (chr (128 + cp mod 64)) ""))).

Definition is_ws (c : ascii) : bool :=
  let n := code c in (n =? 32) || (n =? 9) || (n =? 10) || (n =? 13).

Fixpoint skip_ws (s : string) : string :=
  match s with
  | String c r => if is_ws c then skip_ws r else s
  | EmptyString => s
  end.

Definition hex_of (c : ascii) : option Z :=
  let n := code c in
  if between 48 n 57 then Some (n - 48)
  else if between 97 n 102 then Some (n - 87)
  else if between 65 n 70 then Some (n - 55)
  else None.

(** Four hex digits. *)
Definition hex4 (s : string) : option (Z * string) :=
  match s with
  | String a (String b (String c (String d r))) =>
      match hex_of a, hex_of b, hex_of c, hex_of d with
      | Some x, Some y, Some z, Some t =>
          Some (((x * 16 + y) * 16 + z) * 16 + t, r)
      | _, _, _, _ => None
      end
  | _ => None
  end.

(** A low surrogate escape at the head of [s]. *)
Definition low_surrogate (s : string) : option (Z * string) :=
  match s with
  | String e (String u r) =>
      if Ascii.eqb e backslash && Ascii.eqb u "u" then
        match hex4 r with
        | Some (lo, r') =>
            if between 56320 lo 57343 then Some (lo, r') else None
        | None => None
        end
      else None
  | _ => None
  end.

(** The body of a string literal up to its closing quote, decoded. *)
Fixpoint scan_string (fuel : nat) (s : string) : option (str * string) :=
  match fuel, s with
  | S fuel, String c r =>
      let n := code c in
      if n =? 34 then Some ("", r)
      else if n <? 32 then None
      else if n =? 92 then
        match r with
        | String e r1 =>
            let k := code e in
            let simple (x : Z) :=
              match scan_string fuel r1 with
              | Some (t, r') => Some (String (chr x) t, r')
              | None => None
              end in
            if k =? 34 then simple 34
            else if k =? 92 then simple 92
            else if k =? 47 then simple 47
            else if k =? 98 then simple 8
            else if k =? 102 then simple 12
            else if k =? 110 then simple 10
            else if k =? 114 then simple 13
            else if k =? 116 then simple 9
            else if k =? 117 then
              match hex4 r1 with
              | Some (u, r2) =>
                  let '(cp, r3) :=
                    if between 55296 u 56319 then
                      match low_surrogate r2 with
                      | Some (lo, r') =>
                          (65536 + (u - 55296) * 1024 + (lo - 56320), r')
                      | None => (u, r2)
                      end
                    else (u, r2) in
                  match scan_string fuel r3 with
                  | Some (t, r') => Some (utf8_encode cp +:+ t, r')
                  | None => None
                  end
              | None => None
              end
            else None
        | EmptyString => None
        end
      else
        match scan_string fuel r with
        | Some (t, r') => Some (String c t, r')
        | None => None
        end
  | _, _ => None
  end.

Fixpoint span_digits (s : string) : string * string :=
  match s with
  | String c r =>
      if between 48 (code c) 57 then
        let '(d, r') := span_digits r in (String c d, r')
      else ("", s)
  | EmptyString => ("", s)
  end.

(** [s] without the prefix [p]. *)
Fixpoint strip_prefix (p s : string) : option string :=
  match p, s with
  | EmptyString, _ => Some s
  | String a p', String b s' =>
      if Ascii.eqb a b then strip_prefix p' s' else None
  | _, _ => None
  end.

(** A number: an optional minus, [0] or digits without a leading zero, then,
    each only when complete, a fraction (a dot and digits) and an exponent
    ([e] or [E], an optional sign, digits). *)
Definition scan_number (s : string) : option (json * string) :=
  let '(neg, s0) := drop_minus s in
  let sign := if neg then "-" else "" in
  match s0 with
  | String c r =>
      if between 48 (code c) 57 then
        let '(ip, s1) :=
          if code c =? 48 then ("0", r) else span_digits s0 in
        let '(fp, s2) :=
          match s1 with
          | String "." r1 =>
              match span_digits r1 with
              | (EmptyString, _) => ("", s1)
              | (d, r2) => ("." +:+ d, r2)
              end
          | _ => ("", s1)
          end in
        let '(ep, s3) :=
          match s2 with
          | String e r1 =>
              if Ascii.eqb e "e" || Ascii.eqb e "E" then
                let '(sg, r2) :=
                  match r1 with
                  | String "-" r' => ("-", r')
                  | String "+" r' => ("+", r')
                  | _ => ("", r1)
                  end in
                match span_digits r2 with
                | (EmptyString, _) => ("", s2)
                | (d, r3) => (String e (sg +:+ d), r3)
                end
              else ("", s2)
          | EmptyString => ("", s2)
          end in
        if String.eqb fp "" && String.eqb ep "" then
          let v := digits_value (fst (take_digits ip)) in
          Some (JInt (if neg then - v else v), s3)
        else Some (JFloat (sign +:+ ip +:+ fp +:+ ep), s3)
      else None
  | EmptyString => None
  end.

Definition scan_constant (s : string) : option (json * string) :=
  match strip_prefix "null" s with
  | Some r => Some (JNull, r)
  | None =>
  match strip_prefix "true" s with
  | Some r => Some (JBool true, r)
  | None =>
  match strip_prefix "false" s with
  | Some r => Some (JBool false, r)
  | None =>
  match strip_prefix "NaN" s with
  | Some r => Some (JFloat "NaN", r)
  | None =>
  match strip_prefix "Infinity" s with
  | Some r => Some (JFloat "Infinity", r)
  | None =>
  match strip_prefix "-Infinity" s with
  | Some r => Some (JFloat "-Infinity", r)
  | None => scan_number s
  end end end end end end.

(** A value at the head of [s], and what follows it. *)
Fixpoint parse_value (fuel : nat) (s : string) : option (json * string) :=
  match fuel with
  | O => None
  | S fuel =>
      match s with
      | String c r =>
          let n := code c in
          if n =? 34 then
            match scan_string (String.length r) r with
            | Some (t, r') => Some (JStr t, r')
            | None => None
            end
          else if n =? 91 then
            match skip_ws r with
            | String "]" r' => Some (JArr [], r')
            | r' => parse_elements fuel r' []
            end
          else if n =? 123 then
            match skip_ws r with
            | String "}" r' => Some (JObj [], r')
            | r' => parse_members fuel r' []
            end
          else scan_constant s
      | EmptyString => None
      end
  end
with parse_elements (fuel : nat) (s : string) (acc : list json)
  : option (json * string) :=
  match fuel with
  | O => None
  | S fuel =>
      match parse_value fuel s with
      | Some (v, r) =>
          match skip_ws r with
          | String "]" r' => Some (JArr (acc ++ [v]), r')
          | String "," r' => parse_elements fuel (skip_ws r') (acc ++ [v])
          | _ => None
          end
      | None => None
      end
  end
with parse_members (fuel : nat) (s : string) (acc : list (str * json))
  : option (json * string) :=
  match fuel with
  | O => None
  | S fuel =>
      match s with
      | String q r =>
          if code q =? 34 then
            match scan_string (String.length r) r with
            | Some (k, r1) =>
                match skip_ws r1 with
                | String ":" r2 =>
                    match parse_value fuel (skip_ws r2) with
                    | Some (v, r3) =>
                        match skip_ws r3 with
                        | String "}" r' => Some (JObj (dict_set k v acc), r')
                        | String "," r' =>
                            parse_members fuel (skip_ws r') (dict_set k v acc)
                        | _ => None
                        end
                    | None => None
                    end
                | _ => None
                end
            | None => None
            end
          else None
      | EmptyString => None
      end
  end.

(** [json.loads(data.decode('utf-8'))] *)
Definition ref_loads (data : bytes) : json + loads_failure :=
  if negb (utf8_valid data) then
    inr (NotUTF8 "invalid UTF-8")
  else
    match parse_value (2 * String.length data + 2) (skip_ws data) with
    | Some (v, r) =>
        match skip_ws r with
        | EmptyString => inl v
        | _ => inr (NotJSON "not a JSON document")
        end
    | None => inr (NotJSON "not a JSON document")
    end.

(** The code points of a [str]. *)
Fixpoint utf8_decode (fuel : nat) (s : string) : list Z :=
  match fuel, s with
  | S fuel, String c r =>
      let b := code c in
      let low (x : ascii) := code x - 128 in
      if b <? 192 then b :: utf8_decode fuel r
      else if b <? 224 then
        match r with
        | String c1 r1 => ((b - 192) * 64 + low c1) :: utf8_decode fuel r1
        | _ => [b]
        end
      else if b <? 240 then
        match r with
        | String c1 (String c2 r2) =>
            (((b - 224) * 64 + low c1) * 64 + low c2) :: utf8_decode fuel r2
        | _ => [b]
        end
      else
        match r with
        | String c1 (String c2 (String c3 r3)) =>
            ((((b - 240) * 64 + low c1) * 64 + low c2) * 64 + low c3)
              :: utf8_decode fuel r3
        | _ => [b]
        end
  | _, _ => []
  end.

Definition hex_digit (n : Z) : ascii :=
  if n <? 10 then chr (48 + n) else chr (87 + n).

Definition hex2 (n : Z) : string :=
  String (hex_digit (n / 16 mod 16)) (String (hex_digit (n mod 16)) "").

(** [\uXXXX] *)
Definition u_escape (n : Z) : string :=
  String backslash (String "u" (hex2 (n / 256) +:+ hex2 (n mod 256))).

(** How [json.dumps] (with [ensure_ascii]) writes one code point. *)
Definition dumps_char (cp : Z) : string :=
  let esc (c : ascii) := String backslash (String c "") in
  if cp =? 34 then esc dquote
  else if cp =? 92 then esc backslash
  else if cp =? 10 then esc "n"%char
  else if cp =? 13 then esc "r"%char
  else if cp =? 9 then esc "t"%char
  else if cp =? 12 then esc "f"%char
  else if cp =? 8 then esc "b"%char
  else if between 32 cp 126 then String (chr cp) ""
  else if cp <? 65536 then u_escape cp
  else
    let v := cp - 65536 in
    u_escape (55296 + v / 1024) +:+ u_escape (56320 + v mod 1024).

Definition dumps_str (s : str) : string :=
  String dquote
    (String.concat "" (map dumps_char (utf8_decode (String.length s) s))
     +:+ String dquote "").

(** [json.dumps(v)] with the default separators. *)
Fixpoint dumps (v : json) : string :=
  match v with
  | JNull => "null"
  | JBool true => "true"
  | JBool false => "false"
  | JInt z => str_of_int z
  | JFloat lit => lit
  | JStr s => dumps_str s
  | JArr xs =>
      "[" +:+
      (fix go (l : list json) : string :=
         match l with
         | [] => ""
         | x :: rest =>
             dumps x +:+
             match rest with [] => "" | _ => ", " +:+ go rest end
         end) xs
      +:+ "]"
  | JObj items =>
      "{" +:+
      (fix go (l : list (str * json)) : string :=
         match l with
         | [] => ""
         | (k, x) :: rest =>
             dumps_str k +:+ ": " +:+ dumps x +:+
             match rest with [] => "" | _ => ", " +:+ go rest end
         end) items
      +:+ "}"
  end.

Fixpoint contains_char (c : ascii) (s : string) : bool :=
  match s with
  | String x r => Ascii.eqb x c || contains_char c r
  | EmptyString => false
  end.

(** [repr(s)] of a [str]; a byte above 127 is kept, as for a printable
    character. *)
Definition repr_str (s : str) : string :=
  let q : ascii :=
    if contains_char "'" s && negb (contains_char dquote s)
    then dquote else "'"%char in
  let esc (c : ascii) := String backslash (String c "") in
  let one (c : ascii) : string :=
    let n := code c in
    if Ascii.eqb c q || (n =? 92) then esc c
    else if n =? 10 then esc "n"%char
    else if n =? 13 then esc "r"%char
    else if n =? 9 then esc "t"%char
    else if (n <? 32) || (n =? 127) then
      String backslash (String "x" (hex2 n))
    else String c "" in
  String q
    (String.concat "" (map one (list_ascii_of_string s)) +:+ String q "").

(** [repr(v)] *)
Fixpoint ref_repr (v : json) : string :=
  match v with
  | JNull => "None"
  | JBool true => "True"
  | JBool false => "False"
  | JInt z => str_of_int z
  | JFloat lit => lit
  | JStr s => repr_str s
  | JArr xs =>
      "[" +:+
      (fix go (l : list json) : string :=
         match l with
         | [] => ""
         | x :: rest =>
             ref_repr x +:+
             match rest with [] => "" | _ => ", " +:+ go rest end
         end) xs
      +:+ "]"
  | JObj items =>
      "{" +:+
      (fix go (l : list (str * json)) : string :=
         match l with
         | [] => ""
         | (k, x) :: rest =>
             repr_str k +:+ ": " +:+ ref_repr x +:+
             match rest with [] => "" | _ => ", " +:+ go rest end
         end) items
      +:+ "}"
  end.

(** [int(s)] of a decimal literal with an optional sign; neither blanks nor
    underscores. *)
Definition ref_int (s : str) : res Z :=
  let '(sign, body) :=
    match s with
    | String "-" r => (-1, r)
    | String "+" r => (1, r)
    | _ => (1, s)
    end in
  match take_digits body with
  | (d :: ds, EmptyString) => Ret (sign * digits_value (d :: ds))
  | _ =>
      Raise (Exn ValueError_
               ("invalid literal for int() with base 10: " +:+ repr_str s))
  end.

(** Stand-ins for the identifier and the clock: the [n]-th command gets an
    identifier and a time made from [n]. *)
Definition ref_uuid4 (n : nat) : str :=
  "00000000-0000-4000-8000-" +:+ str_of_int (100000000000 + Z.of_nat n).

Definition ref_time (n : nat) : str :=
  str_of_int (1700000000 + Z.of_nat n) +:+ ".0".

Definition ref_mapping_error (callee : str) (v : json) : str :=
  callee +:+ "() argument after ** must be a mapping, not " +:+ type_name v.

Definition is_surrogate (cp : Z) : bool := between 55296 cp 57343.

Fixpoint surrogate_run (cps : list Z) : Z :=
  match cps with
  | cp :: rest => if is_surrogate cp then 1 + surrogate_run rest else 0
  | [] => 0
  end.

(** The first lone surrogate of a text: its position, the code point, and
    how many surrogates stand there in a row. *)
Fixpoint first_surrogate (i : Z) (cps : list Z) : option (Z * Z * Z) :=
  match cps with
  | [] => None
  | cp :: rest =>
      if is_surrogate cp then Some (i, cp, surrogate_run cps)
      else first_surrogate (i + 1) rest
  end.

(** [print(text)] on a console whose encoding is UTF-8: a lone surrogate
    cannot be encoded. *)
Definition ref_print (text : str) : option exn :=
  match first_surrogate 0 (utf8_decode (String.length text) text) with
  | None => None
  | Some (i, cp, n) =>
      Some (Exn UnicodeEncodeError
              ("'utf-8' codec can't encode "
               +:+ (if n =? 1 then
                      "character '" +:+ u_escape cp +:+ "' in position "
                      +:+ str_of_int i
                    else
                      "characters in position " +:+ str_of_int i +:+ "-"
                      +:+ str_of_int (i + n - 1))
               +:+ ": surrogates not allowed"))
  end.

Definition ref_runtime : PyRuntime := {|
  loads := ref_loads;
  json_dumps := dumps;
  py_repr := ref_repr;
  uuid4 := ref_uuid4;
  time_time := ref_time;
  py_int := ref_int;
  mapping_error := ref_mapping_error;
  py_print := ref_print;
|}.

(** ** A stand-in for Blender

    A scene is the names of its objects, with the calls that went through.
    Enough to run the addon: an operator takes any keyword arguments, and
    [eval] knows the integer literals and the call [exit()]. *)
Record scene := Scene {
  objects : list str;
  calls : list bpy_call;
}.

Definition has_object (name : str) (sc : scene) : bool :=
  existsb (String.eqb name) (objects sc).

Definition pad3 (n : nat) : str :=
  let t := str_of_int (Z.of_nat n) in
  match String.length t with
  | 1%nat => "00" +:+ t
  | 2%nat => "0" +:+ t
  | _ => t
  end.

(** Blender's unique name: the base name, or the first free numbered one. *)
Definition unique_name (base : str) (sc : scene) : str :=
  let candidates :=
    base :: map (fun i => base +:+ "." +:+ pad3 i)
                (seq 1 (length (objects sc))) in
  match filter (fun n => negb (has_object n sc)) candidates with
  | n :: _ => n
  | [] => base
  end.

Definition add_object (base : str) (call : bpy_call) (sc : scene) : scene :=
  Scene (objects sc ++ [unique_name base sc]) (calls sc ++ [call]).

Definition key_error (what : str) : exn :=
  Exn TypeError ("bpy_prop_collection: expected a string, not " +:+ what).

Definition scene_do (call : bpy_call) (sc : scene) : res unit * scene :=
  match call with
  | primitive_cube_add _ => (Ret tt, add_object "Cube" call sc)
  | primitive_uv_sphere_add _ => (Ret tt, add_object "Sphere" call sc)
  | primitive_cylinder_add _ => (Ret tt, add_object "Cylinder" call sc)
  | objects_remove (JStr name) =>
      if has_object name sc then
        (Ret tt,
         Scene (filter (fun n => negb (String.eqb name n)) (objects sc))
               (calls sc ++ [call]))
      else
        (Raise (Exn Exception_
                  ("'bpy_prop_collection[key]: key " +:+ repr_str name
                   +:+ " not found'")), sc)
  | objects_remove v => (Raise (key_error (type_name v)), sc)
  | set_location (JStr name) _ =>
      if has_object name sc then
        (Ret tt, Scene (objects sc) (calls sc ++ [call]))
      else
        (Raise (Exn Exception_
                  ("'bpy_prop_collection[key]: key " +:+ repr_str name
                   +:+ " not found'")), sc)
  | set_location v _ => (Raise (key_error (type_name v)), sc)
  | render_render => (Ret tt, Scene (objects sc) (calls sc ++ [call]))
  | save_as_mainfile (JStr _) =>
      (Ret tt, Scene (objects sc) (calls sc ++ [call]))
  | save_as_mainfile v =>
      (Raise (Exn TypeError
                ("expected a string type, not " +:+ type_name v)), sc)
  end.

Definition scene_contains (name : json) (sc : scene) : res bool :=
  match name with
  | JStr n => Ret (has_object n sc)
  | v => Raise (key_error (type_name v))
  end.

Definition scene_eval (code : json) (sc : scene) : outcome str * scene :=
  match code with
  | JStr src =>
      if String.eqb src "exit()" then (Escapes (BaseExn "SystemExit" ""), sc)
      else
        match ref_int src with
        | Ret z => (Returns (str_of_int z), sc)
        | Raise _ => (Throws (Exn Exception_ "invalid syntax"), sc)
        end
  | _ =>
      (Throws (Exn TypeError
                 "eval() arg 1 must be a string, bytes or code object"), sc)
  end.

Definition scene_host : Blender := {|
  bpy := scene;
  bpy_do := scene_do;
  objects_contains := scene_contains;
  eval_str := scene_eval;
|}.

(** ** Vocabulary of the statements *)

(** The bytes are a complete JSON document. *)
Definition parses `{PyRuntime} (data : bytes) : Prop :=
  exists v, json_loads data = Ret v.

(** The bytes are rejected as the receive loop expects of an incomplete
    document: [json.loads] raises [JSONDecodeError]. *)
Definition not_yet_json `{PyRuntime} (data : bytes) : Prop :=
  exists e, json_loads data = Raise e /\ isinstance e JSONDecodeError = true.

(** The next [recv] ends the wait for more data: the peer has closed the
    stream, or nothing arrives before the timeout. *)
Definition stream_stopped (rest : list recv_outcome) : Prop :=
  match rest with
  | [] => True
  | Recv chunk :: _ => chunk = ""
  | RecvRaise e :: _ => isinstance e socket_timeout = true
  end.

(** The number of connection attempts in a trace. *)
Fixpoint connect_attempts (t : list event) : nat :=
  match t with
  | [] => 0
  | EvConnect _ _ _ _ :: rest => S (connect_attempts rest)
  | _ :: rest => connect_attempts rest
  end.

Definition is_send (ev : event) : bool :=
  match ev with EvSend _ _ _ => true | _ => false end.

Definition is_close (ev : event) : bool :=
  match ev with EvClose _ => true | _ => false end.

(** The eight action names of the addon. *)
Definition recognized_actions : list str :=
  ["add_cube"; "add_sphere"; "add_cylinder"; "delete_object"; "move_object";
   "render"; "save_file"; "eval"].

(** The call into Blender that goes with an action name, for the parameters
    of a command; [None] when the action has none (an unknown name, [eval])
    or when [params] is not the dict the call needs. *)
Definition corresponding_call (action : str) (params : json)
  : option bpy_call :=
  let with_dict (f : list (str * json) -> bpy_call) :=
    match params with
    | JObj kwargs => Some (f kwargs)
    | _ => None
    end in
  if String.eqb action "add_cube" then with_dict primitive_cube_add
  else if String.eqb action "add_sphere" then
    with_dict primitive_uv_sphere_add
  else if String.eqb action "add_cylinder" then
    with_dict primitive_cylinder_add
  else if String.eqb action "delete_object" then
    with_dict (fun kw => objects_remove (dict_get "name" kw JNull))
  else if String.eqb action "move_object" then
    with_dict (fun kw =>
                 set_location (dict_get "name" kw JNull)
                   (dict_get "location" kw (JArr [JInt 0; JInt 0; JInt 0])))
  else if String.eqb action "render" then Some render_render
  else if String.eqb action "save_file" then
    with_dict (fun kw => save_as_mainfile (dict_get "filepath" kw JNull))
  else None.

(** The object a call acts on, which must then be in the scene. *)
Definition target_object (call : bpy_call) : option json :=
  match call with
  | objects_remove name | set_location name _ => Some name
  | _ => None
  end.

(** A dict whose first item is ["success": True]. *)
Definition is_success (v : json) : Prop :=
  exists rest, v = JObj (("success", JBool true) :: rest).

(** The event is not a send, or it sends [message]. *)
Definition sends_only (message : bytes) (ev : event) : Prop :=
  match ev with
  | EvSend _ m _ => m = message
  | _ => True
  end.

(** ** Sample states *)

(** A connection object that holds socket 3. *)
Definition open_connection : BlenderConnection :=
  Conn "localhost" 9876 (Some 3%nat).

Definition closed_connection : BlenderConnection :=
  Conn "localhost" 9876 None.

(** A world in which the next [recv] calls return [chunks], one each. *)
Definition receiving (chunks : list bytes) : world :=
  World [] [] (map Recv chunks) 4 0 [].

(** [s] between double quotes. *)
Definition quoted (s : str) : string :=
  String dquote (s +:+ String dquote "").

(** The response of a Blender that reports an error. *)
Definition error_response : bytes :=
  "{" +:+ quoted "status" +:+ ": " +:+ quoted "error" +:+ ", "
  +:+ quoted "message" +:+ ": " +:+ quoted "no such scene" +:+ "}".

(** A server whose global connection is [open_connection]. *)
Definition connected_server (w : world) : server :=
  Server [open_connection] (Some 0%nat) [] [] w.

(** An empty scene. *)
Definition empty_scene : scene := Scene [] [].

(** A [delete_object] command for the object named [name]. *)
Definition delete_command (name : str) : json :=
  JObj [("action", JStr "delete_object");
        ("params", JObj [("name", JStr name)])].

(** The bytes of a command whose action is a lone surrogate, written with
    a JSON escape. *)
Definition surrogate_command : bytes :=
  "{" +:+ quoted "action" +:+ ": " +:+ quoted (String backslash "udc80")
  +:+ "}".

(** An [eval] command for the code [code]. *)
Definition eval_command (code : str) : json :=
  JObj [("action", JStr "eval"); ("params", JObj [("code", JStr code)])].


(** The next [sendall] succeeds. *)
Definition send_goes_through (w : world) : Prop := (pop_send w).1 = None.

(** The global connection, when there is one, is an object of the store. *)
Definition wf_server (s : server) : Prop :=
  forall l, _blender_connection s = Some l -> (l < length (heap s))%nat.

(** The port a new connection is made to:
    [int(os.getenv("BLENDER_PORT", DEFAULT_PORT))]. *)
Definition configured_port `{PyRuntime} (s : server) : res Z :=
  match getenv "BLENDER_PORT" (environ s) with
  | Some v => py_int v
  | None => Ret DEFAULT_PORT
  end.

(** The host a new connection is made to:
    [os.getenv("BLENDER_HOST", DEFAULT_HOST)]. *)
Definition configured_host (s : server) : str :=
  default DEFAULT_HOST (getenv "BLENDER_HOST" (environ s)).




(** Blender has answered the command with a result whose ["success"] is
    true. *)
Definition confirmed_by_blender `{PyRuntime} (command_type : str)
  (params : option json) (s : server) : Prop :=
  exists l s1 items s2,
    get_blender_connection s = (Ret l, s1) /\
    call_send_command l command_type params s1 = (Ret (JObj items), s2) /\
    py_truthy (dict_get "success" items JNull) = true.

(** The text a tool returns is a success text when [ok] holds, and
    [failed] followed by a reason when it does not. *)
Definition tool_outcome (text : str) (ok : Prop) (success : str -> Prop)
  (failed : str) : Prop :=
  (ok /\ success text) \/ (~ ok /\ exists why, text = failed +:+ why).

(** Nobody listens: the next connection attempt fails. *)
Definition nobody_listens (w : world) : Prop :=
  exists e, (pop_connect w).1 = Some e.

(** ** The MCP layer of simple_server.py *)

(** [d.get(key)] and [d[key] = v] on a dict with string keys, for any type
    of values. *)
Fixpoint assoc_get {V} (key : str) (items : list (str * V)) : option V :=
  match items with
  | [] => None
  | (k, v) :: rest => if String.eqb k key then Some v else assoc_get key rest
  end.

Fixpoint assoc_set {V} (key : str) (v : V) (items : list (str * V))
  : list (str * V) :=
  match items with
  | [] => [(key, v)]
  | (k, x) :: rest =>
      if String.eqb k key then (k, v) :: rest
      else (k, x) :: assoc_set key v rest
  end.

(** The annotation of a parameter, as far as [_extract_parameters] tells
    annotations apart. *)
Inductive annotation :=
| NoAnnotation
| AnnInt
| AnnFloat
| AnnBool
| AnnList
(** a subscripted generic whose [__origin__] is [list], as [List[float]] *)
| AnnListOf
(** any other annotation that has an [__origin__], as [Dict[str, Any]] *)
| AnnGeneric
(** any other annotation, as [str] *)
| AnnOther.

Record parameter := Param {
  param_name : str;
  param_annotation : annotation;
  param_default : option json;
}.

(** A Python function: its name, its docstring, its signature, and what a
    call with keyword arguments does. *)
Record pyfunc := PyFunc {
  fn_name : str;
  fn_doc : option str;
  fn_signature : list parameter;
  fn_call : list (str * json) -> server -> res json * server;
}.

Record MCPTool := Tool {
  tool_name : str;
  tool_description : str;
  tool_parameters : json;
  tool_handler : pyfunc;
}.

Record MCPResource := Resource {
  resource_uri : str;
  resource_description : str;
  resource_handler : pyfunc;
}.

Record SimpleMCP := MCP {
  mcp_name : str;
  tools : list (str * MCPTool);
  resources : list (str * MCPResource);
}.

(** [SimpleMCP(name)] *)
Definition new_mcp (name : str) : SimpleMCP := MCP name [] [].

(** The JSON type name [_extract_parameters] gives to an annotation. *)
Definition schema_type (a : annotation) : str :=
  match a with
  | AnnInt => "integer"
  | AnnFloat => "number"
  | AnnBool => "boolean"
  | AnnList | AnnListOf => "array"
  | NoAnnotation | AnnGeneric | AnnOther => "string"
  end.

Definition param_info (p : parameter) : json :=
  JObj (("type", JStr (schema_type (param_annotation p)))
        :: match param_default p with
           | Some d => [("default", d)]
           | None => []
           end).

(** The loop of [SimpleMCP._extract_parameters], on the parameters that are
    left and the dict built so far. *)
Fixpoint extract_loop (sig : list parameter) (params : list (str * json))
  : list (str * json) :=
  match sig with
  | [] => params
  | p :: rest =>
      if String.eqb (param_name p) "self" || String.eqb (param_name p) "ctx"
      then extract_loop rest params
      else extract_loop rest (dict_set (param_name p) (param_info p) params)
  end.

(** [SimpleMCP._extract_parameters] *)
Definition _extract_parameters (func : pyfunc) : json :=
  JObj (extract_loop (fn_signature func) []).

(** [a or b] on strings. *)
Definition str_or (a b : str) : str := if String.eqb a "" then b else a.

(** [SimpleMCP.tool(name, description, parameters)(func)]: the registry
    after the decoration. *)
Definition register_tool (mcp : SimpleMCP) (name : option str)
  (description : str) (parameters : option json) (func : pyfunc)
  : SimpleMCP :=
  let name := str_or (default "" name) (fn_name func) in
  let tool_params :=
    match parameters with
    | Some p => if py_truthy p then p else _extract_parameters func
    | None => _extract_parameters func
    end in
  let tool :=
    Tool name (str_or description (str_or (default "" (fn_doc func)) ""))
         tool_params func in
  MCP (mcp_name mcp) (assoc_set name tool (tools mcp)) (resources mcp).

(** [SimpleMCP.resource(uri, description)(func)] *)
Definition register_resource (mcp : SimpleMCP) (uri : str)
  (description : str) (func : pyfunc) : SimpleMCP :=
  let resource :=
    Resource uri (str_or description (str_or (default "" (fn_doc func)) ""))
             func in
  MCP (mcp_name mcp) (tools mcp) (assoc_set uri resource (resources mcp)).

(** The call of [func] with the keyword arguments [**parameters]. *)
Definition call_handler `{PyRuntime} (func : pyfunc) (parameters : json)
  (s : server) : res json * server :=
  match parameters with
  | JObj kwargs => fn_call func kwargs s
  | _ => (Raise (Exn TypeError (mapping_error (fn_name func) parameters)), s)
  end.

(** [SimpleMCP.call_tool] *)
Definition call_tool `{PyRuntime} (mcp : SimpleMCP) (name : str)
  (parameters : json) (s : server) : str * server :=
  match assoc_get name (tools mcp) with
  | None => ("Tool '" +:+ name +:+ "' not found", s)
  | Some tool =>
      match call_handler (tool_handler tool) parameters s with
      | (Ret result, s) => (py_str result, s)
      | (Raise e, s) => ("Error: " +:+ exn_msg e, s)
      end
  end.

(** [key in d] for a dict with string keys: the tool of that name, if any;
    a list or a dict cannot be hashed. *)
Definition find_tool (key : json) (mcp : SimpleMCP)
  : res (option (str * MCPTool)) :=
  match key with
  | JStr name =>
      Ret (match assoc_get name (tools mcp) with
           | Some tool => Some (name, tool)
           | None => None
           end)
  | JArr _ | JObj _ =>
      Raise (Exn TypeError ("unhashable type: '" +:+ type_name key +:+ "'"))
  | _ => Ret None
  end.

(** [s.split(sep)] for a one-character separator. *)
Fixpoint split_on (sep : ascii) (s : string) : list string :=
  match s with
  | EmptyString => [""]
  | String c r =>
      if Ascii.eqb c sep then "" :: split_on sep r
      else
        match split_on sep r with
        | h :: t => String c h :: t
        | [] => [String c ""]
        end
  end.

(** [uri.split("/")[-1]] *)
Definition last_segment (uri : str) : str :=
  List.last (split_on "/" uri) "".

Definition tool_entry (entry : str * MCPTool) : json :=
  JObj [("name", JStr (fst entry));
        ("description", JStr (tool_description (snd entry)));
        ("inputSchema",
         JObj [("type", JStr "object");
               ("properties", tool_parameters (snd entry))])].

Definition resource_entry (entry : str * MCPResource) : json :=
  JObj [("uri", JStr (fst entry));
        ("name", JStr (last_segment (fst entry)));
        ("description", JStr (resource_description (snd entry)))].

Definition error_dict (text : str) : json := JObj [("error", JStr text)].

(** The body of the [try] of [handle_mcp_request]. *)
Definition mcp_request `{PyRuntime} (mcp : SimpleMCP) (request : json)
  (s : server) : res json * server :=
  match py_get request "method" JNull with
  | Raise e => (Raise e, s)
  | Ret method =>
  match py_get request "params" (JObj []) with
  | Raise e => (Raise e, s)
  | Ret params =>
      if eq_str method "tools/list" then
        (Ret (JObj [("tools", JArr (map tool_entry (tools mcp)))]), s)
      else if eq_str method "tools/call" then
        match py_get params "name" JNull with
        | Raise e => (Raise e, s)
        | Ret name =>
        match py_get params "arguments" (JObj []) with
        | Raise e => (Raise e, s)
        | Ret arguments =>
            match find_tool name mcp with
            | Raise e => (Raise e, s)
            | Ret None =>
                (Ret (error_dict ("Tool '" +:+ py_str name +:+ "' not found")),
                 s)
            | Ret (Some (tool_name, _)) =>
                let '(result, s) := call_tool mcp tool_name arguments s in
                (Ret (JObj [("content",
                             JArr [JObj [("type", JStr "text");
                                         ("text", JStr result)]])]), s)
            end
        end
        end
      else if eq_str method "resources/list" then
        (Ret (JObj [("resources",
                     JArr (map resource_entry (resources mcp)))]), s)
      else (Ret (error_dict ("Unknown method: " +:+ py_str method)), s)
  end
  end.

(** [handle_mcp_request] (simple_server.py), for the registry [mcp]. *)
Definition handle_mcp_request `{PyRuntime} (mcp : SimpleMCP) (request : json)
  (s : server) : json * server :=
  match mcp_request mcp request s with
  | (Ret response, s) => (response, s)
  | (Raise e, s) => (error_dict (exn_msg e), s)
  end.

(** A decoration with [SimpleMCP.tool]. *)
Record registration := Registration {
  reg_name : option str;
  reg_description : str;
  reg_parameters : option json;
  reg_func : pyfunc;
}.

(** The registry after the decorations [regs], in the order of the
    module. *)
Definition register_all (mcp : SimpleMCP) (regs : list registration)
  : SimpleMCP :=
  fold_left
    (fun m r =>
       register_tool m (reg_name r) (reg_description r) (reg_parameters r)
         (reg_func r))
    regs mcp.

(** The name under which a decoration registers its function. *)
Definition effective_name (r : registration) : str :=
  str_or (default "" (reg_name r)) (fn_name (reg_func r)).

(** The names of a list, each once, in the order of first occurrence. *)
Fixpoint first_occurrences (names : list str) : list str :=
  match names with
  | [] => []
  | n :: rest =>
      n :: List.filter (fun m => negb (String.eqb m n))
             (first_occurrences rest)
  end.

(** The decoration of [regs] that was made last under the name [n]. *)
Definition last_registered (n : str) (regs : list registration)
  : option registration :=
  List.find (fun r => String.eqb (effective_name r) n) (rev regs).

(** The type names of a parameter schema. *)
Definition schema_types : list str :=
  ["string"; "integer"; "number"; "boolean"; "array"].

(** What [call_tool] makes of the outcome of a handler. *)
Definition tool_text `{PyRuntime} (outcome : res json * server)
  : str * server :=
  match outcome with
  | (Ret result, s) => (py_str result, s)
  | (Raise e, s) => ("Error: " +:+ exn_msg e, s)
  end.

(** The response to a [tools/call] request whose tool returned [text]. *)
Definition content_of (text : str) : json :=
  JObj [("content",
         JArr [JObj [("type", JStr "text"); ("text", JStr text)]])].

(** ** The listener of the addon: [start_mcp_server] *)

(** What one [server_socket.accept()] does, and for an accepted client what
    the rest of the turn does, the line it prints and the start of the
    handler thread ([None]: the thread runs). *)
Inductive accept_outcome :=
| Accepted (client : nat) (start : option exn)
| AcceptRaise (e : exn).

(** One turn of the accept loop as the environment decides it: the value of
    [server_running] at the loop test, and what [accept] does. *)
Record listen_turn := ListenTurn {
  still_running : bool;
  accepted : accept_outcome;
}.

(** What the listener does. *)
Inductive listener_event :=
| Listening (host : str) (port : Z)
| HandlerStarted (client : nat)
| ListenerClosed.

(** The [while server_running] loop: the events, and whether the loop was
    left ([false]: the script is used up and the listener still waits in
    [accept]).  A [socket.timeout] goes on with the next turn, any other
    exception leaves the loop. *)
Fixpoint accept_loop (script : list listen_turn)
  : list listener_event * bool :=
  match script with
  | [] => ([], false)
  | t :: rest =>
      if negb (still_running t) then ([], true)
      else
        match accepted t with
        | Accepted client None =>
            let '(evs, ended) := accept_loop rest in
            (HandlerStarted client :: evs, ended)
        | Accepted _ (Some e) | AcceptRaise e =>
            if isinstance e socket_timeout then accept_loop rest
            else ([], true)
        end
  end.

(** The state of the listener thread when the model stops following it. *)
Record listener := Listener {
  listener_events : list listener_event;
  (** the global [server_running] as the listener left it *)
  server_running : bool;
  (** the exception that left [start_mcp_server], if any *)
  listener_raised : option exn;
}.

(** [start_mcp_server(host, port)].  [create] is the outcome of creating
    the socket and setting its option, before the [try]; [setup] that of
    [bind], [listen], [settimeout] and the line printed after them.  The
    lines printed on the way out are fixed text or the text of an
    exception, and are taken to be written; so is the closing of the
    socket taken to succeed. *)
Definition start_mcp_server (host : str) (port : Z)
  (create setup : option exn) (script : list listen_turn) : listener :=
  match create with
  | Some e => Listener [] true (Some e)
  | None =>
      match setup with
      | Some _ => Listener [ListenerClosed] false None
      | None =>
          let '(evs, ended) := accept_loop script in
          if ended then
            Listener (Listening host port :: evs ++ [ListenerClosed])
                     false None
          else Listener (Listening host port :: evs) true None
      end
  end.

(** The clients that [accept] returns in the course of a script. *)
Fixpoint accepted_clients (script : list listen_turn) : list nat :=
  match script with
  | [] => []
  | t :: rest =>
      match accepted t with
      | Accepted client _ => client :: accepted_clients rest
      | AcceptRaise _ => accepted_clients rest
      end
  end.

(** The clients whose handler thread was started. *)
Fixpoint started_handlers (evs : list listener_event) : list nat :=
  match evs with
  | [] => []
  | HandlerStarted client :: rest => client :: started_handlers rest
  | _ :: rest => started_handlers rest
  end.

(** The turn lets the accept loop go on: [server_running] holds, and
    [accept] returns a client whose handler thread is started, or what is
    raised is a [socket.timeout]. *)
Definition listen_turn_goes_on (t : listen_turn) : bool :=
  still_running t &&
  match accepted t with
  | Accepted _ None => true
  | Accepted _ (Some e) | AcceptRaise e => isinstance e socket_timeout
  end.

(** Some turn of the script makes the listener leave the accept loop. *)
Definition accept_loop_is_left (script : list listen_turn) : bool :=
  existsb (fun t => negb (listen_turn_goes_on t)) script.

(** The clients that are accepted and handed to a thread before the first
    turn that ends the loop, in the order of their acceptance. *)
Fixpoint clients_served (script : list listen_turn) : list nat :=
  match script with
  | [] => []
  | t :: rest =>
      if listen_turn_goes_on t then
        match accepted t with
        | Accepted client None => client :: clients_served rest
        | _ => clients_served rest
        end
      else []
  end.

(** The turn makes the handler of a client leave its loop. *)
Definition client_turn_stops (t : turn) : Prop :=
  running t = false \/ rx t = Recv "" \/ exists e, rx t = RecvRaise e.

(** The action reads the parameters of the command. *)
Definition reads_params (action : str) : Prop :=
  In action ["add_cube"; "add_sphere"; "add_cylinder"; "delete_object";
             "move_object"; "save_file"; "eval"].

(** The response of a Blender that returns a result. *)
Definition result_response : bytes :=
  "{" +:+ quoted "result" +:+ ": {" +:+ quoted "success" +:+ ": true}}".

(** A server without a global connection, in the world [w]. *)
Definition fresh_server (w : world) : server := Server [] None [] [] w.

(** A world in which the next connection attempt succeeds. *)
Definition listening : world := World [None] [] [] 4 0 [].



(** * The framing of a response: [_receive_response] *)

Section Framing.
Context `{PyRuntime}.

Lemma loads_never_times_out (data : bytes) (e : exn) :
  json_loads data = Raise e -> isinstance e socket_timeout = false.
Proof.
  unfold json_loads. destruct (loads data) as [v|f]; [discriminate|].
  intros [= <-]. destruct f; reflexivity.
Qed.

Lemma raise_not_parses (data : bytes) (e : exn) :
  json_loads data = Raise e -> ~ parses data.
Proof. intros E [v Hv]. congruence. Qed.

Lemma on_raise_break (e : exn) (chunks0 chunks : list bytes) :
  on_raise e chunks0 = LoopBreak chunks ->
  chunks = chunks0 /\ chunks <> [] /\ isinstance e socket_timeout = true.
Proof.
  unfold on_raise. destruct (isinstance e socket_timeout); [|discriminate].
  destruct chunks0; simpl; [discriminate|].
  intros [= <-]. repeat split; discriminate.
Qed.

Lemma on_raise_not_return (e : exn) (chunks0 : list bytes) (data : bytes) :
  on_raise e chunks0 <> LoopReturn data.
Proof.
  unfold on_raise.
  destruct (isinstance e socket_timeout), (is_nil chunks0); discriminate.
Qed.

(** The loop is left by [break] only on a closed stream or a timeout, with
    at least one chunk, and after every test of the accumulated bytes has
    failed. *)
Lemma recv_loop_break (script : list recv_outcome) :
  forall chunks0 chunks rest,
    recv_loop script chunks0 = (LoopBreak chunks, rest) ->
    exists new tail,
      chunks = chunks0 ++ new /\ chunks <> [] /\
      script = map Recv new ++ tail /\ stream_stopped tail /\
      Forall (fun c => c <> "") new /\
      forall k, (0 < k <= length new)%nat ->
                ~ parses (join (chunks0 ++ take k new)).
Proof.
  induction script as [|o script IH]; intros chunks0 chunks rest; simpl.
  - intros [= E _]. apply on_raise_break in E as (-> & Hne & _).
    exists [], []. rewrite app_nil_r. repeat split; auto.
    simpl. intros k Hk. lia.
  - destruct o as [chunk|e].
    + destruct (is_empty chunk) eqn:Hempty.
      * apply String.eqb_eq in Hempty. subst chunk.
        destruct chunks0 as [|c0 chunks0]; simpl.
        { unfold on_raise; simpl. discriminate. }
        intros [= <- <-]. exists [], (Recv "" :: script).
        rewrite app_nil_r. repeat split; auto; try discriminate.
        simpl. intros k Hk. lia.
      * apply String.eqb_neq in Hempty.
        destruct (json_loads (join (chunks0 ++ [chunk]))) as [v|e] eqn:Hl;
          [discriminate|].
        destruct (isinstance e JSONDecodeError).
        -- intros E. apply IH in E
             as (new & tail & -> & Hne & -> & Hstop & Hall & Hfail).
           exists (chunk :: new), tail.
           rewrite <- app_assoc in *. simpl in *.
           repeat split; auto.
           intros k Hk. destruct k as [|k]; [lia|]. simpl.
           destruct k as [|k].
           ++ rewrite take_0. eapply raise_not_parses; eauto.
           ++ specialize (Hfail (S k)). rewrite <- app_assoc in Hfail.
              apply Hfail. lia.
        -- intros [= E _]. apply on_raise_break in E as (_ & _ & Ht).
           apply loads_never_times_out in Hl. congruence.
    + intros [= E <-]. apply on_raise_break in E as (-> & Hne & Ht).
      exists [], (RecvRaise e :: script).
      rewrite app_nil_r. repeat split; auto.
      simpl. intros k Hk. lia.
Qed.

(** The loop returns at the first chunk whose arrival makes the
    accumulated bytes parse. *)
Lemma recv_loop_return (script : list recv_outcome) :
  forall chunks0 data rest,
    recv_loop script chunks0 = (LoopReturn data, rest) ->
    exists new,
      new <> [] /\ data = join (chunks0 ++ new) /\
      script = map Recv new ++ rest /\
      Forall (fun c => c <> "") new /\ parses data /\
      forall k, (0 < k < length new)%nat ->
                ~ parses (join (chunks0 ++ take k new)).
Proof.
  induction script as [|o script IH]; intros chunks0 data rest; simpl.
  - intros [= E _]; now apply on_raise_not_return in E.
  - destruct o as [chunk|e].
    + destruct (is_empty chunk) eqn:Hempty.
      * destruct (is_nil chunks0); [|discriminate].
        intros [= E _]; now apply on_raise_not_return in E.
      * apply String.eqb_neq in Hempty.
        destruct (json_loads (join (chunks0 ++ [chunk]))) as [v|e] eqn:Hl.
        -- intros [= <- <-]. exists [chunk].
           repeat split; auto; try discriminate.
           ++ exists v. exact Hl.
           ++ simpl. intros k Hk. lia.
        -- destruct (isinstance e JSONDecodeError).
           ++ intros E. apply IH in E
                as (new & Hne & -> & -> & Hall & Hp & Hfail).
              exists (chunk :: new).
              rewrite <- app_assoc in *. simpl in *.
              repeat split; auto; try discriminate.
              intros k Hk. destruct k as [|k]; [lia|]. simpl.
              destruct k as [|k].
              ** rewrite take_0. eapply raise_not_parses; eauto.
              ** specialize (Hfail (S k)). rewrite <- app_assoc in Hfail.
                 apply Hfail. lia.
           ++ intros [= E _]; now apply on_raise_not_return in E.
    + intros [= E _]; now apply on_raise_not_return in E.
Qed.

(** While the accumulated bytes are rejected with [JSONDecodeError] the loop
    goes on; it returns at the first chunk with which they parse. *)
Lemma recv_loop_returns_on_parse (chunks : list bytes) :
  forall chunks0 tail,
    chunks <> [] ->
    Forall (fun c => c <> "") chunks ->
    (forall k, (0 < k < length chunks)%nat ->
               not_yet_json (join (chunks0 ++ take k chunks))) ->
    parses (join (chunks0 ++ chunks)) ->
    recv_loop (map Recv chunks ++ tail) chunks0
    = (LoopReturn (join (chunks0 ++ chunks)), tail).
Proof.
  induction chunks as [|c chunks IH]; intros chunks0 tail Hne Hall Hfail Hp;
    [contradiction|].
  apply Forall_cons in Hall as [Hc Hall]. simpl.
  apply String.eqb_neq in Hc. unfold is_empty. rewrite Hc.
  destruct chunks as [|c' chunks].
  - destruct Hp as [v ->]. reflexivity.
  - destruct (Hfail 1%nat) as (e & He & Hcls); [simpl; lia|].
    simpl in He. rewrite ?take_0 in He. rewrite He, Hcls.
    rewrite (IH (chunks0 ++ [c]) tail); try discriminate; auto.
    + rewrite <- app_assoc. reflexivity.
    + intros k Hk. specialize (Hfail (S k)).
      rewrite <- app_assoc. apply Hfail. simpl in *. lia.
    + rewrite <- app_assoc. exact Hp.
Qed.

(** When they never parse, the loop is left where the stream stops. *)
Lemma recv_loop_breaks_on_stop (chunks : list bytes) :
  forall chunks0 tail,
    chunks0 ++ chunks <> [] ->
    Forall (fun c => c <> "") chunks ->
    (forall k, (0 < k <= length chunks)%nat ->
               not_yet_json (join (chunks0 ++ take k chunks))) ->
    stream_stopped tail ->
    recv_loop (map Recv chunks ++ tail) chunks0
    = (LoopBreak (chunks0 ++ chunks), List.tl tail).
Proof.
  induction chunks as [|c chunks IH];
    intros chunks0 tail Hne Hall Hfail Hstop.
  - rewrite app_nil_r in *. simpl.
    assert (Hnil : is_nil chunks0 = false) by now destruct chunks0.
    destruct tail as [|[chunk|e] tail]; simpl in *.
    + unfold on_raise. simpl. rewrite Hnil. reflexivity.
    + subst chunk. simpl. rewrite Hnil. reflexivity.
    + unfold on_raise. rewrite Hstop, Hnil. reflexivity.
  - apply Forall_cons in Hall as [Hc Hall]. simpl.
    apply String.eqb_neq in Hc. unfold is_empty. rewrite Hc.
    destruct (Hfail 1%nat) as (e & He & Hcls); [simpl; lia|].
    simpl in He. rewrite ?take_0 in He. rewrite He, Hcls.
    rewrite (IH (chunks0 ++ [c]) tail); auto.
    + rewrite <- app_assoc. reflexivity.
    + destruct chunks0; discriminate.
    + intros k Hk. specialize (Hfail (S k)).
      rewrite <- app_assoc. apply Hfail. simpl in *. lia.
Qed.

(** C8.  In [_receive_response] the final [raise Exception("No data
    received")] is never reached.  With no chunk received the loop is left
    by a [raise]: "Connection closed before receiving data" when the peer
    has closed the stream, the exception of [recv] otherwise (the timeout
    among them).  Whenever the loop is left by [break], the chunk list is
    not empty and the joined bytes are returned. *)
Theorem no_data_received_unreachable
  (self : BlenderConnection) (fd : nat) (w : world) :
  sock self = Some fd ->
  (forall rest,
      recv_script w = Recv "" :: rest ->
      _receive_response self w
      = (Raise (Exn Exception_ "Connection closed before receiving data"),
         set_recv_script w rest)) /\
  (forall e rest,
      recv_script w = RecvRaise e :: rest ->
      _receive_response self w = (Raise e, set_recv_script w rest)) /\
  (recv_script w = [] ->
   _receive_response self w = (Raise timed_out, set_recv_script w [])) /\
  (forall chunks rest,
      recv_loop (recv_script w) [] = (LoopBreak chunks, rest) ->
      chunks <> [] /\
      _receive_response self w = (Ret (join chunks), set_recv_script w rest)).
Proof.
  intros Hsock. unfold _receive_response. rewrite Hsock.
  split; [|split; [|split]].
  - intros rest ->. reflexivity.
  - intros e rest ->. simpl. unfold on_raise. simpl.
    destruct (isinstance e socket_timeout); reflexivity.
  - intros ->. reflexivity.
  - intros chunks rest Hloop.
    destruct (recv_loop_break _ _ _ _ Hloop) as (new & tail & _ & Hne & _).
    split; [exact Hne|]. rewrite Hloop.
    destruct chunks; [contradiction|reflexivity].
Qed.

(** C1, amended.  [_receive_response] accumulates the received chunks and
    returns as soon as their concatenation parses as a JSON document; the
    bytes it returns parse as a JSON document unless the peer closed the
    stream or the socket timed out after at least one chunk had arrived,
    in which case it returns the chunks received so far, which do not
    parse. *)
Theorem receive_response_framing (self : BlenderConnection) (fd : nat) :
  sock self = Some fd ->
  (forall w chunks tail,
      chunks <> [] ->
      Forall (fun c => c <> "") chunks ->
      recv_script w = map Recv chunks ++ tail ->
      (forall k, (0 < k < length chunks)%nat ->
                 not_yet_json (join (take k chunks))) ->
      (parses (join chunks) ->
       _receive_response self w
       = (Ret (join chunks), set_recv_script w tail)) /\
      (not_yet_json (join chunks) -> stream_stopped tail ->
       _receive_response self w
       = (Ret (join chunks), set_recv_script w (List.tl tail)))) /\
  (forall w w' data,
      _receive_response self w = (Ret data, w') ->
      exists chunks tail,
        chunks <> [] /\ Forall (fun c => c <> "") chunks /\
        recv_script w = map Recv chunks ++ tail /\
        data = join chunks /\
        (forall k, (0 < k < length chunks)%nat ->
                   ~ parses (join (take k chunks))) /\
        ((parses data /\ recv_script w' = tail)
         \/ (~ parses data /\ stream_stopped tail))).
Proof.
  intros Hsock. split.
  { intros w chunks tail Hne Hall Hs Hfail. unfold _receive_response.
    rewrite Hsock, Hs. split.
    - intros Hp. rewrite recv_loop_returns_on_parse; auto.
    - intros Hlast Hstop. rewrite recv_loop_breaks_on_stop; auto.
      + destruct chunks; [contradiction|reflexivity].
      + intros k Hk. destruct (decide (k = length chunks)) as [->|Hk'].
        * rewrite firstn_all. exact Hlast.
        * apply Hfail. lia. }
  intros w w' data.
  unfold _receive_response. rewrite Hsock.
  destruct (recv_loop (recv_script w) []) as [ex rest] eqn:Hloop.
  destruct ex as [d|e|chunks]; [|discriminate|].
  - intros [= <- <-].
    destruct (recv_loop_return _ _ _ _ Hloop)
      as (new & Hne & -> & Hs & Hall & Hp & Hfail).
    exists new, rest. simpl in *. repeat split; auto.
  - destruct (recv_loop_break _ _ _ _ Hloop)
      as (new & tail & -> & Hne & Hs & Hstop & Hall & Hfail).
    simpl in *. destruct new as [|c new]; [contradiction|].
    simpl. intros [= <- <-].
    exists (c :: new), tail. repeat split; auto.
    + intros k Hk. apply Hfail. lia.
    + right. split; [|exact Hstop].
      specialize (Hfail (length (c :: new))).
      rewrite firstn_all in Hfail. apply Hfail. simpl. lia.
Qed.

End Framing.

(** * One command exchange: [send_command] *)

Section Exchange.
Context `{PyRuntime}.

Lemma connect_attempts_app (t u : list event) :
  connect_attempts (t ++ u) = (connect_attempts t + connect_attempts u)%nat.
Proof.
  induction t as [|ev t IH]; simpl; [reflexivity|].
  destruct ev; simpl; rewrite IH; reflexivity.
Qed.

Lemma receive_response_trace (self : BlenderConnection) (w w' : world)
  (r : res bytes) :
  _receive_response self w = (r, w') -> trace w' = trace w.
Proof.
  unfold _receive_response. destruct (sock self).
  - destruct (recv_loop (recv_script w) []) as [ex rest].
    destruct ex as [d|e|chunks]; try (intros [= _ <-]; reflexivity).
    destruct (negb (is_nil chunks)); intros [= _ <-]; reflexivity.
  - intros [= _ <-]. reflexivity.
Qed.

(** The body of the [try] does nothing on the socket but one [sendall]. *)
Lemma exchange_trace (self : BlenderConnection) (command : json)
  (w w' : world) (r : res json) :
  exchange self command w = (r, w') ->
  exists evs,
    trace w' = trace w ++ evs /\
    Forall (fun ev => is_send ev = true) evs /\
    (length evs <= 1)%nat.
Proof.
  unfold exchange. destruct (sock self) as [fd|].
  2:{ intros [= _ <-]. exists []. rewrite app_nil_r. auto. }
  assert (Hpop : trace (snd (pop_send w)) = trace w).
  { unfold pop_send. destruct (send_script w); reflexivity. }
  destruct (pop_send w) as [o w1]. simpl in Hpop. destruct o as [e|].
  - intros [= _ <-]. eexists. simpl. rewrite Hpop. split; [reflexivity|].
    split; [repeat constructor|simpl; lia].
  - destruct (_receive_response self _) as [rr w2] eqn:Hrecv.
    apply receive_response_trace in Hrecv. simpl in Hrecv.
    rewrite Hpop in Hrecv.
    intros Hres. exists [EvSend fd (json_dumps command) true].
    split; [|split; [repeat constructor|simpl; lia]].
    rewrite <- Hrecv.
    destruct rr as [response_data|e]; [|now inversion Hres].
    destruct (json_loads response_data) as [response|e];
      [|now inversion Hres].
    destruct (py_get response "status" JNull) as [status|e];
      [|now inversion Hres].
    destruct (eq_str status "error"); [|now inversion Hres].
    destruct (py_get response "message" _); now inversion Hres.
Qed.

Lemma exchange_sends (self : BlenderConnection) (command : json)
  (w w' : world) (r : res json) :
  exchange self command w = (r, w') ->
  exists evs,
    trace w' = trace w ++ evs /\
    Forall (sends_only (json_dumps command)) evs.
Proof.
  unfold exchange. destruct (sock self) as [fd|].
  2:{ intros [= _ <-]. exists []. rewrite app_nil_r. auto. }
  assert (Hpop : trace (snd (pop_send w)) = trace w).
  { unfold pop_send. destruct (send_script w); reflexivity. }
  destruct (pop_send w) as [o w1]. simpl in Hpop. destruct o as [e|].
  - intros [= _ <-]. eexists. simpl. rewrite Hpop. split; [reflexivity|].
    repeat constructor.
  - destruct (_receive_response self _) as [rr w2] eqn:Hrecv.
    apply receive_response_trace in Hrecv. simpl in Hrecv.
    rewrite Hpop in Hrecv.
    intros Hres. exists [EvSend fd (json_dumps command) true].
    split; [|repeat constructor].
    rewrite <- Hrecv.
    destruct rr as [response_data|e]; [|now inversion Hres].
    destruct (json_loads response_data) as [response|e];
      [|now inversion Hres].
    destruct (py_get response "status" JNull) as [status|e];
      [|now inversion Hres].
    destruct (eq_str status "error"); [|now inversion Hres].
    destruct (py_get response "message" _); now inversion Hres.
Qed.

(** Whatever [send_command] sends is the encoding of the dict it built. *)
Lemma send_command_sends (self : BlenderConnection) (command_type : str)
  (params : option json) (w : world) :
  exists evs,
    trace (send_command self command_type params w).2 = trace w ++ evs /\
    Forall (sends_only
              (json_dumps (build_command command_type params (stamps w))))
           evs.
Proof.
  unfold send_command. destruct (sock self) as [fd|] eqn:Hsock.
  - simpl. destruct (exchange self _ (stamp w)) as [r w'] eqn:Hex.
    apply exchange_sends in Hex as (evs & Ht & Hs).
    exists evs. split; [|exact Hs]. destruct r; exact Ht.
  - unfold connect, pop_connect. rewrite Hsock.
    destruct (connect_script w) as [|[e|] rest]; simpl;
      try (eexists; split; [reflexivity|]; repeat constructor).
    destruct (exchange _ _ _) as [r w'] eqn:Hex.
    apply exchange_sends in Hex as (evs & Ht & Hs). simpl in Ht, Hs.
    eexists. split.
    + destruct r; simpl; rewrite Ht, <- app_assoc; reflexivity.
    + constructor; [exact I|exact Hs].
Qed.

Lemma sends_are_not_connects (evs : list event) :
  Forall (fun ev => is_send ev = true) evs -> connect_attempts evs = 0%nat.
Proof.
  induction 1 as [|ev evs Hev _ IH]; simpl; [reflexivity|].
  destruct ev; simpl in *; congruence.
Qed.

Lemma sends_are_not_closes (evs : list event) :
  Forall (fun ev => is_send ev = true) evs ->
  Forall (fun ev => is_close ev = false) evs.
Proof.
  intros Hs. eapply Forall_impl; [exact Hs|].
  intros ev. destruct ev; simpl; congruence.
Qed.

Lemma connect_fresh (self : BlenderConnection) (w : world) :
  sock self = None ->
  exists (ok : bool) (w1 : world),
    connect self w =
      (ok, set_sock self (if ok then Some (next_fd w) else None),
       log (EvConnect (next_fd w) (host self) (port self) ok) w1) /\
    trace w1 = trace w.
Proof.
  intros Hsock. unfold connect, pop_connect. rewrite Hsock.
  destruct (connect_script w) as [|[e|] rest];
    [exists false|exists false|exists true];
    eexists; split; reflexivity.
Qed.

(** What a call of [send_command] adds to the trace: the connection
    attempt, if the object had no socket, and then at most one send. *)
Lemma send_command_trace (self : BlenderConnection) (command_type : str)
  (params : option json) (w : world) :
  exists sends,
    Forall (fun ev => is_send ev = true) sends /\
    match sock self with
    | Some _ =>
        trace (send_command self command_type params w).2
        = trace w ++ sends
    | None =>
        exists ok,
          (connect self w).1.1 = ok /\
          trace (send_command self command_type params w).2
          = trace w
              ++ EvConnect (next_fd w) (host self) (port self) ok :: sends
          /\ (ok = false ->
              sends = [] /\
              (send_command self command_type params w).1.1
              = Raise (Exn ConnectionError_ "Not connected to Blender"))
    end.
Proof.
  unfold send_command. destruct (sock self) as [fd|] eqn:Hsock.
  - simpl.
    destruct (exchange self _ (stamp w)) as [r w'] eqn:Hex.
    apply exchange_trace in Hex as (evs & Ht & Hs & _).
    exists evs. split; [exact Hs|].
    destruct r; simpl; exact Ht.
  - destruct (connect_fresh self w Hsock) as (ok & w1 & -> & Ht).
    destruct ok; simpl.
    + destruct (exchange _ _ (stamp _)) as [r w'] eqn:Hex.
      apply exchange_trace in Hex as (evs & Hex & Hs & _).
      exists evs. split; [exact Hs|]. exists true. split; [reflexivity|].
      split; [|discriminate].
      simpl in Hex. rewrite Ht, <- app_assoc in Hex.
      destruct r; simpl; exact Hex.
    + exists []. split; [constructor|]. exists false.
      rewrite Ht. repeat split; reflexivity.
Qed.

(** Whatever the body of the [try] raises, [send_command] raises in its
    place, having dropped the socket. *)
Lemma exchange_error_drops_socket (self : BlenderConnection) (fd : nat)
  (command_type : str) (params : option json) (w w1 : world) (x : exn) :
  sock self = Some fd ->
  exchange self (build_command command_type params (stamps w)) (stamp w)
  = (Raise x, w1) ->
  send_command self command_type params w
  = (Raise (reraise x), set_sock self None, w1).
Proof.
  intros Hsock Hex. unfold send_command. rewrite Hsock. simpl.
  rewrite Hex. reflexivity.
Qed.

(** A call that raises leaves the object without a socket, at the same
    address. *)
Lemma failed_send_command_state (self self' : BlenderConnection)
  (command_type : str) (params : option json) (w w' : world) (e : exn) :
  send_command self command_type params w = (Raise e, self', w') ->
  sock self' = None /\ host self' = host self /\ port self' = port self.
Proof.
  unfold send_command.
  destruct (sock self) as [fd|] eqn:Hsock.
  - simpl. destruct (exchange self _ _) as [r w1].
    destruct r; intros [= <- <- <-]. auto.
  - destruct (connect_fresh self w Hsock) as (ok & w1 & -> & _).
    destruct ok; simpl.
    + destruct (exchange _ _ _) as [r w2].
      destruct r; intros [= <- <- <-]. auto.
    + intros [= <- <- <-]. auto.
Qed.

(** C3.  A call of [send_command] makes at most one connection attempt:
    exactly one when the object has no socket, and when that attempt fails
    the call raises [ConnectionError] having done nothing else; none when
    a socket is present. *)
Theorem send_command_connects_at_most_once
  (self : BlenderConnection) (command_type : str) (params : option json)
  (w : world) :
  exists evs,
    trace (send_command self command_type params w).2 = trace w ++ evs /\
    match sock self with
    | Some _ => connect_attempts evs = 0%nat
    | None =>
        connect_attempts evs = 1%nat /\
        ((connect self w).1.1 = false ->
         (send_command self command_type params w).1.1
         = Raise (Exn ConnectionError_ "Not connected to Blender") /\
         evs = [EvConnect (next_fd w) (host self) (port self) false])
    end.
Proof.
  destruct (send_command_trace self command_type params w)
    as (sends & Hs & Ht).
  destruct (sock self) as [fd|].
  - exists sends. split; [exact Ht|]. now apply sends_are_not_connects.
  - destruct Ht as (ok & Hok & Ht & Hfail).
    eexists. split; [exact Ht|]. simpl.
    rewrite (sends_are_not_connects _ Hs). split; [reflexivity|].
    rewrite Hok. intros ->. destruct (Hfail eq_refl) as [-> ->].
    split; reflexivity.
Qed.

(** C2.  When [send_command] raises, the object is left without a socket
    (the socket is dropped, not closed), and the next call on it starts
    with a new connection attempt to the same address. *)
Theorem send_command_failure_drops_socket
  (self self' : BlenderConnection) (command_type : str)
  (params : option json) (w w' : world) (e : exn) :
  send_command self command_type params w = (Raise e, self', w') ->
  sock self' = None /\
  (exists evs,
      trace w' = trace w ++ evs /\
      Forall (fun ev => is_close ev = false) evs) /\
  forall command_type' params' w2,
  exists ok evs,
    trace (send_command self' command_type' params' w2).2
    = trace w2 ++ EvConnect (next_fd w2) (host self) (port self) ok :: evs.
Proof.
  intros Hcall.
  destruct (failed_send_command_state _ _ _ _ _ _ _ Hcall)
    as (Hnone & Hhost & Hport).
  split; [exact Hnone|]. split.
  - destruct (send_command_trace self command_type params w)
      as (sends & Hs & Ht).
    rewrite Hcall in Ht. simpl in Ht.
    apply sends_are_not_closes in Hs.
    destruct (sock self).
    + exists sends. auto.
    + destruct Ht as (ok & _ & Ht & _). eexists. split; [exact Ht|].
      constructor; [reflexivity|exact Hs].
  - intros command_type' params' w2.
    destruct (send_command_trace self' command_type' params' w2)
      as (sends & _ & Ht).
    rewrite Hnone in Ht. destruct Ht as (ok & _ & Ht & _).
    exists ok, sends. rewrite <- Hhost, <- Hport. exact Ht.
Qed.

End Exchange.

(** * The persistent connection: [get_blender_connection] *)

Section Persistent.
Context `{PyRuntime}.

Lemma insert_last {A} (l : list A) (x y : A) :
  <[length l := y]> (l ++ [x]) = l ++ [y].
Proof. induction l as [|a l IH]; simpl; [reflexivity|]. now rewrite IH. Qed.

Lemma deref_update (s : server) (l : nat) (c : BlenderConnection)
  (w : world) :
  (l < length (heap s))%nat -> deref (update s l c w) l = c.
Proof.
  intros Hl. unfold deref, update. simpl.
  rewrite list_lookup_insert_eq by exact Hl. reflexivity.
Qed.

(** A method call on an object of the store keeps the store's size and
    the global variable. *)
Lemma call_send_command_frame (l : nat) (command_type : str)
  (params : option json) (s s1 : server) (r : res json) :
  call_send_command l command_type params s = (r, s1) ->
  length (heap s1) = length (heap s) /\
  _blender_connection s1 = _blender_connection s /\
  environ s1 = environ s /\
  (exists evs, trace (net s1) = trace (net s) ++ evs /\
               Forall (fun ev => is_close ev = false) evs) /\
  (forall e, r = Raise e -> (l < length (heap s))%nat ->
             sock (deref s1 l) = None).
Proof.
  unfold call_send_command.
  destruct (send_command (deref s l) command_type params (net s))
    as [[r0 c] w] eqn:Hcall.
  intros [= <- <-]. simpl. rewrite length_insert.
  repeat split.
  - destruct (send_command_trace (deref s l) command_type params (net s))
      as (sends & Hs & Ht).
    rewrite Hcall in Ht. simpl in Ht. apply sends_are_not_closes in Hs.
    destruct (sock (deref s l)).
    + exists sends. auto.
    + destruct Ht as (ok & _ & Ht & _). eexists. split; [exact Ht|].
      constructor; [reflexivity|exact Hs].
  - intros e -> Hl. rewrite deref_update by exact Hl.
    now apply failed_send_command_state in Hcall as [Hnone _].
Qed.

(** What the creation branch does when there is no global connection. *)
Lemma create_connection_spec (s s' : server) (r : res nat) :
  _blender_connection s = None ->
  create_connection s = (r, s') ->
  (exists e, r = Raise e /\ s' = s) \/
  (exists (p : Z) (ok : bool),
      let h := default DEFAULT_HOST (getenv "BLENDER_HOST" (environ s)) in
      let fd := next_fd (net s) in
      heap s' = heap s ++ [Conn h p (if ok then Some fd else None)] /\
      _blender_connection s' = Some (length (heap s)) /\
      trace (net s') = trace (net s) ++ [EvConnect fd h p ok] /\
      r = if ok then Ret (length (heap s)) else Raise could_not_connect).
Proof.
  intros Hnone. unfold create_connection. rewrite Hnone.
  set (h := default DEFAULT_HOST (getenv "BLENDER_HOST" (environ s))).
  destruct (match getenv "BLENDER_PORT" (environ s) with
            | Some v => py_int v
            | None => Ret DEFAULT_PORT
            end) as [p|e].
  2:{ intros [= <- <-]. left. eauto. }
  unfold new_connection, call_connect, set_global, deref, update. simpl.
  rewrite list_lookup_middle by reflexivity. simpl.
  destruct (connect_fresh (Conn h p None) (net s) eq_refl)
    as (ok & w1 & -> & Ht).
  rewrite insert_last.
  intros Hres. right. exists p, ok.
  destruct ok; simpl in Hres; injection Hres as <- <-; simpl;
    rewrite Ht; repeat split; reflexivity.
Qed.

Lemma failed_call_leaves_no_socket (l : nat) (command_type : str)
  (params : option json) (s s1 : server) (e : exn) :
  call_send_command l command_type params s = (Raise e, s1) ->
  sock (deref s1 l) = None.
Proof.
  intros Hcall.
  destruct (call_send_command_frame _ _ _ _ _ _ Hcall)
    as (Hlen & _ & _ & _ & Hnone).
  destruct (Nat.lt_ge_cases l (length (heap s))) as [Hl|Hl].
  - now apply (Hnone e).
  - unfold deref. rewrite lookup_ge_None_2 by lia. reflexivity.
Qed.

(** [disconnect] on an object without a socket changes nothing. *)
Lemma disconnect_without_socket (l : nat) (s : server) :
  sock (deref s l) = None -> call_disconnect l s = s.
Proof.
  intros Hnone. unfold call_disconnect, disconnect. rewrite Hnone.
  unfold update. destruct s as [hp g env files w]. simpl. f_equal.
  apply list_insert_id'. intros Hl. unfold deref. simpl.
  destruct (hp !! l) eqn:Hlook; [reflexivity|].
  apply lookup_ge_None_1 in Hlook. lia.
Qed.

(** The creation branch makes the connection to the configured address,
    and nothing at all when the configured port is no number. *)
Lemma create_connection_address (s : server) :
  _blender_connection s = None ->
  match configured_port s with
  | Raise e => create_connection s = (Raise e, s)
  | Ret p =>
      exists ok : bool,
        heap (create_connection s).2
        = heap s ++ [Conn (configured_host s) p
                       (if ok then Some (next_fd (net s)) else None)] /\
        _blender_connection (create_connection s).2
        = Some (length (heap s)) /\
        trace (net (create_connection s).2)
        = trace (net s)
            ++ [EvConnect (next_fd (net s)) (configured_host s) p ok] /\
        (create_connection s).1
        = (if ok then Ret (length (heap s)) else Raise could_not_connect)
  end.
Proof.
  intros Hnone.
  unfold create_connection, configured_port, configured_host.
  rewrite Hnone.
  destruct (match getenv "BLENDER_PORT" (environ s) with
            | Some v => py_int v
            | None => Ret DEFAULT_PORT
            end) as [p|e]; [|reflexivity].
  unfold new_connection, call_connect, set_global, update, deref. simpl.
  rewrite list_lookup_middle by reflexivity. simpl.
  destruct (connect_fresh
              (Conn (default DEFAULT_HOST (getenv "BLENDER_HOST" (environ s)))
                 p None) (net s) eq_refl) as (ok & w1 & -> & Ht).
  rewrite insert_last. exists ok.
  destruct ok; simpl; rewrite Ht; repeat split.
Qed.

(** C4.  [get_blender_connection] keeps one connection: when the global
    connection exists and answers the ping, that same object is returned
    and no object is created; an object is created, made the global
    connection and connected only when there was no global connection or
    the ping raised; after a failed ping the stale object is left without
    a socket and is no longer the global connection; and in both of these
    cases a new object is created for the configured address, made the
    global connection and connected in one attempt, and returned when the
    attempt succeeds (the call raises when it fails, and when the
    configured port is no number nothing is created). *)
Theorem get_blender_connection_persistent (s s' : server) (r : res nat) :
  get_blender_connection s = (r, s') ->
  (forall l v s1,
      _blender_connection s = Some l ->
      call_send_command l "ping" None s = (Ret v, s1) ->
      r = Ret l /\ s' = s1 /\ _blender_connection s' = Some l /\
      length (heap s') = length (heap s)) /\
  (length (heap s') <> length (heap s) ->
   (_blender_connection s = None \/
    exists l e s1,
      _blender_connection s = Some l /\
      call_send_command l "ping" None s = (Raise e, s1)) /\
   exists (new : BlenderConnection) (fd : nat) (ok : bool) evs,
     heap s' !! length (heap s) = Some new /\
     length (heap s') = S (length (heap s)) /\
     _blender_connection s' = Some (length (heap s)) /\
     sock new = (if ok then Some fd else None) /\
     trace (net s')
     = trace (net s) ++ evs ++ [EvConnect fd (host new) (port new) ok] /\
     r = if ok then Ret (length (heap s)) else Raise could_not_connect) /\
  (forall l e s1,
      _blender_connection s = Some l ->
      (l < length (heap s))%nat ->
      call_send_command l "ping" None s = (Raise e, s1) ->
      sock (deref s' l) = None /\
      _blender_connection s' <> Some l /\ r <> Ret l) /\
  (forall s0,
      _blender_connection s = None /\ s0 = s \/
      (exists l e,
          _blender_connection s = Some l /\
          call_send_command l "ping" None s = (Raise e, s0)) ->
      match configured_port s with
      | Raise e => r = Raise e /\ s' = set_global s0 None
      | Ret p =>
          exists ok : bool,
            heap s'
            = heap s0 ++ [Conn (configured_host s) p
                            (if ok then Some (next_fd (net s0)) else None)] /\
            length (heap s0) = length (heap s) /\
            _blender_connection s' = Some (length (heap s)) /\
            trace (net s')
            = trace (net s0)
                ++ [EvConnect (next_fd (net s0)) (configured_host s) p ok] /\
            r = if ok then Ret (length (heap s)) else Raise could_not_connect
      end).
Proof.
  unfold get_blender_connection.
  destruct (_blender_connection s) as [l|] eqn:Hg.
  - destruct (call_send_command l "ping" None s) as [rp s1] eqn:Hping.
    destruct (call_send_command_frame _ _ _ _ _ _ Hping)
      as (Hlen & Hglob & Henv & (evs & Htrace & _) & _).
    destruct rp as [v|e].
    + intros [= <- <-]. split; [|split; [|split]].
      * intros l0 v0 s0 [= <-] Hp. rewrite Hping in Hp.
        injection Hp as _ <-. rewrite Hglob. auto.
      * intros Hne. contradiction.
      * intros l0 e0 s0 [= <-] _ Hp. rewrite Hping in Hp. discriminate.
      * intros s0 [[[=] _]|(l0 & e0 & [= <-] & Hp)].
        rewrite Hping in Hp. discriminate.
    + pose proof (failed_call_leaves_no_socket _ _ _ _ _ _ Hping) as Hnone.
      rewrite (disconnect_without_socket _ _ Hnone).
      intros Hcreate.
      pose proof (create_connection_address (set_global s1 None) eq_refl)
        as Haddr.
      rewrite Hcreate in Haddr.
      apply create_connection_spec in Hcreate; [|reflexivity].
      simpl in Hcreate. rewrite Hlen, Htrace in Hcreate.
      split; [|split; [|split]].
      * intros l0 v0 s0 [= <-] Hp. rewrite Hping in Hp. discriminate.
      * intros Hne. split; [right; eauto|].
        destruct Hcreate as [(e' & -> & ->)|(p & ok & Hh & Hg' & Ht & ->)].
        { simpl in Hne. congruence. }
        eexists _, (next_fd (net s1)), ok, evs.
        rewrite Hh, length_app, Hlen. simpl.
        rewrite list_lookup_middle by (symmetry; exact Hlen).
        repeat split; auto; try lia.
        rewrite Ht, <- app_assoc. reflexivity.
      * intros l0 e0 s0 [= <-] Hl _.
        destruct Hcreate as [(e' & -> & ->)|(p & ok & Hh & Hg' & Ht & ->)].
        { simpl. repeat split; auto; discriminate. }
        unfold deref in *. rewrite Hh, lookup_app_l by lia.
        rewrite Hg'. repeat split; auto.
        -- intros [= E]. lia.
        -- destruct ok; [intros [= E]; lia|discriminate].
      * intros s0 [[[=] _]|(l0 & e0 & [= <-] & Hp)].
        rewrite Hping in Hp. injection Hp as _ <-.
        assert (Hport : configured_port (set_global s1 None)
                        = configured_port s).
        { unfold configured_port. simpl. now rewrite Henv. }
        assert (Hhost : configured_host (set_global s1 None)
                        = configured_host s).
        { unfold configured_host. simpl. now rewrite Henv. }
        rewrite Hport, Hhost in Haddr. simpl in Haddr.
        destruct (configured_port s) as [p|e'].
        -- destruct Haddr as (ok & H1 & H2 & H3 & H4). exists ok.
           rewrite Hlen in H2, H4. auto.
        -- injection Haddr as -> ->. auto.
  - intros Hcreate.
    pose proof (create_connection_address s Hg) as Haddr.
    rewrite Hcreate in Haddr.
    apply create_connection_spec in Hcreate; [|exact Hg].
    split; [|split; [|split]].
    + intros l v s1 [=].
    + intros Hne. split; [left; reflexivity|].
      destruct Hcreate as [(e' & -> & ->)|(p & ok & Hh & Hg' & Ht & ->)].
      { congruence. }
      eexists _, (next_fd (net s)), ok, [].
      rewrite Hh, length_app. simpl.
      rewrite list_lookup_middle by reflexivity.
      repeat split; auto; lia.
    + intros l e s1 [=].
    + intros s0 [[_ ->]|(l0 & e0 & [=] & _)]. simpl in Haddr.
      destruct (configured_port s) as [p|e'].
      * destruct Haddr as (ok & H1 & H2 & H3 & H4). exists ok. auto.
      * injection Haddr as -> ->. split; [reflexivity|].
        destruct s. simpl in *. now subst.
Qed.

End Persistent.

(** * The tools that ask for confirmation *)

Section Confirmation.
Context `{PyRuntime}.

(** C9.  Called with [confirm=False], each of the seven destructive tools
    returns its "requires confirmation=True parameter" message and leaves
    the state of the server as it was: no connection is looked up, made
    or used, and nothing is sent. *)
Theorem unconfirmed_tools_touch_nothing
  (scene_name object_name material_name modifier_name file_path : str)
  (s : server) :
  delete_scene scene_name false s
  = ("Scene deletion requires confirmation=True parameter", s) /\
  clear_scene false s
  = ("Scene clearing requires confirmation=True parameter", s) /\
  delete_object object_name false s
  = ("Object deletion requires confirmation=True parameter", s) /\
  delete_material material_name false s
  = ("Material deletion requires confirmation=True parameter", s) /\
  remove_modifier object_name modifier_name false s
  = ("Modifier removal requires confirmation=True parameter", s) /\
  clear_animation object_name false s
  = ("Animation clearing requires confirmation=True parameter", s) /\
  load_scene file_path false s
  = ("Scene loading requires confirmation=True parameter", s).
Proof. repeat split. Qed.

End Confirmation.

(** * The addon's dispatcher: [execute_command] *)

(** Go through the tests of the action name, in the order of the source;
    [tac] settles the branch of a name. *)
Ltac each_action name tac :=
  repeat (destruct (String.eqb name _); [tac|]).

Section Dispatch.
Context `{PyRuntime} `{Blender}.

Lemma eq_str_true (v : json) (s : str) :
  eq_str v s = true -> v = JStr s.
Proof.
  destruct v; simpl; try discriminate.
  intros E. apply String.eqb_eq in E. now subst.
Qed.

(** C7.  The command dict that [send_command] builds has the command name
    under ["type"] and no ["action"] item, so that [execute_command]
    answers it with the unknown-action failure, whose text is
    "Unknown action: None", and calls nothing in Blender. *)
Theorem server_commands_are_unknown_actions
  (self : BlenderConnection) (command_type : str) (params : option json)
  (w : world) (b : bpy) :
  let command := build_command command_type params (stamps w) in
  (exists evs,
      trace (send_command self command_type params w).2 = trace w ++ evs /\
      Forall (sends_only (json_dumps command)) evs) /\
  py_get command "type" JNull = Ret (JStr command_type) /\
  py_get command "action" JNull = Ret JNull /\
  execute_command command b
  = (Returned (failure "Unknown action: None"), b).
Proof.
  split; [apply send_command_sends|]. repeat split.
Qed.

Lemma dispatch_reply (command result : json) (b b' : bpy) :
  dispatch command b = (Returns result, b') ->
  is_success result \/ exists text, result = failure text.
Proof.
  unfold dispatch, call_with_kwargs, success_message, is_success.
  intros Hd.
  repeat (case_match; simplify_eq; eauto).
Qed.

(** What is no [Exception] comes out of the body only from the code that
    the [eval] action evaluates. *)
Lemma dispatch_escape (items : list (str * json)) (x : base_exn)
  (b b' : bpy) :
  dispatch (JObj items) b = (Escapes x, b') ->
  dict_get "action" items JNull = JStr "eval" /\
  exists kwargs,
    dict_get "params" items (JObj []) = JObj kwargs /\
    eval_str (dict_get "code" kwargs JNull) b = (Escapes x, b').
Proof.
  unfold dispatch, call_with_kwargs. simpl. intros Hd.
  repeat (case_match; simplify_eq; eauto using eq_str_true).
  match goal with
  | E : eq_str _ "eval" = true |- _ => apply eq_str_true in E
  end.
  unfold py_get in *. repeat (case_match; simplify_eq). eauto.
Qed.

(** C5, amended.  For a command dict whose action is one of the recognized
    names, [execute_command] makes the corresponding call into Blender and
    returns a success dict when the parameters fit the call, the object
    the call acts on is in the scene and the call does not raise; when the
    call raises it returns a failure dict with the text of the exception,
    and when that object is not in the scene it returns the
    "Object not found" failure and calls nothing.  The action [eval]
    evaluates the code: the text of its value comes back in a success
    dict, an [Exception] it raises in a failure dict, and what is no
    [Exception] leaves [execute_command].  For any other action it returns
    the "Unknown action" failure and calls nothing.  Apart from what the
    evaluated code lets out, [execute_command] returns a success or a
    failure dict and raises nothing. *)
Theorem execute_command_dispatch (items : list (str * json)) (b : bpy) :
  let command := JObj items in
  let action := dict_get "action" items JNull in
  let params := dict_get "params" items (JObj []) in
  (forall name call b',
      action = JStr name ->
      corresponding_call name params = Some call ->
      (forall obj, target_object call = Some obj ->
                   named_object_exists obj b = Ret true) ->
      bpy_do call b = (Ret tt, b') ->
      exists result,
        execute_command command b = (Returned result, b') /\
        is_success result) /\
  (forall name call e b',
      action = JStr name ->
      corresponding_call name params = Some call ->
      (forall obj, target_object call = Some obj ->
                   named_object_exists obj b = Ret true) ->
      bpy_do call b = (Raise e, b') ->
      execute_command command b = (Returned (failure (exn_msg e)), b')) /\
  (forall name call obj,
      action = JStr name ->
      corresponding_call name params = Some call ->
      target_object call = Some obj ->
      named_object_exists obj b = Ret false ->
      execute_command command b
      = (Returned (failure "Object not found"), b)) /\
  (forall kwargs,
      action = JStr "eval" ->
      params = JObj kwargs ->
      let code := dict_get "code" kwargs JNull in
      (forall text b',
          eval_str code b = (Returns text, b') ->
          execute_command command b
          = (Returned (JObj [("success", JBool true);
                             ("result", JStr text)]), b')) /\
      (forall e b',
          eval_str code b = (Throws e, b') ->
          execute_command command b
          = (Returned (failure (exn_msg e)), b')) /\
      (forall x b',
          eval_str code b = (Escapes x, b') ->
          execute_command command b = (Uncaught x, b'))) /\
  ((forall name, In name recognized_actions -> action <> JStr name) ->
   execute_command command b
   = (Returned (failure ("Unknown action: " +:+ py_str action)), b)) /\
  match execute_command command b with
  | (Returned result, _) =>
      is_success result \/ exists text, result = failure text
  | (Uncaught x, b') =>
      action = JStr "eval" /\
      exists kwargs,
        params = JObj kwargs /\
        eval_str (dict_get "code" kwargs JNull) b = (Escapes x, b')
  end.
Proof.
  intros command action params. split; [|split; [|split; [|split; [|split]]]].
  - intros name call b' Ha Hc Hobj Hdo.
    unfold execute_command, dispatch, command. simpl.
    fold action params. rewrite Ha. simpl.
    unfold corresponding_call in Hc.
    each_action name
      ltac:(destruct params; try discriminate; injection Hc as <-;
            simpl in *;
            try rewrite (Hobj _ eq_refl); rewrite Hdo; simpl;
            (eexists; split; [reflexivity|eexists; reflexivity])).
    discriminate.
  - intros name call e b' Ha Hc Hobj Hdo.
    unfold execute_command, dispatch, command. simpl.
    fold action params. rewrite Ha. simpl.
    unfold corresponding_call in Hc.
    each_action name
      ltac:(destruct params; try discriminate; injection Hc as <-;
            simpl in *;
            try rewrite (Hobj _ eq_refl); rewrite Hdo; reflexivity).
    discriminate.
  - intros name call obj Ha Hc Ht Hmissing.
    unfold execute_command, dispatch, command. simpl.
    fold action params. rewrite Ha. simpl.
    unfold corresponding_call in Hc.
    each_action name
      ltac:(destruct params; try discriminate; injection Hc as <-;
            simpl in *; try discriminate;
            injection Ht as <-; rewrite Hmissing; reflexivity).
    discriminate.
  - intros kwargs Ha Hp code.
    unfold execute_command, dispatch, command. simpl.
    fold action params. rewrite Ha, Hp. simpl. fold code.
    split_and!; intros ? b' He; rewrite He; reflexivity.
  - intros Hunknown.
    unfold execute_command, dispatch, command. simpl. fold action params.
    assert (Hno : forall name, In name recognized_actions ->
                               eq_str action name = false).
    { intros name Hin. destruct (eq_str action name) eqn:E; [|reflexivity].
      apply eq_str_true in E. now apply Hunknown in E. }
    rewrite !Hno by (simpl; tauto). reflexivity.
  - unfold execute_command.
    destruct (dispatch command b) as [[result|e|x] b'] eqn:Hd; simpl.
    + eapply dispatch_reply; eauto.
    + right. eauto.
    + now apply dispatch_escape.
Qed.

End Dispatch.

(** * The addon's client loop: [handle_client] *)

Section Client.
Context `{PyRuntime} `{Blender}.

(** A message that decodes to a dict is answered with the encoded result
    of [execute_command], when the console takes the line that names its
    action. *)
Lemma handle_message_answers (data : bytes) (items : list (str * json))
  (result : json) (b b' : bpy) :
  json_loads data = Ret (JObj items) ->
  py_print (received_line (dict_get "action" items JNull)) = None ->
  execute_command (JObj items) b = (Returned result, b') ->
  handle_message data None b = (Replied (json_dumps result), b').
Proof.
  intros Hl Hp Hx. unfold handle_message. rewrite Hl. simpl.
  rewrite Hp, Hx. reflexivity.
Qed.

(** A message that is text but not JSON is answered with the
    "Invalid JSON" failure. *)
Lemma handle_message_invalid_json (data : bytes) (msg : str) (b : bpy) :
  loads data = inr (NotJSON msg) ->
  handle_message data None b
  = (Replied (json_dumps (failure ("Invalid JSON: " +:+ msg))), b).
Proof.
  intros Hl. unfold handle_message, json_loads. rewrite Hl. reflexivity.
Qed.

(** A message that decodes to something else than a dict, or whose
    decoding fails otherwise than by [JSONDecodeError], gets no answer. *)
Lemma handle_message_drops (data : bytes) (tx : option exn) (b : bpy) :
  (exists v, json_loads data = Ret v /\ forall items, v <> JObj items) \/
  (exists e, json_loads data = Raise e /\
             isinstance e JSONDecodeError = false) ->
  exists e, handle_message data tx b = (Dropped e, b).
Proof.
  unfold handle_message. intros [(v & -> & Hv)|(e & -> & ->)].
  - destruct v; simpl; eauto. now destruct (Hv items).
  - eauto.
Qed.

(** As long as the messages are answered, the handler goes on with the
    next one. *)
Lemma handle_client_answers (t : turn) (rest : list turn) (data : bytes)
  (items : list (str * json)) (result : json) (b b' : bpy) :
  running t = true -> rx t = Recv data -> tx t = None ->
  data <> "" ->
  json_loads data = Ret (JObj items) ->
  py_print (received_line (dict_get "action" items JNull)) = None ->
  execute_command (JObj items) b = (Returned result, b') ->
  handle_client (t :: rest) b
  = (Sent (json_dumps result) :: (handle_client rest b').1,
     (handle_client rest b').2).
Proof.
  intros Hrun Hrx Htx Hdata Hl Hp Hx. simpl. rewrite Hrun, Hrx, Htx. simpl.
  apply String.eqb_neq in Hdata. unfold is_empty. rewrite Hdata.
  rewrite (handle_message_answers _ _ _ _ _ Hl Hp Hx).
  destruct (handle_client rest _). reflexivity.
Qed.

End Client.

(** * The definitions at work, on the reference runtime *)

Section Concrete.
#[local] Existing Instance ref_runtime.
#[local] Existing Instance scene_host.

(** C1, as stated, fails: the peer sends an opening brace and closes the
    stream; [_receive_response] returns the brace, which is not a JSON
    document. *)
Lemma receive_response_returns_unparsed :
  (_receive_response open_connection (receiving ["{"; ""])).1 = Ret "{" /\
  not_yet_json "{" /\ ~ parses "{".
Proof.
  split; [reflexivity|]. split.
  - eexists. split; reflexivity.
  - intros [v Hv]. discriminate Hv.
Qed.

Lemma receive_response_framing_witness :
  (_receive_response open_connection (receiving ["["; "1]"; "[2]"])).1
  = Ret "[1]" /\
  exists chunks tail,
    recv_script (receiving ["["; "1]"; "[2]"]) = map Recv chunks ++ tail /\
    "[1]" = join chunks /\
    (parses "[1]" /\ [Recv "[2]"] = tail \/
     ~ parses "[1]" /\ stream_stopped tail).
Proof.
  split; [reflexivity|].
  assert (Hrun : _receive_response open_connection
                   (receiving ["["; "1]"; "[2]"])
                 = (Ret "[1]", set_recv_script
                                 (receiving ["["; "1]"; "[2]"])
                                 [Recv "[2]"]))
    by (vm_compute; reflexivity).
  destruct (receive_response_framing open_connection 3 eq_refl)
    as [_ Hsound].
  destruct (Hsound _ _ _ Hrun)
    as (chunks & tail & _ & _ & Hs & Hd & _ & Hend).
  exists chunks, tail. split; [exact Hs|]. split; [exact Hd|].
  exact Hend.
Defined.

Lemma no_data_received_unreachable_witness :
  recv_loop (recv_script (receiving ["{"; ""])) []
  = (LoopBreak ["{"], []) /\
  ["{"] <> [] /\
  _receive_response open_connection (receiving ["{"; ""])
  = (Ret (join ["{"]), set_recv_script (receiving ["{"; ""]) []).
Proof.
  split; [reflexivity|].
  destruct (no_data_received_unreachable open_connection 3
              (receiving ["{"; ""]) eq_refl) as (_ & _ & _ & Hbreak).
  apply Hbreak. reflexivity.
Defined.

Lemma send_command_failure_drops_socket_witness :
  (send_command open_connection "ping" None (receiving [])).1.1
  = Raise (Exn Exception_ "Timeout waiting for Blender response") /\
  sock (send_command open_connection "ping" None (receiving [])).1.2
  = None.
Proof.
  split; [reflexivity|].
  assert (Hrun : send_command open_connection "ping" None (receiving [])
                 = (Raise (Exn Exception_
                             "Timeout waiting for Blender response"),
                    (send_command open_connection "ping" None
                       (receiving [])).1.2,
                    (send_command open_connection "ping" None
                       (receiving [])).2))
    by (vm_compute; reflexivity).
  destruct (send_command_failure_drops_socket _ _ _ _ _ _ _ Hrun)
    as [Hnone _].
  exact Hnone.
Defined.

Lemma send_command_connects_at_most_once_witness :
  (connect closed_connection (receiving [])).1.1 = false /\
  (send_command closed_connection "ping" None (receiving [])).1.1
  = Raise (Exn ConnectionError_ "Not connected to Blender") /\
  trace (send_command closed_connection "ping" None (receiving [])).2
  = [EvConnect 4 "localhost" 9876 false].
Proof.
  split; [reflexivity|].
  destruct (send_command_connects_at_most_once closed_connection "ping"
              None (receiving [])) as (evs & Ht & _ & Hfail).
  destruct (Hfail eq_refl) as [Hr Hevs].
  split; [exact Hr|]. rewrite Ht, Hevs. reflexivity.
Defined.

Lemma get_blender_connection_persistent_witness :
  (let s := connected_server (receiving ["{}"]) in
   (get_blender_connection s).1 = Ret 0%nat /\
   _blender_connection (get_blender_connection s).2 = Some 0%nat /\
   length (heap (get_blender_connection s).2) = 1%nat) /\
  (let s := connected_server (World [None] [] [] 4 0 []) in
   (get_blender_connection s).1 = Ret 1%nat /\
   _blender_connection (get_blender_connection s).2 = Some 1%nat /\
   heap (get_blender_connection s).2
   = [closed_connection; Conn "localhost" 9876 (Some 4%nat)]).
Proof.
  split.
  - intros s. split; [reflexivity|].
    assert (Hrun : get_blender_connection s
                   = (Ret 0%nat, (get_blender_connection s).2))
      by (vm_compute; reflexivity).
    assert (Hping : call_send_command 0 "ping" None s
                    = (Ret (JObj []), (call_send_command 0 "ping" None s).2))
      by (vm_compute; reflexivity).
    destruct (get_blender_connection_persistent s _ _ Hrun)
      as (Hreuse & _ & _).
    destruct (Hreuse 0%nat _ _ eq_refl Hping) as (_ & _ & Hg & Hlen).
    split; [exact Hg|exact Hlen].
  - intros s. split; [reflexivity|].
    assert (Hrun : get_blender_connection s
                   = (Ret 1%nat, (get_blender_connection s).2))
      by (vm_compute; reflexivity).
    assert (Hping : call_send_command 0 "ping" None s
                    = (Raise (Exn Exception_
                                "Timeout waiting for Blender response"),
                       (call_send_command 0 "ping" None s).2))
      by (vm_compute; reflexivity).
    destruct (get_blender_connection_persistent s _ _ Hrun)
      as (_ & _ & _ & Hnew).
    specialize (Hnew _ (or_intror (ex_intro _ 0%nat (ex_intro _ _
                                     (conj eq_refl Hping))))).
    change (configured_port s) with (Ret 9876 : res Z) in Hnew.
    destruct Hnew as (ok & Hheap & _ & Hg & _ & Hr).
    destruct ok; [|discriminate Hr].
    split; [exact Hg|]. rewrite Hheap. reflexivity.
Defined.

(** C5, as stated, fails: [delete_object] is a recognized action, yet for
    an object that is not in the scene no call is made and the dict that
    comes back is a failure. *)
Lemma delete_of_missing_object_is_no_success :
  execute_command (delete_command "Cube") empty_scene
  = (Returned (failure "Object not found"), empty_scene) /\
  forall result,
    (execute_command (delete_command "Cube") empty_scene).1 = Returned result ->
    ~ is_success result.
Proof.
  split; [reflexivity|]. intros result [= <-] [rest Hrest].
  discriminate Hrest.
Qed.

Lemma execute_command_dispatch_witness :
  (exists result,
      execute_command (JObj [("action", JStr "add_cube")]) empty_scene
      = (Returned result, Scene ["Cube"] [primitive_cube_add []]) /\
      is_success result) /\
  execute_command (eval_command "1/0") empty_scene
  = (Returned (failure "invalid syntax"), empty_scene) /\
  execute_command (eval_command "exit()") empty_scene
  = (Uncaught (BaseExn "SystemExit" ""), empty_scene).
Proof.
  split; [|split].
  - destruct (@execute_command_dispatch ref_runtime scene_host
                [("action", JStr "add_cube")] empty_scene) as (Hcall & _).
    apply (Hcall "add_cube" (primitive_cube_add [])).
    + reflexivity.
    + reflexivity.
    + intros obj [=].
    + reflexivity.
  - destruct (@execute_command_dispatch ref_runtime scene_host
                [("action", JStr "eval");
                 ("params", JObj [("code", JStr "1/0")])] empty_scene)
      as (_ & _ & _ & Heval & _).
    destruct (Heval _ eq_refl eq_refl) as (_ & Hthrows & _).
    apply (Hthrows (Exn Exception_ "invalid syntax")). reflexivity.
  - destruct (@execute_command_dispatch ref_runtime scene_host
                [("action", JStr "eval");
                 ("params", JObj [("code", JStr "exit()")])] empty_scene)
      as (_ & _ & _ & Heval & _).
    destruct (Heval _ eq_refl eq_refl) as (_ & _ & Hescapes).
    apply Hescapes. reflexivity.
Defined.

(** C6, where the code fails it: the message [[1]] is a JSON document but
    not a dict; [handle_client] sends nothing back and closes the
    socket.  The same happens for bytes that are not UTF-8. *)
Theorem handle_client_leaves_message_unanswered :
  handle_client [Turn true (Recv "[1]") None] empty_scene
  = ([Closed], empty_scene) /\
  handle_client [Turn true (Recv (String (chr 255) "")) None] empty_scene
  = ([Closed], empty_scene).
Proof. split; reflexivity. Qed.

(** The four kinds of failure of an exchange: a timeout, the loss of the
    connection, a response that is not JSON, a response with the error
    status.  Each leaves the object without a socket. *)
Example timeout_drops_socket :
  send_command open_connection "ping" None (receiving [])
  = (Raise (Exn Exception_ "Timeout waiting for Blender response"),
     closed_connection,
     (send_command open_connection "ping" None (receiving [])).2).
Proof. reflexivity. Qed.

Example connection_loss_drops_socket :
  send_command open_connection "ping" None
    (World [] [Some (Exn BrokenPipeError "[Errno 32] Broken pipe")] [] 4 0 [])
  = (Raise (Exn Exception_
              "Connection to Blender lost: [Errno 32] Broken pipe"),
     closed_connection,
     (send_command open_connection "ping" None
        (World [] [Some (Exn BrokenPipeError "[Errno 32] Broken pipe")] []
           4 0 [])).2).
Proof. reflexivity. Qed.

Example malformed_response_drops_socket :
  send_command open_connection "ping" None (receiving ["{"; ""])
  = (Raise (Exn Exception_
              "Communication error with Blender: not a JSON document"),
     closed_connection,
     (send_command open_connection "ping" None (receiving ["{"; ""])).2).
Proof. reflexivity. Qed.

Example error_status_drops_socket :
  send_command open_connection "ping" None (receiving [error_response])
  = (Raise (Exn Exception_
              "Communication error with Blender: no such scene"),
     closed_connection,
     (send_command open_connection "ping" None
        (receiving [error_response])).2).
Proof. reflexivity. Qed.

(** After a ping that times out, the stale object 0 has no socket, object 1
    is created, connected on a new socket and made the global connection;
    the stale socket 3 is never closed. *)
Example stale_connection_is_replaced :
  let s := connected_server (World [None] [] [] 4 0 []) in
  (get_blender_connection s).1 = Ret 1%nat /\
  heap (get_blender_connection s).2
  = [closed_connection; Conn "localhost" 9876 (Some 4%nat)] /\
  _blender_connection (get_blender_connection s).2 = Some 1%nat /\
  Forall (fun ev => is_close ev = false)
         (trace (net (get_blender_connection s).2)).
Proof. repeat split. vm_compute. repeat constructor. Qed.

(** A command of the server, sent over the wire to the addon, comes back
    as the unknown-action failure. *)
Example server_command_over_the_wire :
  handle_message
    (json_dumps (build_command "create_object"
                   (Some (JObj [("name", JStr "Cube")])) 0))
    None empty_scene
  = (Replied (json_dumps (failure "Unknown action: None")), empty_scene).
Proof. reflexivity. Qed.

(** A command whose action holds a lone surrogate cannot be named on the
    console: [print] raises, the handler sends nothing and closes the
    socket. *)
Example unprintable_action_is_unanswered :
  py_print (received_line (JStr (utf8_encode 56448)))
  = Some (Exn UnicodeEncodeError
            ("'utf-8' codec can't encode character '"
             +:+ String backslash "udc80"
             +:+ "' in position 31: surrogates not allowed")) /\
  handle_client [Turn true (Recv surrogate_command) None] empty_scene
  = ([Closed], empty_scene).
Proof. split; reflexivity. Qed.

(** Code that exits: the [SystemExit] passes [execute_command] and the
    handler, which closes the socket on its way out and answers nothing. *)
Example exit_leaves_the_handler :
  handle_message (json_dumps (eval_command "exit()")) None empty_scene
  = (Left (BaseExn "SystemExit" ""), empty_scene) /\
  handle_client
    [Turn true (Recv (json_dumps (eval_command "exit()"))) None] empty_scene
  = ([Closed], empty_scene).
Proof. split; reflexivity. Qed.

End Concrete.

(** * More on the connection object *)

Section ConnectionObject.
Context `{PyRuntime}.

(** [connect] returns [True] exactly when the object holds a socket
    afterwards.  With a socket already held it does nothing; without one
    it makes one attempt, on a new descriptor, to the address of the
    object. *)
Theorem connect_result_matches_socket (self : BlenderConnection) (w : world) :
  ((connect self w).1.1 = true <-> is_Some (sock (connect self w).1.2)) /\
  host (connect self w).1.2 = host self /\
  port (connect self w).1.2 = port self /\
  match sock self with
  | Some _ => connect self w = (true, self, w)
  | None =>
      trace (connect self w).2
      = trace w ++ [EvConnect (next_fd w) (host self) (port self)
                      (connect self w).1.1] /\
      ((connect self w).1.1 = true ->
       sock (connect self w).1.2 = Some (next_fd w)) /\
      next_fd (connect self w).2 = S (next_fd w)
  end.
Proof.
  unfold connect, pop_connect.
  destruct (sock self) as [fd|] eqn:Hsock; simpl.
  - rewrite Hsock. repeat split; eauto.
  - destruct (connect_script w) as [|[e|] rest]; simpl;
      repeat split; eauto; try discriminate; intros [x Hx]; discriminate.
Qed.

(** [disconnect] leaves the object without a socket and closes the socket
    it held, no other; a second [disconnect] does nothing; after a
    successful [connect] it closes the socket that [connect] opened. *)
Theorem disconnect_closes_the_held_socket
  (self : BlenderConnection) (w : world) :
  sock (disconnect self w).1 = None /\
  trace (disconnect self w).2
  = trace w ++ match sock self with Some fd => [EvClose fd] | None => [] end /\
  disconnect (disconnect self w).1 (disconnect self w).2
  = disconnect self w /\
  (sock self = None ->
   trace (disconnect (connect self w).1.2 (connect self w).2).2
   = trace w
       ++ EvConnect (next_fd w) (host self) (port self) (connect self w).1.1
       :: (if (connect self w).1.1 then [EvClose (next_fd w)] else [])).
Proof.
  unfold disconnect. destruct (sock self) as [fd|] eqn:Hsock; simpl.
  - repeat split; auto. discriminate.
  - rewrite Hsock, app_nil_r. repeat split; auto.
    intros _. unfold connect, pop_connect. rewrite Hsock.
    destruct (connect_script w) as [|[e|] rest]; simpl;
      rewrite <- ?app_assoc; reflexivity.
Qed.

Lemma receive_response_stamps (self : BlenderConnection) (w w' : world)
  (r : res bytes) :
  _receive_response self w = (r, w') -> stamps w' = stamps w.
Proof.
  unfold _receive_response. destruct (sock self).
  - destruct (recv_loop (recv_script w) []) as [ex rest].
    destruct ex as [d|e|chunks]; try (intros [= _ <-]; reflexivity).
    destruct (negb (is_nil chunks)); intros [= _ <-]; reflexivity.
  - intros [= _ <-]. reflexivity.
Qed.

(** A body of the [try] that returns has sent the command, once. *)
Lemma exchange_ret (self : BlenderConnection) (command v : json)
  (w w' : world) :
  exchange self command w = (Ret v, w') ->
  exists fd,
    sock self = Some fd /\
    trace w' = trace w ++ [EvSend fd (json_dumps command) true] /\
    stamps w' = stamps w.
Proof.
  unfold exchange. destruct (sock self) as [fd|]; [|discriminate].
  assert (Hpop : trace (pop_send w).2 = trace w
                 /\ stamps (pop_send w).2 = stamps w).
  { unfold pop_send. destruct (send_script w); auto. }
  destruct (pop_send w) as [o w1]. simpl in Hpop. destruct Hpop as [Ht Hst].
  destruct o as [e|]; [discriminate|].
  destruct (_receive_response self _) as [rr w2] eqn:Hrecv.
  pose proof (receive_response_trace _ _ _ _ Hrecv) as Ht2.
  pose proof (receive_response_stamps _ _ _ _ Hrecv) as Hst2.
  simpl in Ht2, Hst2. rewrite Ht in Ht2. rewrite Hst in Hst2.
  intros Hres. exists fd. split; [reflexivity|].
  rewrite <- Ht2, <- Hst2.
  destruct rr as [response_data|e]; [|discriminate].
  destruct (json_loads response_data) as [response|e]; [|discriminate].
  destruct (py_get response "status" JNull) as [status|e]; [|discriminate].
  destruct (eq_str status "error").
  - destruct (py_get response "message" _); discriminate.
  - injection Hres as _ <-. auto.
Qed.

(** A connection attempt leaves the scripts of the other calls, the
    command counter and the trace so far as they are. *)
Lemma connect_fresh_frame (self : BlenderConnection) (w : world) :
  sock self = None ->
  exists (ok : bool) (w1 : world),
    connect self w =
      (ok, set_sock self (if ok then Some (next_fd w) else None),
       log (EvConnect (next_fd w) (host self) (port self) ok) w1) /\
    trace w1 = trace w /\ stamps w1 = stamps w /\
    send_script w1 = send_script w /\ recv_script w1 = recv_script w.
Proof.
  intros Hsock. unfold connect, pop_connect. rewrite Hsock.
  destruct (connect_script w) as [|[e|] rest];
    [exists false|exists false|exists true];
    eexists; repeat split; reflexivity.
Qed.

(** A call of [send_command] that returns leaves the object with its
    socket (the one it had, or the one of the connection just made), and
    has sent the command exactly once. *)
Theorem send_command_success_keeps_socket
  (self self' : BlenderConnection) (command_type : str)
  (params : option json) (w w' : world) (v : json) :
  send_command self command_type params w = (Ret v, self', w') ->
  exists fd,
    sock self' = Some fd /\
    host self' = host self /\ port self' = port self /\
    match sock self with
    | Some fd0 => fd = fd0
    | None => fd = next_fd w
    end /\
    trace w'
    = trace w
        ++ match sock self with
           | Some _ => []
           | None => [EvConnect fd (host self) (port self) true]
           end
        ++ [EvSend fd
              (json_dumps (build_command command_type params (stamps w)))
              true] /\
    stamps w' = S (stamps w).
Proof.
  unfold send_command. destruct (sock self) as [fd|] eqn:Hsock.
  - simpl. destruct (exchange self _ (stamp w)) as [r w1] eqn:Hex.
    destruct r as [v'|e]; [|discriminate]. intros [= <- <- <-].
    apply exchange_ret in Hex as (fd' & Hfd & Ht & Hst).
    rewrite Hsock in Hfd. injection Hfd as <-.
    exists fd. simpl in *. repeat split; auto.
  - destruct (connect_fresh_frame self w Hsock)
      as (ok & w1 & Hc & Ht & Hst & _).
    rewrite Hc. destruct ok; simpl; [|discriminate].
    destruct (exchange _ _ (stamp _)) as [r w2] eqn:Hex.
    destruct r as [v'|e]; [|discriminate]. intros [= <- <- <-].
    apply exchange_ret in Hex as (fd' & Hfd & Ht2 & Hst2).
    simpl in Hfd. injection Hfd as <-. simpl in *.
    exists (next_fd w). rewrite Hst in *. rewrite Ht in Ht2.
    repeat split; auto. rewrite Ht2, <- app_assoc. reflexivity.
Qed.

(** What [send_command] raises is never the exception of the socket or of
    the codec itself: it is [ConnectionError("Not connected to Blender")],
    or a plain [Exception] whose text is the timeout text or starts with
    one of the two other prefixes. *)
Theorem send_command_raises_wrapped
  (self self' : BlenderConnection) (command_type : str)
  (params : option json) (w w' : world) (e : exn) :
  send_command self command_type params w = (Raise e, self', w') ->
  e = Exn ConnectionError_ "Not connected to Blender" \/
  exn_cls e = Exception_ /\
  (exn_msg e = "Timeout waiting for Blender response" \/
   (exists text, exn_msg e = "Connection to Blender lost: " +:+ text) \/
   (exists text, exn_msg e = "Communication error with Blender: " +:+ text)).
Proof.
  assert (Hre : forall x,
             exn_cls (reraise x) = Exception_ /\
             (exn_msg (reraise x) = "Timeout waiting for Blender response" \/
              (exists text, exn_msg (reraise x)
                            = "Connection to Blender lost: " +:+ text) \/
              (exists text, exn_msg (reraise x)
                            = "Communication error with Blender: " +:+ text))).
  { intros x. unfold reraise.
    destruct (isinstance x socket_timeout); [simpl; auto|].
    destruct (_ || _); simpl; eauto. }
  unfold send_command. destruct (sock self) as [fd|] eqn:Hsock.
  - simpl. destruct (exchange self _ _) as [r w1].
    destruct r; [discriminate|]. intros [= <- _ _]. right. apply Hre.
  - destruct (connect_fresh self w Hsock) as (ok & w1 & -> & _).
    destruct ok; simpl.
    + destruct (exchange _ _ _) as [r w2].
      destruct r; [discriminate|]. intros [= <- _ _]. right. apply Hre.
    + intros [= <- _ _]. left. reflexivity.
Qed.

(** The world in which the body of the [try] waits for the response has
    the receive script of the world of the call. *)
Lemma recv_script_after_send (fd : nat) (message : bytes) (ok : bool)
  (w : world) :
  recv_script (log (EvSend fd message ok) (pop_send (stamp w)).2)
  = recv_script w.
Proof. unfold pop_send. simpl. destruct (send_script w); reflexivity. Qed.

(** When the response is a JSON object whose status is not "error",
    [send_command] returns its "result" member, and an empty dict when it
    has none; the object keeps its socket. *)
Theorem send_command_returns_result_member
  (self : BlenderConnection) (fd : nat) (command_type : str)
  (params : option json) (w : world) (data : bytes)
  (rest : list recv_outcome) (items : list (str * json)) :
  sock self = Some fd ->
  send_goes_through w ->
  recv_loop (recv_script w) [] = (LoopReturn data, rest) ->
  json_loads data = Ret (JObj items) ->
  eq_str (dict_get "status" items JNull) "error" = false ->
  (send_command self command_type params w).1
  = (Ret (dict_get "result" items (JObj [])), self) /\
  recv_script (send_command self command_type params w).2 = rest.
Proof.
  intros Hsock Hsend Hloop Hl Hstatus.
  unfold send_command. rewrite Hsock. simpl.
  unfold exchange. rewrite Hsock.
  unfold send_goes_through in Hsend.
  assert (Hsend' : (pop_send (stamp w)).1 = None).
  { revert Hsend. unfold pop_send. simpl. now destruct (send_script w). }
  pose proof (recv_script_after_send fd
                (json_dumps (build_command command_type params (stamps w)))
                true w) as Hrs.
  destruct (pop_send (stamp w)) as [o w1]. simpl in Hsend'. subst o.
  simpl snd in Hrs.
  unfold _receive_response. rewrite Hsock, Hrs, Hloop, Hl. simpl.
  rewrite Hstatus. simpl. split; reflexivity.
Qed.

(** When the response is a JSON object with the status "error",
    [send_command] raises with the "message" member of the response, or
    with "Unknown error from Blender" when it has none, and drops the
    socket. *)
Theorem send_command_error_status_raises
  (self : BlenderConnection) (fd : nat) (command_type : str)
  (params : option json) (w : world) (data : bytes)
  (rest : list recv_outcome) (items : list (str * json)) :
  sock self = Some fd ->
  send_goes_through w ->
  recv_loop (recv_script w) [] = (LoopReturn data, rest) ->
  json_loads data = Ret (JObj items) ->
  dict_get "status" items JNull = JStr "error" ->
  (send_command self command_type params w).1
  = (Raise (Exn Exception_
              ("Communication error with Blender: "
               +:+ py_str (dict_get "message" items
                             (JStr "Unknown error from Blender")))),
     set_sock self None).
Proof.
  intros Hsock Hsend Hloop Hl Hstatus.
  unfold send_command. rewrite Hsock. simpl.
  unfold exchange. rewrite Hsock.
  unfold send_goes_through in Hsend.
  assert (Hsend' : (pop_send (stamp w)).1 = None).
  { revert Hsend. unfold pop_send. simpl. now destruct (send_script w). }
  pose proof (recv_script_after_send fd
                (json_dumps (build_command command_type params (stamps w)))
                true w) as Hrs.
  destruct (pop_send (stamp w)) as [o w1]. simpl in Hsend'. subst o.
  simpl snd in Hrs.
  unfold _receive_response. rewrite Hsock, Hrs, Hloop, Hl. simpl.
  rewrite Hstatus. reflexivity.
Qed.

End ConnectionObject.

(** * More on the global connection *)

Section GlobalConnection.
Context `{PyRuntime}.

Lemma send_command_ret_has_socket
  (self self' : BlenderConnection) (command_type : str)
  (params : option json) (w w' : world) (v : json) :
  send_command self command_type params w = (Ret v, self', w') ->
  is_Some (sock self').
Proof.
  unfold send_command. destruct (sock self) as [fd|] eqn:Hsock.
  - simpl. destruct (exchange self _ _) as [r w1].
    destruct r; [|discriminate]. intros [= _ <- _]. rewrite Hsock. eauto.
  - destruct (connect_fresh self w Hsock) as (ok & w1 & -> & _).
    destruct ok; simpl; [|discriminate].
    destruct (exchange _ _ _) as [r w2].
    destruct r; [|discriminate]. intros [= _ <- _]. simpl. eauto.
Qed.

Lemma call_send_command_ret_has_socket (l : nat) (command_type : str)
  (params : option json) (s s1 : server) (v : json) :
  (l < length (heap s))%nat ->
  call_send_command l command_type params s = (Ret v, s1) ->
  is_Some (sock (deref s1 l)).
Proof.
  intros Hl. unfold call_send_command.
  destruct (send_command (deref s l) command_type params (net s))
    as [[r c] w] eqn:Hcall.
  intros [= -> <-]. rewrite deref_update by exact Hl.
  eapply send_command_ret_has_socket; eauto.
Qed.

Lemma get_blender_connection_wf (s s' : server) (r : res nat) :
  wf_server s ->
  get_blender_connection s = (r, s') ->
  wf_server s' /\
  (length (heap s) <= length (heap s'))%nat /\
  forall l, r = Ret l ->
            _blender_connection s' = Some l /\ is_Some (sock (deref s' l)).
Proof.
  intros Hwf. unfold get_blender_connection.
  assert (Hcreate : forall s0 r0 s0',
             _blender_connection s0 = None ->
             create_connection s0 = (r0, s0') ->
             wf_server s0' /\
             (length (heap s0) <= length (heap s0'))%nat /\
             forall l, r0 = Ret l ->
                       _blender_connection s0' = Some l /\
                       is_Some (sock (deref s0' l))).
  { intros s0 r0 s0' Hnone Hc.
    apply create_connection_spec in Hc; [|exact Hnone].
    destruct Hc as [(e & -> & ->)|(p & ok & Hh & Hg & _ & ->)].
    - split; [intros l Hl; congruence|]. split; [lia|discriminate].
    - simpl in *. split; [|split].
      + intros l Hl. rewrite Hg in Hl. injection Hl as <-.
        rewrite Hh, length_app. simpl. lia.
      + rewrite Hh, length_app. simpl. lia.
      + destruct ok; [|discriminate]. intros l [= <-].
        split; [exact Hg|]. unfold deref. rewrite Hh.
        rewrite list_lookup_middle by reflexivity. simpl. eauto. }
  destruct (_blender_connection s) as [l|] eqn:Hg.
  - pose proof (Hwf l Hg) as Hl.
    destruct (call_send_command l "ping" None s) as [rp s1] eqn:Hping.
    destruct (call_send_command_frame _ _ _ _ _ _ Hping)
      as (Hlen & Hglob & _ & _ & _).
    rewrite Hg in Hglob.
    destruct rp as [v|e].
    + intros [= <- <-]. split; [|split].
      * intros l0 Hl0. rewrite Hglob in Hl0. injection Hl0 as <-. lia.
      * lia.
      * intros l0 [= <-]. split; [exact Hglob|].
        eapply call_send_command_ret_has_socket; eauto.
    + rewrite (disconnect_without_socket _ _
                 (failed_call_leaves_no_socket _ _ _ _ _ _ Hping)).
      intros Hc. apply Hcreate in Hc; [|reflexivity].
      simpl in Hc. rewrite Hlen in Hc. exact Hc.
  - intros Hc. apply Hcreate in Hc; [exact Hc|exact Hg].
Qed.

(** Whenever [get_blender_connection] returns a connection, it is the
    global connection and it holds a socket.  The call keeps the global
    connection inside the store, and never removes an object from it. *)
Theorem get_blender_connection_returns_connected
  (s s' : server) (r : res nat) :
  wf_server s ->
  get_blender_connection s = (r, s') ->
  wf_server s' /\
  (length (heap s) <= length (heap s'))%nat /\
  forall l, r = Ret l ->
            _blender_connection s' = Some l /\ is_Some (sock (deref s' l)).
Proof. apply get_blender_connection_wf. Qed.

(** Without a global connection, the address of the new connection comes
    from [BLENDER_HOST] and [BLENDER_PORT], with ["localhost"] and [9876] as
    defaults; a [BLENDER_PORT] that [int] rejects makes the call raise
    before any object is created or any connection attempted. *)
Theorem new_connection_address (s : server) :
  _blender_connection s = None ->
  match configured_port s with
  | Raise e => get_blender_connection s = (Raise e, s)
  | Ret p =>
      exists ok : bool,
        heap (get_blender_connection s).2
        = heap s ++ [Conn (configured_host s) p
                       (if ok then Some (next_fd (net s)) else None)] /\
        trace (net (get_blender_connection s).2)
        = trace (net s)
            ++ [EvConnect (next_fd (net s)) (configured_host s) p ok] /\
        (get_blender_connection s).1
        = (if ok then Ret (length (heap s)) else Raise could_not_connect)
  end.
Proof.
  intros Hnone.
  unfold get_blender_connection, create_connection, configured_port,
    configured_host.
  rewrite Hnone.
  destruct (match getenv "BLENDER_PORT" (environ s) with
            | Some v => py_int v
            | None => Ret DEFAULT_PORT
            end) as [p|e]; [|reflexivity].
  unfold new_connection, call_connect, set_global, update, deref. simpl.
  rewrite list_lookup_middle by reflexivity. simpl.
  destruct (connect_fresh
              (Conn (default DEFAULT_HOST (getenv "BLENDER_HOST" (environ s)))
                 p None) (net s) eq_refl) as (ok & w1 & -> & Ht).
  rewrite insert_last. exists ok.
  destruct ok; simpl; rewrite Ht; repeat split.
Qed.



End GlobalConnection.

(** * More on the tools that ask for confirmation *)

Section ConfirmedTools.
Context `{PyRuntime}.

(** What a confirmed tool returns is decided by the result of the
    command. *)
Lemma run_tool_outcome (command_type : str) (params : option json)
  (on_success : json -> res str) (failed : str) (s : server) :
  (exists l s1 items s2,
      get_blender_connection s = (Ret l, s1) /\
      call_send_command l command_type params s1 = (Ret (JObj items), s2) /\
      py_truthy (dict_get "success" items JNull) = true /\
      run_tool command_type params on_success failed s
      = (match on_success (JObj items) with
         | Ret text => text
         | Raise e => failed +:+ exn_msg e
         end, s2)) \/
  (~ confirmed_by_blender command_type params s /\
   exists why,
     (run_tool command_type params on_success failed s).1 = failed +:+ why).
Proof.
  unfold run_tool, confirmed_by_blender.
  destruct (get_blender_connection s) as [[l|e] s1] eqn:Hget.
  2:{ right. split; [|simpl; eauto].
      intros (l & s1' & items & s2 & [=] & _). }
  destruct (call_send_command l command_type params s1)
    as [[result|e] s2] eqn:Hcall.
  2:{ right. split; [|simpl; eauto].
      intros (l' & s1' & items & s2' & [= <- <-] & Hc & _). congruence. }
  destruct result as [| | | | |xs|items];
    try (right; split; [|simpl; eauto];
         intros (l' & s1' & items' & s2' & [= <- <-] & Hc & _);
         congruence).
  simpl. destruct (py_truthy (dict_get "success" items JNull)) eqn:Hok.
  - left. exists l, s1, items, s2. repeat split; auto.
    destruct (on_success (JObj items)); reflexivity.
  - right. split; [|simpl; eauto].
    intros (l' & s1' & items' & s2' & [= <- <-] & Hc & Ht).
    rewrite Hcall in Hc. injection Hc as <- <-. congruence.
Qed.

(** A confirmed tool answers with its success text exactly when Blender
    has answered its command with a result whose "success" is true; in
    every other case (no connection, a failed exchange, a result that is
    not a dict or whose "success" is false or missing) the text is the
    "Failed to ..." text of the tool followed by a reason. *)
Theorem confirmed_tools_report_blender_result
  (scene_name object_name material_name modifier_name file_path : str)
  (s : server) :
  tool_outcome (delete_scene scene_name true s).1
    (confirmed_by_blender "delete_scene"
       (Some (JObj [("scene_name", JStr scene_name)])) s)
    (eq ("Scene '" +:+ scene_name +:+ "' deleted successfully"))
    "Failed to delete scene: " /\
  tool_outcome (clear_scene true s).1
    (confirmed_by_blender "clear_scene" None s)
    (fun text => exists n,
         text = "Scene cleared successfully. " +:+ n +:+ " objects removed")
    "Failed to clear scene: " /\
  tool_outcome (delete_object object_name true s).1
    (confirmed_by_blender "delete_object"
       (Some (JObj [("object_name", JStr object_name)])) s)
    (eq ("Object '" +:+ object_name +:+ "' deleted successfully"))
    "Failed to delete object: " /\
  tool_outcome (delete_material material_name true s).1
    (confirmed_by_blender "delete_material"
       (Some (JObj [("material_name", JStr material_name)])) s)
    (eq ("Material '" +:+ material_name +:+ "' deleted successfully"))
    "Failed to delete material: " /\
  tool_outcome (remove_modifier object_name modifier_name true s).1
    (confirmed_by_blender "remove_modifier"
       (Some (JObj [("object_name", JStr object_name);
                    ("modifier_name", JStr modifier_name)])) s)
    (eq ("Modifier '" +:+ modifier_name +:+ "' removed from '"
         +:+ object_name +:+ "'"))
    "Failed to remove modifier: " /\
  tool_outcome (clear_animation object_name true s).1
    (confirmed_by_blender "clear_animation"
       (Some (JObj [("object_name", JStr object_name)])) s)
    (eq ("Animation cleared from '" +:+ object_name +:+ "'"))
    "Failed to clear animation: " /\
  (path_exists s file_path = true ->
   tool_outcome (load_scene file_path true s).1
     (confirmed_by_blender "load_scene"
        (Some (JObj [("file_path", JStr file_path)])) s)
     (eq ("Scene loaded successfully from " +:+ file_path))
     "Failed to load scene: ").
Proof.
  assert (Hconst : forall command_type params text failed,
             tool_outcome
               (run_tool command_type params (fun _ => Ret text) failed s).1
               (confirmed_by_blender command_type params s)
               (eq text) failed).
  { intros command_type params text failed.
    destruct (run_tool_outcome command_type params (fun _ => Ret text)
                failed s)
      as [(l & s1 & items & s2 & Hg & Hc & Ht & ->)|[Hno Hwhy]].
    - left. split; [|reflexivity]. exists l, s1, items, s2. auto.
    - right. auto. }
  repeat split; try apply Hconst.
  - unfold clear_scene. simpl.
    destruct (run_tool_outcome "clear_scene" None
                (fun result =>
                   match py_get result "deleted_count" (JInt 0) with
                   | Raise e => Raise e
                   | Ret n =>
                       Ret ("Scene cleared successfully. " +:+ py_str n
                            +:+ " objects removed")
                   end) "Failed to clear scene: " s)
      as [(l & s1 & items & s2 & Hg & Hc & Ht & ->)|[Hno Hwhy]].
    + left. split; [exists l, s1, items, s2; auto|]. simpl. eauto.
    + right. auto.
  - intros Hex. unfold load_scene. simpl. rewrite Hex. simpl. apply Hconst.
Qed.

Lemma get_blender_connection_unreachable (s : server) (p : Z) :
  _blender_connection s = None ->
  configured_port s = Ret p ->
  nobody_listens (net s) ->
  (get_blender_connection s).1 = Raise could_not_connect /\
  trace (net (get_blender_connection s).2)
  = trace (net s)
      ++ [EvConnect (next_fd (net s)) (configured_host s) p false].
Proof.
  intros Hnone Hp [e He].
  unfold get_blender_connection, create_connection.
  unfold configured_port in Hp. rewrite Hnone, Hp.
  unfold new_connection, call_connect, set_global, update, deref. simpl.
  rewrite list_lookup_middle by reflexivity. simpl.
  unfold connect. simpl. destruct (pop_connect (net s)) as [o w1] eqn:Hpop.
  simpl in He. subst o. simpl.
  assert (trace w1 = trace (net s)) as ->.
  { revert Hpop. unfold pop_connect.
    destruct (connect_script (net s)); intros [= _ <-]; reflexivity. }
  split; reflexivity.
Qed.

(** With no global connection and nobody listening at the configured
    address, each confirmed tool answers "Failed to ...: Could not connect
    to Blender. Make sure the Blender addon is running." and the server has
    done nothing but the one connection attempt: no command is sent. *)
Theorem confirmed_tools_without_blender
  (scene_name object_name material_name modifier_name file_path : str)
  (s : server) (p : Z) :
  _blender_connection s = None ->
  configured_port s = Ret p ->
  nobody_listens (net s) ->
  let reason := exn_msg could_not_connect in
  let s' := (get_blender_connection s).2 in
  trace (net s')
  = trace (net s)
      ++ [EvConnect (next_fd (net s)) (configured_host s) p false] /\
  delete_scene scene_name true s
  = ("Failed to delete scene: " +:+ reason, s') /\
  clear_scene true s = ("Failed to clear scene: " +:+ reason, s') /\
  delete_object object_name true s
  = ("Failed to delete object: " +:+ reason, s') /\
  delete_material material_name true s
  = ("Failed to delete material: " +:+ reason, s') /\
  remove_modifier object_name modifier_name true s
  = ("Failed to remove modifier: " +:+ reason, s') /\
  clear_animation object_name true s
  = ("Failed to clear animation: " +:+ reason, s') /\
  (path_exists s file_path = true ->
   load_scene file_path true s = ("Failed to load scene: " +:+ reason, s')).
Proof.
  intros Hnone Hp Hno reason s'.
  destruct (get_blender_connection_unreachable s p Hnone Hp Hno)
    as [Hr Ht].
  assert (Hrun : forall command_type params on_success failed,
             run_tool command_type params on_success failed s
             = (failed +:+ reason, s')).
  { intros. unfold run_tool. subst s'.
    destruct (get_blender_connection s) as [r s1]. simpl in *. subst r.
    reflexivity. }
  split; [exact Ht|].
  repeat split; try apply Hrun.
  intros Hex. unfold load_scene. simpl. rewrite Hex. simpl. apply Hrun.
Qed.

End ConfirmedTools.

(** * The MCP layer of simple_server.py *)

Section Registry.
Context `{PyRuntime}.

Lemma assoc_get_set {V} (k n : str) (v : V) (l : list (str * V)) :
  assoc_get k (assoc_set n v l)
  = if String.eqb n k then Some v else assoc_get k l.
Proof.
  induction l as [|[k' x] l IH]; simpl.
  - destruct (String.eqb n k); reflexivity.
  - destruct (String.eqb k' n) eqn:E; simpl.
    + apply String.eqb_eq in E. subst k'.
      destruct (String.eqb n k); reflexivity.
    + rewrite IH. destruct (String.eqb k' k) eqn:E'; [|reflexivity].
      apply String.eqb_eq in E'. subst k'. rewrite String.eqb_sym, E.
      reflexivity.
Qed.

Lemma assoc_get_in {V} (k : str) (l : list (str * V)) :
  In k (map fst l) <-> exists v, assoc_get k l = Some v.
Proof.
  induction l as [|[k' x] l IH]; simpl.
  - split; [tauto|intros [v [=]]].
  - destruct (String.eqb k' k) eqn:E.
    + apply String.eqb_eq in E. split; eauto.
    + apply String.eqb_neq in E. rewrite <- IH. tauto.
Qed.

Lemma keys_assoc_set {V} (n : str) (v : V) (l : list (str * V)) :
  map fst (assoc_set n v l)
  = match assoc_get n l with
    | Some _ => map fst l
    | None => map fst l ++ [n]
    end.
Proof.
  induction l as [|[k' x] l IH]; simpl; [reflexivity|].
  destruct (String.eqb k' n) eqn:E; simpl; [reflexivity|].
  rewrite IH. destruct (assoc_get n l); reflexivity.
Qed.

Lemma NoDup_assoc_set {V} (n : str) (v : V) (l : list (str * V)) :
  NoDup (map fst l) -> NoDup (map fst (assoc_set n v l)).
Proof.
  intros Hnd. rewrite keys_assoc_set.
  destruct (assoc_get n l) eqn:E; [exact Hnd|].
  apply NoDup_app. split; [exact Hnd|]. split; [|apply NoDup_singleton].
  intros x Hx Hn. apply list_elem_of_singleton in Hn. subst x.
  apply list_elem_of_In, assoc_get_in in Hx as [v' Hv]. congruence.
Qed.

Lemma dict_set_assoc (k : str) (v : json) (l : list (str * json)) :
  dict_set k v l = assoc_set k v l.
Proof.
  induction l as [|[k' x] l IH]; simpl; [reflexivity|].
  now rewrite IH.
Qed.

Lemma extract_loop_inv (sig : list parameter) :
  forall (params : list (str * json)) (seen : list parameter),
    NoDup (map fst params) ->
    (forall k v, assoc_get k params = Some v ->
                 k <> "self" /\ k <> "ctx" /\
                 exists p, In p seen /\ param_name p = k /\ v = param_info p) ->
    NoDup (map fst (extract_loop sig params)) /\
    (forall k v, assoc_get k (extract_loop sig params) = Some v ->
                 k <> "self" /\ k <> "ctx" /\
                 exists p, In p (seen ++ sig) /\ param_name p = k
                           /\ v = param_info p) /\
    (forall k, In k (map fst params) ->
               In k (map fst (extract_loop sig params))) /\
    (forall p, In p sig ->
               param_name p <> "self" -> param_name p <> "ctx" ->
               In (param_name p) (map fst (extract_loop sig params))).
Proof.
  induction sig as [|p sig IH]; intros params seen Hnd Hinv; simpl.
  - rewrite app_nil_r. split_and!; auto. intros p [].
  - destruct (String.eqb (param_name p) "self"
              || String.eqb (param_name p) "ctx") eqn:Hskip.
    + destruct (IH params (seen ++ [p])) as (H1 & H2 & H3 & H4).
      * exact Hnd.
      * intros k v Hk. destruct (Hinv k v Hk) as (Hs & Hc & q & Hq & Hn & Hv).
        repeat split; auto. exists q. rewrite in_app_iff. auto.
      * rewrite <- app_assoc in H2. simpl in H2.
        split_and!; auto.
        intros q [<-|Hq] Hs Hc; [|auto].
        apply orb_true_iff in Hskip as [E|E];
          apply String.eqb_eq in E; contradiction.
    + apply orb_false_iff in Hskip as [Es Ec].
      apply String.eqb_neq in Es, Ec.
      destruct (IH (dict_set (param_name p) (param_info p) params)
                  (seen ++ [p])) as (H1 & H2 & H3 & H4).
      * rewrite dict_set_assoc. now apply NoDup_assoc_set.
      * intros k v. rewrite dict_set_assoc, assoc_get_set.
        destruct (String.eqb (param_name p) k) eqn:E.
        -- apply String.eqb_eq in E. subst k. intros [= <-].
           repeat split; auto. exists p. rewrite in_app_iff. simpl. auto.
        -- intros Hk.
           destruct (Hinv k v Hk) as (Hs & Hc & q & Hq & Hn & Hv).
           repeat split; auto. exists q. rewrite in_app_iff. auto.
      * rewrite <- app_assoc in H2. simpl in H2.
        assert (Hkeep : forall k,
                   In k (map fst params) ->
                   In k (map fst (dict_set (param_name p) (param_info p)
                                    params))).
        { intros k Hk. rewrite dict_set_assoc, keys_assoc_set.
          destruct (assoc_get _ params); [exact Hk|].
          rewrite in_app_iff. auto. }
        split_and!; auto.
        intros q [<-|Hq] Hs Hc; [|auto].
        apply H3. rewrite dict_set_assoc. apply assoc_get_in.
        rewrite assoc_get_set, String.eqb_refl. eauto.
Qed.

Lemma schema_type_known (a : annotation) : In (schema_type a) schema_types.
Proof. destruct a; simpl; tauto. Qed.

(** [_extract_parameters] gives one entry to each parameter of the
    signature but [self] and [ctx], under the name of the parameter; the
    entry is made from a parameter of that name, its type is one of
    "string", "integer", "number", "boolean" and "array", and it has a
    "default" exactly when the parameter has one. *)
Theorem extract_parameters_schema (func : pyfunc) :
  exists params,
    _extract_parameters func = JObj params /\
    NoDup (map fst params) /\
    (forall k, In k (map fst params) <->
               k <> "self" /\ k <> "ctx" /\
               exists p, In p (fn_signature func) /\ param_name p = k) /\
    (forall k v,
        assoc_get k params = Some v ->
        exists p,
          In p (fn_signature func) /\ param_name p = k /\
          v = JObj (("type", JStr (schema_type (param_annotation p)))
                    :: match param_default p with
                       | Some d => [("default", d)]
                       | None => []
                       end) /\
          In (schema_type (param_annotation p)) schema_types).
Proof.
  exists (extract_loop (fn_signature func) []).
  destruct (extract_loop_inv (fn_signature func) [] [])
    as (H1 & H2 & _ & H4).
  { constructor. }
  { intros k v [=]. }
  simpl in H2. split; [reflexivity|]. split; [exact H1|]. split.
  - intros k. split.
    + intros Hk. apply assoc_get_in in Hk as [v Hv].
      destruct (H2 k v Hv) as (Hs & Hc & p & Hp & Hn & _). eauto.
    + intros (Hs & Hc & p & Hp & <-). now apply H4.
  - intros k v Hv. destruct (H2 k v Hv) as (_ & _ & p & Hp & Hn & ->).
    exists p. repeat split; auto. apply schema_type_known.
Qed.

(** Registering a function makes [call_tool] run it under the name of the
    registration (the given name, or the name of the function when none or
    an empty one is given), replacing a tool registered under that name
    before; the tools of other names are called as before, and the order
    of the registry is the order of first registration. *)
Theorem registered_tool_is_called
  (mcp : SimpleMCP) (name : option str) (description : str)
  (parameters : option json) (func : pyfunc) (args : json) (s : server) :
  let n := str_or (default "" name) (fn_name func) in
  let mcp' := register_tool mcp name description parameters func in
  call_tool mcp' n args s = tool_text (call_handler func args s) /\
  (forall other, other <> n ->
                 call_tool mcp' other args s = call_tool mcp other args s) /\
  map fst (tools mcp')
  = match assoc_get n (tools mcp) with
    | Some _ => map fst (tools mcp)
    | None => map fst (tools mcp) ++ [n]
    end /\
  resources mcp' = resources mcp.
Proof.
  intros n mcp'. subst mcp'. unfold register_tool, call_tool. simpl.
  fold n. split; [|split; [|split]].
  - rewrite assoc_get_set, String.eqb_refl. simpl.
    destruct (call_handler func args s) as [[r|e] s']; reflexivity.
  - intros other Hne. rewrite assoc_get_set.
    apply not_eq_sym, String.eqb_neq in Hne. rewrite Hne. reflexivity.
  - apply keys_assoc_set.
  - reflexivity.
Qed.

(** [handle_mcp_request] runs a handler only for a [tools/call] request
    that names a registered tool: it calls the handler of that tool with
    the arguments of the request and answers with the text that
    [call_tool] makes of the outcome.  Every other request (not a dict,
    another method, a name that is not a registered tool, parameters that
    are not a dict) leaves the state of the server as it is and is
    answered with an error, the list of the tools or the list of the
    resources. *)
Theorem only_tools_call_runs_a_handler
  (mcp : SimpleMCP) (request : json) (s : server) :
  (forall items pitems n tool,
      request = JObj items ->
      dict_get "method" items JNull = JStr "tools/call" ->
      dict_get "params" items (JObj []) = JObj pitems ->
      dict_get "name" pitems JNull = JStr n ->
      assoc_get n (tools mcp) = Some tool ->
      let run :=
        tool_text (call_handler (tool_handler tool)
                     (dict_get "arguments" pitems (JObj [])) s) in
      call_tool mcp n (dict_get "arguments" pitems (JObj [])) s = run /\
      handle_mcp_request mcp request s = (content_of run.1, run.2)) /\
  ((forall items pitems n tool,
       ~ (request = JObj items /\
          dict_get "method" items JNull = JStr "tools/call" /\
          dict_get "params" items (JObj []) = JObj pitems /\
          dict_get "name" pitems JNull = JStr n /\
          assoc_get n (tools mcp) = Some tool)) ->
   (handle_mcp_request mcp request s).2 = s /\
   ((exists text, (handle_mcp_request mcp request s).1 = error_dict text) \/
    (handle_mcp_request mcp request s).1
    = JObj [("tools", JArr (map tool_entry (tools mcp)))] \/
    (handle_mcp_request mcp request s).1
    = JObj [("resources", JArr (map resource_entry (resources mcp)))])).
Proof.
  split.
  - intros items pitems n tool -> Hm Hp Hn Ht run.
    assert (Hcall : call_tool mcp n (dict_get "arguments" pitems (JObj [])) s
                    = run).
    { unfold call_tool, run, tool_text. rewrite Ht. reflexivity. }
    split; [exact Hcall|].
    unfold handle_mcp_request, mcp_request. simpl. rewrite Hm, Hp. simpl.
    rewrite Hn. simpl. rewrite Ht, Hcall.
    destruct run as [text s']. reflexivity.
  - intros Hnot. unfold handle_mcp_request, mcp_request.
    destruct request as [| | | | | |items]; simpl; eauto.
    destruct (eq_str (dict_get "method" items JNull) "tools/list");
      [auto|].
    destruct (eq_str (dict_get "method" items JNull) "tools/call") eqn:Hm.
    2:{ destruct (eq_str _ "resources/list"); eauto. }
    apply eq_str_true in Hm.
    destruct (dict_get "params" items (JObj [])) as [| | | | | |pitems] eqn:Hp;
      simpl; eauto.
    destruct (dict_get "name" pitems JNull) as [| | | |n| |] eqn:Hn;
      simpl; eauto.
    destruct (assoc_get n (tools mcp)) as [tool|] eqn:Ht; simpl; eauto.
    destruct (Hnot items pitems n tool). auto.
Qed.

(** The requests that are answered with an error: an unknown method, and
    a [tools/call] whose name is not a registered tool. *)
Theorem unknown_requests_are_errors
  (mcp : SimpleMCP) (items pitems : list (str * json)) (s : server) :
  let method := dict_get "method" items JNull in
  let name := dict_get "name" pitems JNull in
  ((forall m, In m ["tools/list"; "tools/call"; "resources/list"] ->
              method <> JStr m) ->
   handle_mcp_request mcp (JObj items) s
   = (error_dict ("Unknown method: " +:+ py_str method), s)) /\
  (method = JStr "tools/call" ->
   dict_get "params" items (JObj []) = JObj pitems ->
   find_tool name mcp = Ret None ->
   handle_mcp_request mcp (JObj items) s
   = (error_dict ("Tool '" +:+ py_str name +:+ "' not found"), s)).
Proof.
  intros method name. unfold handle_mcp_request, mcp_request. simpl.
  fold method. split.
  - intros Hunknown.
    assert (Hno : forall m, In m ["tools/list"; "tools/call";
                                  "resources/list"] ->
                            eq_str method m = false).
    { intros m Hin. destruct (eq_str method m) eqn:E; [|reflexivity].
      apply eq_str_true in E. now apply Hunknown in E. }
    rewrite !Hno by (simpl; tauto). reflexivity.
  - intros -> Hp Hfind. simpl. rewrite Hp. simpl. fold name.
    rewrite Hfind. reflexivity.
Qed.

Lemma register_all_inv (regs : list registration) :
  forall mcp,
    NoDup (map fst (tools mcp)) ->
    Forall (fun e => tool_name (snd e) = fst e) (tools mcp) ->
    NoDup (map fst (tools (register_all mcp regs))) /\
    Forall (fun e => tool_name (snd e) = fst e)
           (tools (register_all mcp regs)) /\
    forall n, In n (map fst (tools (register_all mcp regs))) <->
              In n (map fst (tools mcp)) \/ In n (map effective_name regs).
Proof.
  induction regs as [|r regs IH]; intros mcp Hnd Hall; simpl.
  - split_and!; auto. tauto.
  - destruct (IH (register_tool mcp (reg_name r) (reg_description r)
                    (reg_parameters r) (reg_func r))) as (H1 & H2 & H3).
    + unfold register_tool. simpl. now apply NoDup_assoc_set.
    + unfold register_tool. simpl.
      set (n := str_or _ _). set (t := Tool n _ _ _).
      clear - Hall. induction (tools mcp) as [|[k x] l IHl]; simpl.
      * repeat constructor.
      * apply Forall_cons in Hall as [Hk Hl].
        destruct (String.eqb k n) eqn:E.
        -- apply String.eqb_eq in E. subst k. constructor; auto.
        -- constructor; auto.
    + split_and!; auto. intros n. rewrite H3.
      unfold register_tool at 1. simpl. rewrite keys_assoc_set.
      fold (effective_name r).
      destruct (assoc_get (effective_name r) (tools mcp)) eqn:E.
      * split; [tauto|]. intros [Hn|[<-|Hn]]; auto.
        left. apply assoc_get_in. eauto.
      * rewrite in_app_iff. simpl. tauto.
Qed.

Lemma filter_filter_and {A} (f g : A -> bool) (l : list A) :
  List.filter f (List.filter g l) = List.filter (fun x => g x && f x) l.
Proof.
  induction l as [|x l IH]; simpl; [reflexivity|].
  destruct (g x); simpl; [destruct (f x)|]; now rewrite IH.
Qed.

Lemma filter_all {A} (f : A -> bool) (l : list A) :
  (forall x, f x = true) -> List.filter f l = l.
Proof.
  intros Hf. induction l as [|x l IH]; simpl; [reflexivity|].
  now rewrite Hf, IH.
Qed.

Lemma assoc_get_keys {V} (n : str) (l : list (str * V)) :
  existsb (String.eqb n) (map fst l)
  = match assoc_get n l with Some _ => true | None => false end.
Proof.
  induction l as [|[k v] l IH]; simpl; [reflexivity|].
  rewrite String.eqb_sym. destruct (String.eqb k n); simpl; auto.
Qed.

(** The keys of the registry after a run of decorations: the keys it had,
    then the new names in the order of their first decoration. *)
Lemma keys_register_all (regs : list registration) :
  forall mcp,
    map fst (tools (register_all mcp regs))
    = map fst (tools mcp)
        ++ List.filter
             (fun m => negb (existsb (String.eqb m) (map fst (tools mcp))))
             (first_occurrences (map effective_name regs)).
Proof.
  induction regs as [|r regs IH]; intros mcp; simpl.
  - now rewrite app_nil_r.
  - rewrite IH. unfold register_tool at 1 2. simpl.
    fold (effective_name r). rewrite keys_assoc_set.
    rewrite (assoc_get_keys (effective_name r) (tools mcp)).
    destruct (assoc_get (effective_name r) (tools mcp)) eqn:E; simpl.
    + f_equal. rewrite filter_filter_and. apply List.filter_ext.
      intros x. destruct (String.eqb x (effective_name r)) eqn:Em;
        simpl; [|reflexivity].
      apply String.eqb_eq in Em. subst x.
      now rewrite assoc_get_keys, E.
    + rewrite <- app_assoc. simpl. do 2 f_equal.
      rewrite filter_filter_and. apply List.filter_ext.
      intros x. rewrite existsb_app. simpl.
      rewrite orb_false_r, negb_orb. apply andb_comm.
Qed.

Lemma find_app_or {A} (f : A -> bool) (l1 l2 : list A) :
  List.find f (l1 ++ l2)
  = match List.find f l1 with
    | Some x => Some x
    | None => List.find f l2
    end.
Proof.
  induction l1 as [|x l1 IH]; simpl; [reflexivity|].
  destruct (f x); [reflexivity|exact IH].
Qed.

(** The tool stored under a name is the one of the last decoration made
    under that name. *)
Lemma register_all_last (regs : list registration) :
  forall mcp n,
    option_map tool_handler (assoc_get n (tools (register_all mcp regs)))
    = match last_registered n regs with
      | Some r => Some (reg_func r)
      | None => option_map tool_handler (assoc_get n (tools mcp))
      end.
Proof.
  unfold last_registered.
  induction regs as [|r regs IH]; intros mcp n; simpl; [reflexivity|].
  rewrite IH. rewrite find_app_or.
  destruct (List.find _ (rev regs)) as [r'|]; [reflexivity|]. simpl.
  unfold register_tool. simpl. rewrite assoc_get_set.
  destruct (String.eqb _ n); reflexivity.
Qed.

(** The answer to [tools/list] names each registered tool once, in the
    order in which the names were first used by a decoration of the
    module; each entry carries the name it is registered under, and the
    function kept under a name is that of the last decoration made under
    it. *)
Theorem tools_list_names_each_tool_once
  (name : str) (regs : list registration) (s : server) :
  let mcp := register_all (new_mcp name) regs in
  handle_mcp_request mcp (JObj [("method", JStr "tools/list")]) s
  = (JObj [("tools", JArr (map tool_entry (tools mcp)))], s) /\
  map (fun e => py_get (tool_entry e) "name" JNull) (tools mcp)
  = map (fun n => Ret (JStr n))
        (first_occurrences (map effective_name regs)) /\
  map fst (tools mcp) = first_occurrences (map effective_name regs) /\
  NoDup (map fst (tools mcp)) /\
  Forall (fun e => tool_name (snd e) = fst e) (tools mcp) /\
  (forall n, In n (map fst (tools mcp)) <-> In n (map effective_name regs)) /\
  (forall n, option_map tool_handler (assoc_get n (tools mcp))
             = option_map reg_func (last_registered n regs)).
Proof.
  intros mcp.
  assert (Hkeys : map fst (tools mcp)
                  = first_occurrences (map effective_name regs)).
  { subst mcp. rewrite keys_register_all. simpl.
    apply filter_all. reflexivity. }
  split; [reflexivity|]. split.
  { rewrite <- Hkeys, map_map. reflexivity. }
  split; [exact Hkeys|].
  destruct (register_all_inv regs (new_mcp name)) as (H1 & H2 & H3).
  { constructor. }
  { constructor. }
  subst mcp. split_and!; auto.
  - intros n. rewrite H3. simpl. tauto.
  - intros n. rewrite register_all_last. simpl.
    destruct (last_registered n regs); reflexivity.
Qed.

Lemma append_assoc (a b c : string) : (a +:+ b) +:+ c = a +:+ b +:+ c.
Proof.
  induction a as [|x a IH]; [reflexivity|].
  change (String x ((a +:+ b) +:+ c) = String x (a +:+ b +:+ c)).
  f_equal. exact IH.
Qed.

Lemma concat_cons2 (sep x y : string) (l : list string) :
  String.concat sep (x :: y :: l)
  = x +:+ sep +:+ String.concat sep (y :: l).
Proof. reflexivity. Qed.

Lemma split_on_nonempty (sep : ascii) (s : string) : split_on sep s <> [].
Proof.
  destruct s as [|c r]; simpl; [discriminate|].
  destruct (Ascii.eqb c sep); [discriminate|].
  destruct (split_on sep r); discriminate.
Qed.

(** Joining the pieces of a split with the separator gives the string back,
    and no piece holds the separator. *)
Lemma split_on_join (sep : ascii) (s : string) :
  String.concat (String sep "") (split_on sep s) = s /\
  Forall (fun piece => contains_char sep piece = false) (split_on sep s).
Proof.
  induction s as [|c r [IHj IHp]].
  - split; [reflexivity|]. repeat constructor.
  - pose proof (split_on_nonempty sep r) as Hne.
    cbn [split_on]. destruct (Ascii.eqb c sep) eqn:E.
    + apply Ascii.eqb_eq in E. subst c.
      destruct (split_on sep r) as [|h t]; [contradiction|].
      split; [|constructor; auto].
      rewrite concat_cons2, IHj. reflexivity.
    + destruct (split_on sep r) as [|h t]; [contradiction|].
      apply Forall_cons in IHp as [Hh Ht]. split.
      * destruct t as [|y t].
        -- cbn in IHj |- *. now rewrite IHj.
        -- rewrite concat_cons2 in IHj |- *. rewrite <- IHj.
           reflexivity.
      * constructor; [|exact Ht]. cbn [contains_char]. now rewrite E.
Qed.

Lemma concat_last (sep : string) (l : list string) :
  l <> [] ->
  String.concat sep l = List.last l "" \/
  exists before, String.concat sep l = before +:+ sep +:+ List.last l "".
Proof.
  induction l as [|x l IH]; [contradiction|]. intros _.
  destruct l as [|y l]; [left; reflexivity|].
  right. destruct IH as [IH|[before IH]]; [discriminate| |].
  - exists x. rewrite concat_cons2, IH. reflexivity.
  - exists (x +:+ sep +:+ before).
    rewrite concat_cons2, IH, !append_assoc. reflexivity.
Qed.

Lemma Forall_last {A} (P : A -> Prop) (l : list A) (d : A) :
  l <> [] -> Forall P l -> P (List.last l d).
Proof.
  induction l as [|x l IH]; [contradiction|]. intros _ Hall.
  apply Forall_cons in Hall as [Hx Hl].
  destruct l; [exact Hx|]. apply IH; [discriminate|exact Hl].
Qed.

(** The name of a resource, [uri.split("/")[-1]], is what follows the last
    slash of the URI: it has no slash, and the URI is the name itself or
    ends with a slash and the name. *)
Theorem last_segment_follows_last_slash (uri : str) :
  contains_char "/" (last_segment uri) = false /\
  (uri = last_segment uri \/
   exists before, uri = before +:+ "/" +:+ last_segment uri).
Proof.
  unfold last_segment.
  destruct (split_on_join "/" uri) as [Hjoin Hpieces].
  pose proof (split_on_nonempty "/" uri) as Hne. split.
  - apply (Forall_last _ _ _ Hne Hpieces).
  - destruct (concat_last "/" _ Hne) as [Hl|[before Hl]];
      rewrite Hjoin in Hl; eauto.
Qed.

End Registry.

(** * More on the addon *)

Section Addon.
Context `{PyRuntime} `{Blender}.

(** What [handle_client] does on the socket of a client is a run of
    replies, one for each turn it went through, followed by the closing of
    the socket unless every turn of the script was answered (the handler
    then waits for the next message): nothing is sent after the socket is
    closed, and the socket is closed at most once. *)
Theorem handle_client_replies_then_closes (script : list turn) (b : bpy) :
  exists replies,
    ((handle_client script b).1 = map Sent replies /\
     length replies = length script) \/
    ((handle_client script b).1 = map Sent replies ++ [Closed] /\
     (length replies < length script)%nat).
Proof.
  revert b. induction script as [|t script IH]; intros b; simpl.
  - exists []. left. auto.
  - destruct (negb (running t)); [exists []; right; simpl; split; [auto|lia]|].
    destruct (rx t) as [data|e];
      [|exists []; right; simpl; split; [auto|lia]].
    destruct (is_empty data); [exists []; right; simpl; split; [auto|lia]|].
    destruct (handle_message data (tx t) b) as [[response|e|x] b'];
      [|exists []; right; simpl; split; [auto|lia]..].
    destruct (IH b') as [replies [[Hev Hlen]|[Hev Hlen]]];
      destruct (handle_client script b') as [evs b'']; simpl in *;
      exists (response :: replies); subst evs; simpl;
      [left|right]; split; auto; lia.
Qed.

(** The handler works through the messages one after the other: when it
    has answered every turn of a script, what it does on a longer script
    is that, followed by what it does on the rest from the state of
    Blender it has reached; once it has closed the socket, what follows in
    the script changes nothing.  A turn at which [server_running] is false,
    [recv] returns no byte or [recv] raises makes it close the socket. *)
Theorem handle_client_is_sequential (script more : list turn) (b : bpy) :
  (forall replies,
      (handle_client script b).1 = map Sent replies ->
      handle_client (script ++ more) b
      = (map Sent replies ++ (handle_client more (handle_client script b).2).1,
         (handle_client more (handle_client script b).2).2)) /\
  (In Closed (handle_client script b).1 ->
   handle_client (script ++ more) b = handle_client script b) /\
  (forall t, client_turn_stops t ->
             handle_client (t :: more) b = ([Closed], b)).
Proof.
  split; [|split].
  - revert b. induction script as [|t script IH]; intros b replies; simpl.
    + intros Hev. destruct replies; [|discriminate]. simpl.
      destruct (handle_client more b). reflexivity.
    + destruct (negb (running t)); simpl;
        [intros Hev; destruct replies; discriminate|].
      destruct (rx t) as [data|e]; simpl;
        [|intros Hev; destruct replies; discriminate].
      destruct (is_empty data); simpl;
        [intros Hev; destruct replies; discriminate|].
      destruct (handle_message data (tx t) b) as [[response|e|x] b']; simpl;
        [|intros Hev; destruct replies; discriminate..].
      specialize (IH b').
      destruct (handle_client script b') as [evs b''] eqn:Hrun. simpl in *.
      intros Hev. destruct replies as [|r replies]; [discriminate|].
      injection Hev as <- Hev. rewrite (IH replies Hev). reflexivity.
  - revert b. induction script as [|t script IH]; intros b; simpl.
    + intros [].
    + destruct (negb (running t)); [reflexivity|].
      destruct (rx t) as [data|e]; [|reflexivity].
      destruct (is_empty data); [reflexivity|].
      destruct (handle_message data (tx t) b) as [[response|e|x] b'];
        [|reflexivity..].
      specialize (IH b').
      destruct (handle_client script b') as [evs b''] eqn:Hrun. simpl in *.
      intros [[=]|Hin]. rewrite (IH Hin). reflexivity.
  - intros t [Hrun|[Hrx|[e Hrx]]]; simpl.
    + rewrite Hrun. reflexivity.
    + rewrite Hrx. destruct (negb (running t)); reflexivity.
    + rewrite Hrx. destruct (negb (running t)); reflexivity.
Qed.

(** A command that is not a dict, or whose action reads the parameters
    while ["params"] is present and not a dict, is answered with a failure
    and Blender is not called.  [render] does not read the parameters. *)
Theorem malformed_commands_fail_without_a_call (b : bpy) :
  (forall command,
      (forall items, command <> JObj items) ->
      execute_command command b
      = (Returned (failure ("'" +:+ type_name command
                            +:+ "' object has no attribute 'get'")), b)) /\
  (forall items name,
      dict_get "action" items JNull = JStr name ->
      reads_params name ->
      (forall kwargs, dict_get "params" items (JObj []) <> JObj kwargs) ->
      exists text,
        execute_command (JObj items) b = (Returned (failure text), b)) /\
  (forall items,
      dict_get "action" items JNull = JStr "render" ->
      execute_command (JObj items) b
      = match bpy_do render_render b with
        | (Ret _, b') => (Returned (success_message "Render complete"), b')
        | (Raise e, b') => (Returned (failure (exn_msg e)), b')
        end).
Proof.
  split; [|split].
  - intros command Hnot. unfold execute_command, dispatch.
    destruct command; try reflexivity. now destruct (Hnot items).
  - intros items name Ha Hreads Hparams.
    unfold execute_command, dispatch. simpl. rewrite Ha. simpl.
    destruct (dict_get "params" items (JObj [])) eqn:Hp;
      try (now destruct (Hparams items0));
      unfold reads_params in Hreads; simpl in Hreads;
      repeat (destruct Hreads as [<-|Hreads]; [simpl; eauto|]);
      destruct Hreads.
  - intros items Ha. unfold execute_command, dispatch. simpl.
    rewrite Ha. simpl.
    destruct (bpy_do render_render b) as [[u|e] b']; reflexivity.
Qed.

(** [delete_object] and [move_object] with no name, or with a name that is
    null, empty or otherwise false, answer "Object not found" whatever the
    scene holds, and Blender is not called. *)
Theorem nameless_object_is_not_found
  (items kwargs : list (str * json)) (b : bpy) :
  dict_get "action" items JNull = JStr "delete_object" \/
  dict_get "action" items JNull = JStr "move_object" ->
  dict_get "params" items (JObj []) = JObj kwargs ->
  py_truthy (dict_get "name" kwargs JNull) = false ->
  execute_command (JObj items) b
  = (Returned (failure "Object not found"), b).
Proof.
  intros Ha Hp Hname. unfold execute_command, dispatch. simpl.
  rewrite Hp. unfold named_object_exists.
  destruct Ha as [-> | ->]; simpl; rewrite Hname; reflexivity.
Qed.

End Addon.

(** * The listener of the addon *)

Section Listener.

Lemma accept_loop_never_closes (script : list listen_turn) :
  ~ In ListenerClosed (accept_loop script).1 /\
  (forall host port, ~ In (Listening host port) (accept_loop script).1) /\
  sublist (started_handlers (accept_loop script).1)
          (accepted_clients script).
Proof.
  induction script as [|t script (IH1 & IH2 & IH3)]; simpl.
  - split_and!; auto; constructor.
  - destruct (negb (still_running t)); simpl.
    { split_and!; auto; apply sublist_nil_l. }
    destruct (accepted t) as [client [e|]|e].
    + destruct (isinstance e socket_timeout); simpl.
      * split_and!; auto; now apply sublist_cons.
      * split_and!; auto; apply sublist_nil_l.
    + destruct (accept_loop script) as [evs ended]. simpl in *.
      split_and!.
      * intros [[=]|Hin]. auto.
      * intros host port [[=]|Hin]. eapply IH2; eauto.
      * now apply sublist_skip.
    + destruct (isinstance e socket_timeout); simpl.
      * split_and!; auto.
      * split_and!; auto; apply sublist_nil_l.
Qed.

(** The accept loop starts a handler for each client served, and is left
    exactly when some turn ends it. *)
Lemma accept_loop_spec (script : list listen_turn) :
  accept_loop script
  = (map HandlerStarted (clients_served script), accept_loop_is_left script).
Proof.
  unfold accept_loop_is_left.
  induction script as [|t script IH]; simpl; [reflexivity|].
  unfold listen_turn_goes_on.
  destruct (still_running t); simpl; [|reflexivity].
  destruct (accepted t) as [client [e|]|e]; simpl.
  - destruct (isinstance e socket_timeout); simpl; [exact IH|reflexivity].
  - rewrite IH. reflexivity.
  - destruct (isinstance e socket_timeout); simpl; [exact IH|reflexivity].
Qed.

(** Once its socket exists, [start_mcp_server] raises nothing.  When the
    set-up fails it closes the socket and clears [server_running]; when
    the accept loop is left (the flag was cleared, or [accept] or the
    start of a thread raised something else than a time-out) it has
    started a handler for each client served until then, in the order of
    acceptance, and then closes the socket, once and as the last thing,
    and clears [server_running]; as long as no turn ends the loop the
    socket is not closed and [server_running] stays true.  Handlers are
    started for accepted clients only.  When the socket cannot be created
    the exception leaves the function, nothing is closed and
    [server_running] stays true. *)
Theorem listener_cleans_up (host : str) (port : Z) (setup : option exn)
  (script : list listen_turn) :
  let l := start_mcp_server host port None setup script in
  let handlers := map HandlerStarted (clients_served script) in
  listener_raised l = None /\
  (forall e, setup = Some e ->
             listener_events l = [ListenerClosed] /\
             server_running l = false) /\
  (setup = None -> accept_loop_is_left script = true ->
   listener_events l = Listening host port :: handlers ++ [ListenerClosed] /\
   server_running l = false) /\
  (setup = None -> accept_loop_is_left script = false ->
   listener_events l = Listening host port :: handlers /\
   server_running l = true) /\
  ~ In ListenerClosed (Listening host port :: handlers) /\
  sublist (started_handlers (listener_events l)) (accepted_clients script) /\
  forall e,
    start_mcp_server host port (Some e) setup script
    = Listener [] true (Some e).
Proof.
  intros l handlers.
  destruct (accept_loop_never_closes script) as (Hc & _ & Hs).
  subst l handlers. unfold start_mcp_server.
  rewrite accept_loop_spec in *. simpl in Hc, Hs.
  destruct setup as [e|]; simpl.
  - split_and!; auto; try discriminate.
    + intros [[=]|Hin]. auto.
    + apply sublist_nil_l.
  - destruct (accept_loop_is_left script); simpl; split_and!; auto;
      try discriminate; try (intros e [=]).
    + intros [[=]|Hin]. auto.
    + assert (Happ : forall l1,
                 started_handlers (l1 ++ [ListenerClosed])
                 = started_handlers l1).
      { induction l1 as [|x l1 IHl]; simpl; [reflexivity|].
        destruct x; simpl; now rewrite IHl. }
      rewrite Happ. exact Hs.
    + intros [[=]|Hin]. auto.
Qed.

End Listener.

(** * More of the definitions at work *)

Section MoreConcrete.
#[local] Existing Instance ref_runtime.
#[local] Existing Instance scene_host.

Lemma send_command_success_keeps_socket_witness :
  (send_command open_connection "ping" None (receiving [result_response])).1
  = (Ret (JObj [("success", JBool true)]), open_connection) /\
  exists fd,
    sock (send_command open_connection "ping" None
            (receiving [result_response])).1.2 = Some fd /\ fd = 3%nat.
Proof.
  split; [reflexivity|].
  assert (Hrun : send_command open_connection "ping" None
                   (receiving [result_response])
                 = (Ret (JObj [("success", JBool true)]), open_connection,
                    (send_command open_connection "ping" None
                       (receiving [result_response])).2))
    by (vm_compute; reflexivity).
  destruct (send_command_success_keeps_socket _ _ _ _ _ _ _ Hrun)
    as (fd & Hfd & _ & _ & Hsame & _).
  exists fd. split; [exact Hfd|exact Hsame].
Defined.

Lemma send_command_returns_result_member_witness :
  (send_command open_connection "ping" None (receiving [result_response])).1
  = (Ret (JObj [("success", JBool true)]), open_connection).
Proof.
  apply (send_command_returns_result_member open_connection 3 "ping" None
           (receiving [result_response]) result_response []
           [("result", JObj [("success", JBool true)])]);
    reflexivity.
Defined.

Lemma send_command_error_status_raises_witness :
  (send_command open_connection "ping" None (receiving [error_response])).1
  = (Raise (Exn Exception_
              "Communication error with Blender: no such scene"),
     closed_connection).
Proof.
  apply (send_command_error_status_raises open_connection 3 "ping" None
           (receiving [error_response]) error_response []
           [("status", JStr "error"); ("message", JStr "no such scene")]);
    reflexivity.
Defined.

Lemma send_command_raises_wrapped_witness :
  (send_command open_connection "ping" None (receiving [])).1.1
  = Raise (Exn Exception_ "Timeout waiting for Blender response") /\
  (Exn Exception_ "Timeout waiting for Blender response"
   = Exn ConnectionError_ "Not connected to Blender" \/
   exn_cls (Exn Exception_ "Timeout waiting for Blender response")
   = Exception_).
Proof.
  split; [reflexivity|].
  assert (Hrun : send_command open_connection "ping" None (receiving [])
                 = (Raise (Exn Exception_
                             "Timeout waiting for Blender response"),
                    (send_command open_connection "ping" None
                       (receiving [])).1.2,
                    (send_command open_connection "ping" None
                       (receiving [])).2))
    by (vm_compute; reflexivity).
  destruct (send_command_raises_wrapped _ _ _ _ _ _ _ Hrun) as [He|[Hc _]];
    [left; exact He|right; exact Hc].
Defined.

Lemma connected_server_wf (w : world) : wf_server (connected_server w).
Proof. intros l [= <-]. simpl. lia. Defined.

Lemma fresh_server_wf (w : world) : wf_server (fresh_server w).
Proof. intros l [=]. Defined.

Lemma get_blender_connection_returns_connected_witness :
  (get_blender_connection (fresh_server listening)).1 = Ret 0%nat /\
  _blender_connection (get_blender_connection (fresh_server listening)).2
  = Some 0%nat /\
  is_Some (sock (deref (get_blender_connection (fresh_server listening)).2
                   0)).
Proof.
  split; [reflexivity|].
  assert (Hrun : get_blender_connection (fresh_server listening)
                 = (Ret 0%nat,
                    (get_blender_connection (fresh_server listening)).2))
    by (vm_compute; reflexivity).
  destruct (get_blender_connection_returns_connected _ _ _
              (fresh_server_wf listening) Hrun) as (_ & _ & Hret).
  apply (Hret 0%nat eq_refl).
Defined.

Lemma new_connection_address_witness :
  exists ok : bool,
    trace (net (get_blender_connection (fresh_server listening)).2)
    = [EvConnect 4 "localhost" 9876 ok].
Proof.
  pose proof (new_connection_address (fresh_server listening) eq_refl)
    as Haddr.
  change (configured_port (fresh_server listening)) with (Ret 9876 : res Z)
    in Haddr.
  destruct Haddr as (ok & _ & Ht & _). exists ok. exact Ht.
Defined.


Lemma confirmed_tools_without_blender_witness :
  delete_scene "Scene" true (fresh_server (receiving []))
  = ("Failed to delete scene: Could not connect to Blender. Make sure the Blender addon is running.",
     (get_blender_connection (fresh_server (receiving []))).2) /\
  trace (net (get_blender_connection (fresh_server (receiving []))).2)
  = [EvConnect 4 "localhost" 9876 false].
Proof.
  destruct (confirmed_tools_without_blender "Scene" "" "" "" ""
              (fresh_server (receiving [])) 9876)
    as (Ht & Hdel & _).
  - reflexivity.
  - reflexivity.
  - exists refused. reflexivity.
  - split; [exact Hdel|exact Ht].
Defined.

Lemma nameless_object_is_not_found_witness :
  execute_command (delete_command "") (Scene [""] [])
  = (Returned (failure "Object not found"), Scene [""] []).
Proof.
  apply (@nameless_object_is_not_found ref_runtime scene_host
           [("action", JStr "delete_object");
            ("params", JObj [("name", JStr "")])]
           [("name", JStr "")] (Scene [""] []));
    [left; reflexivity|reflexivity|reflexivity].
Defined.

End MoreConcrete.
